(** * Braid gateway: the Google account-linking provider and the server

    A shallow embedding of [src/providers/google/google-provider.ts] and of
    the [Server] class (HTTP dispatcher, websocket registry, liveness
    monitor, message delivery), with the properties of the gateway
    specification stated over it.

    Conventions of the embedding:
    - a JavaScript string is a Rocq [string]; each character stands for one
      UTF-16 code unit below 256, so the inputs covered are the strings of
      that range;
    - a JavaScript value is a [JsValue] (the JSON data model, numbers being
      the integers); a property that is absent, or [undefined], is [None];
    - an object used as a dictionary is a [gmap];
    - a websocket is known by its identity, a [nat]; calls made on sockets,
      on the HTTP response, on loggers and on collaborators are recorded in
      order as a list of [Effect]s;
    - an [async] function is run to completion: it returns, throws (its
      promise rejects) or stays pending. *)

From Stdlib Require Import ZArith QArith Lqa Lia Ascii.
From stdpp Require Import gmap strings list pretty.

Local Open Scope Z_scope.

(* ===================================================================== *)
(** ** JavaScript values *)
(* ===================================================================== *)

#[warnings="-register-all"]
Inductive JsValue : Type :=
| JNull
| JBool (b : bool)
| JNum (n : Z)
| JStr (s : string)
| JArr (items : list JsValue)
| JObj (props : list (string * JsValue)).

(** Thrown values are [Error] objects: a name and a message. *)
Record JsError : Type := mkError { err_name : string; err_message : string }.

(** How a synchronous call, or an awaited one, completes. *)
Inductive Completion (A : Type) : Type :=
| Normal (a : A)
| Throw (e : JsError).
Arguments Normal {A} a.
Arguments Throw {A} e.

(** How the promise of a handler ends: resolved, rejected, or never
    settled. *)
Inductive Outcome (A : Type) : Type :=
| Returned (a : A)
| Threw (e : JsError)
| Pending.
Arguments Returned {A} a.
Arguments Threw {A} e.
Arguments Pending {A}.

Definition is_empty_string (s : string) : bool :=
  match s with EmptyString => true | String _ _ => false end.

(** ToBoolean. *)
Definition truthy (v : JsValue) : bool :=
  match v with
  | JNull => false
  | JBool b => b
  | JNum n => negb (n =? 0)
  | JStr s => negb (is_empty_string s)
  | JArr _ => true
  | JObj _ => true
  end.

(** ToBoolean of a value that may be [undefined]. *)
Definition truthy_opt (o : option JsValue) : bool :=
  match o with Some v => truthy v | None => false end.

Definition truthy_str (o : option string) : bool :=
  match o with Some s => negb (is_empty_string s) | None => false end.

Fixpoint assoc_get (k : string) (ps : list (string * JsValue)) : option JsValue :=
  match ps with
  | [] => None
  | (k', v) :: rest => if String.eqb k k' then Some v else assoc_get k rest
  end.

(** [v.k] for a named (non index) property [k] of a value other than
    [null]: own properties of objects, [length] of strings and arrays. *)
Definition js_get (v : JsValue) (k : string) : option JsValue :=
  match v with
  | JObj ps => assoc_get k ps
  | JStr s =>
      if String.eqb k "length" then Some (JNum (Z.of_nat (String.length s))) else None
  | JArr l =>
      if String.eqb k "length" then Some (JNum (Z.of_nat (length l))) else None
  | _ => None
  end.

Definition TypeError (m : string) : JsError := mkError "TypeError" m.

(** [v.k] where [v] itself may be [null] or [undefined]: reading a property
    of either throws a TypeError. *)
Definition js_get_checked (o : option JsValue) (k : string) : Completion (option JsValue) :=
  match o with
  | None => Throw (TypeError ("Cannot read properties of undefined (reading '" +:+ k +:+ "')"))
  | Some JNull => Throw (TypeError ("Cannot read properties of null (reading '" +:+ k +:+ "')"))
  | Some v => Normal (js_get v k)
  end.

(** [v[0]] for a value other than [null]. *)
Definition js_index0 (v : JsValue) : option JsValue :=
  match v with
  | JArr (e0 :: _) => Some e0
  | JStr (String c _) => Some (JStr (String c EmptyString))
  | JObj ps => assoc_get "0" ps
  | _ => None
  end.

(** Error.prototype.toString. *)
Definition Error_toString (e : JsError) : string :=
  if is_empty_string (err_name e) then err_message e
  else if is_empty_string (err_message e) then err_name e
  else err_name e +:+ ": " +:+ err_message e.

(* ===================================================================== *)
(** ** Strings: the String.prototype methods the handlers call *)
(* ===================================================================== *)

Definition dquote : string := String "034"%char EmptyString.

Definition str1 (c : ascii) : string := String c EmptyString.

Fixpoint is_prefix (p s : string) : bool :=
  match p, s with
  | EmptyString, _ => true
  | String a p', String b s' => if Ascii.eqb a b then is_prefix p' s' else false
  | String _ _, EmptyString => false
  end.

(** [s.includes(p)]. *)
Fixpoint includes (p s : string) : bool :=
  is_prefix p s ||
  match s with
  | EmptyString => false
  | String _ s' => includes p s'
  end.

(** [s.split(sep)] for a one-character separator; [cur] is the piece being
    read, in reverse. *)
Fixpoint split_go (sep : ascii) (cur : list ascii) (s : string) : list string :=
  match s with
  | EmptyString => [String.string_of_list_ascii (rev cur)]
  | String c s' =>
      if Ascii.eqb c sep then String.string_of_list_ascii (rev cur) :: split_go sep [] s'
      else split_go sep (c :: cur) s'
  end.

Definition split (sep : ascii) (s : string) : list string := split_go sep [] s.

(** WhiteSpace and LineTerminator code units below 256: TAB, LF, VT, FF,
    CR, SP and NBSP. *)
Definition is_js_space (c : ascii) : bool :=
  let n := nat_of_ascii c in
  ((9 <=? n) && (n <=? 13) || (n =? 32) || (n =? 160))%nat.

Fixpoint trim_start (s : string) : string :=
  match s with
  | EmptyString => EmptyString
  | String c s' => if is_js_space c then trim_start s' else s
  end.

Definition trim (s : string) : string :=
  String.rev (trim_start (String.rev (trim_start s))).

(** toLowerCase on code units below 256: A-Z, and the Latin-1 capitals
    U+00C0-U+00DE except the multiplication sign U+00D7. *)
Definition lower_char (c : ascii) : ascii :=
  let n := nat_of_ascii c in
  if ((65 <=? n) && (n <=? 90))%nat then ascii_of_nat (n + 32)
  else if ((192 <=? n) && (n <=? 222) && negb (n =? 215))%nat then ascii_of_nat (n + 32)
  else c.

Fixpoint toLowerCase (s : string) : string :=
  match s with
  | EmptyString => EmptyString
  | String c s' => String (lower_char c) (toLowerCase s')
  end.

(** [arr.join(sep)]. *)
Fixpoint join (sep : string) (l : list string) : string :=
  match l with
  | [] => EmptyString
  | [x] => x
  | x :: rest => x +:+ sep +:+ join sep rest
  end.

(* ===================================================================== *)
(** ** JSON.stringify *)
(* ===================================================================== *)

Definition hex_digit (n : nat) : ascii :=
  nth n (String.list_ascii_of_string "0123456789abcdef") "0"%char.

Definition json_escape (c : ascii) : string :=
  let n := nat_of_ascii c in
  if (n =? 8)%nat then "\b"
  else if (n =? 9)%nat then "\t"
  else if (n =? 10)%nat then "\n"
  else if (n =? 12)%nat then "\f"
  else if (n =? 13)%nat then "\r"
  else if (n =? 34)%nat then "\" +:+ dquote
  else if (n =? 92)%nat then "\\"
  else if (n <? 32)%nat then
    "\u00" +:+ str1 (hex_digit (n / 16)) +:+ str1 (hex_digit (n mod 16))
  else str1 c.

Fixpoint json_escape_all (s : string) : string :=
  match s with
  | EmptyString => EmptyString
  | String c s' => json_escape c +:+ json_escape_all s'
  end.

(** QuoteJSONString. *)
Definition QuoteJSONString (s : string) : string :=
  dquote +:+ json_escape_all s +:+ dquote.

Definition newline : string := String "010"%char EmptyString.

(** The wrapper shared by SerializeJSONObject and SerializeJSONArray. *)
Definition json_wrap (opening closing gap stepback indent : string)
    (partial : list string) : string :=
  match partial with
  | [] => opening +:+ closing
  | _ =>
      if is_empty_string gap then opening +:+ join "," partial +:+ closing
      else
        opening +:+ newline +:+ indent
        +:+ join ("," +:+ newline +:+ indent) partial
        +:+ newline +:+ stepback +:+ closing
  end.

(** SerializeJSONProperty; [indent] is the indentation of the enclosing
    value. *)
Fixpoint SerializeJSONProperty (gap indent : string) (v : JsValue) : string :=
  match v with
  | JNull => "null"
  | JBool true => "true"
  | JBool false => "false"
  | JNum n => pretty n
  | JStr s => QuoteJSONString s
  | JArr items =>
      json_wrap "[" "]" gap indent (indent +:+ gap)
        (map (SerializeJSONProperty gap (indent +:+ gap)) items)
  | JObj props =>
      json_wrap "{" "}" gap indent (indent +:+ gap)
        (map (fun kv =>
                match kv with
                | (k, x) =>
                    QuoteJSONString k +:+ ":"
                    +:+ (if is_empty_string gap then EmptyString else " ")
                    +:+ SerializeJSONProperty gap (indent +:+ gap) x
                end) props)
  end.

(** The third argument of [JSON.stringify]. *)
Inductive JsSpace : Type :=
| SpaceUndefined
| SpaceNull
| SpaceNumber (n : Z).

Fixpoint spaces (n : nat) : string :=
  match n with
  | O => EmptyString
  | S n' => String " " (spaces n')
  end.

(** The gap: up to ten spaces for a number at least 1, empty otherwise. *)
Definition gap_of (space : JsSpace) : string :=
  match space with
  | SpaceNumber n => spaces (Z.to_nat (Z.min 10 n))
  | _ => EmptyString
  end.

Definition JSON_stringify (v : JsValue) (space : JsSpace) : string :=
  SerializeJSONProperty (gap_of space) EmptyString v.

(** The runtime's [JSON.parse], which throws a SyntaxError on a text that
    is not JSON. *)
Class JsRuntime : Type := {
  JSON_parse : string -> Completion JsValue
}.

(* ===================================================================== *)
(** ** Arrays *)
(* ===================================================================== *)

(** [arr.indexOf(x)]: the index of the first occurrence, or -1. *)
Fixpoint indexOf_from {A : Type} `{EqDecision A} (l : list A) (x : A) (i : Z) : Z :=
  match l with
  | [] => -1
  | y :: rest => if decide (y = x) then i else indexOf_from rest x (i + 1)
  end.

Definition indexOf {A : Type} `{EqDecision A} (l : list A) (x : A) : Z :=
  indexOf_from l x 0.

(** [arr.splice(i, 1)] for an index [i] the caller has found with
    [indexOf]. *)
Definition splice1 {A : Type} (l : list A) (i : Z) : list A :=
  delete (Z.to_nat i) l.

(** The values a [for ... of] loop visits: the elements of an array, the
    characters of a string; anything else is not iterable. *)
Definition iterate (v : JsValue) : Completion (list JsValue) :=
  match v with
  | JArr items => Normal items
  | JStr s => Normal (map (fun c => JStr (str1 c)) (String.list_ascii_of_string s))
  | _ => Throw (TypeError "object is not iterable")
  end.

(* ===================================================================== *)
(** ** Contexts, requests, results and recorded effects *)
(* ===================================================================== *)

Definition WebSocket : Type := nat.

Record User : Type := mkUser { user_id : string }.

(** Modelled from the spec: the execution context of
    [src/execution-context.ts] (a scope kind, the inherited configuration
    snapshot, the authenticated user and the bound connection, both
    optional); [getConfig] reads the snapshot. *)
Record Context : Type := mkContext {
  kind : string;
  configData : gmap string JsValue;
  user : option User;
  websocket : option WebSocket
}.

Definition ExecutionContext (k : string) (parent : gmap string JsValue) : Context :=
  mkContext k parent None None.

Definition getConfig (c : Context) (key : string) : option JsValue :=
  configData c !! key.

Definition set_websocket (c : Context) (ws : WebSocket) : Context :=
  mkContext (kind c) (configData c) (user c) (Some ws).

Definition set_user (c : Context) (u : option User) : Context :=
  mkContext (kind c) (configData c) u (websocket c).

Record Request : Type := mkRequest { query : gmap string string }.

(** The result a REST handler returns, with the fields in the order of the
    constructor's arguments at its call sites: [json], [statusCode],
    [message], [redirectUrl]. *)
Record RestServiceResult : Type := mkResult {
  json : option JsValue;
  statusCode : option Z;
  message : option string;
  redirectUrl : option string
}.

Inductive Effect : Type :=
| WsSend (ws : WebSocket) (data : string)
| WsClose (ws : WebSocket)
| SetHeader (name value : string)
| ContentType (t : string)
| Status (code : Z)
| Send (body : string)
| EndResponse
| Redirect (url : string)
| Json (v : JsValue)
| LoggerError (e : JsError)
| LoggerWarn (method text : string)
| LoggerLog (method text : string)
| ConsoleWarn (text : string)
| OpenRequest (ws : WebSocket) (userId : JsValue)
| CardMessage (serviceId : string) (msg : JsValue)
| AppMessage (msg : JsValue)
| SocketClosed (serviceId : string)
| TokenExchange (code : string)
| ProfileFetch (tokens : JsValue)
| UpsertGoogleUser (braidUserId googleUserId email : option JsValue)
    (profile tokens : JsValue) (services : option JsValue)
| Finish (kind : string) (error : option JsError).

(* ===================================================================== *)
(** ** Collaborators *)
(* ===================================================================== *)

(** A Google sub-service searcher: the id of its descriptor and the OAuth
    scopes it declares. *)
Record GoogleSearcher : Type := mkSearcher {
  descriptor_id : string;
  getOauthScopes : list string
}.

Record AuthUrlOptions : Type := mkAuthUrlOptions {
  access_type : string;
  scope : list string;
  state : string
}.

(** What the provider code reaches outside the repository's sources shown:
    the two searchers, the OAuth client made by [createOauthClient], the
    profile endpoint, the Google user collection and [utils]. *)
Class GoogleEnv : Type := {
  gmailSearcher : GoogleSearcher;
  googleDriveSearcher : GoogleSearcher;
  generateAuthUrl : Context -> AuthUrlOptions -> string;
  getToken : Context -> string -> Completion JsValue;
  userinfo_get : JsValue -> Completion JsValue;
  upsertRecord : Context -> option JsValue -> option JsValue -> option JsValue ->
                 JsValue -> JsValue -> option JsValue -> Completion unit;
  appendUrlParam : option JsValue -> string -> option JsValue -> string
}.

(** A handler of card messages for one sub-service. *)
Record ServiceHandler : Type := mkHandler {
  serviceId : string;
  handleClientCardMessage : Context -> JsValue -> Completion unit;
  handleClientSocketClosed : Context -> Completion unit
}.

(** The user manager, with a state of its own that its hooks thread. A hook
    is given the context and either throws or leaves [context.user] at the
    value it returns here. *)
Class UserManager : Type := {
  UM : Type;
  onWebsocketEvent :
    UM -> Context -> WebSocket -> Request -> UM * Completion (option User);
  onWebsocketOpenRequest :
    UM -> Context -> WebSocket -> JsValue -> UM * Completion (option User);
  initializeHttpContext :
    UM -> Context -> Request -> UM * Completion (option User)
}.

(* ===================================================================== *)
(** ** GoogleProvider *)
(* ===================================================================== *)

Definition bad_request (text : string) : RestServiceResult :=
  mkResult None (Some 400) (Some text) None.

Definition redirect_to (url : string) : RestServiceResult :=
  mkResult None None None (Some url).

Definition base_scopes : list string :=
  ["https://www.googleapis.com/auth/userinfo.email";
   "https://www.googleapis.com/auth/userinfo.profile"].

(** [addScopes]: push each scope that [indexOf] does not find. *)
Fixpoint addScopes (scopes add : list string) : list string :=
  match add with
  | [] => scopes
  | a :: rest =>
      if indexOf scopes a <? 0 then addScopes (scopes ++ [a]) rest
      else addScopes scopes rest
  end.

Section Provider.
Context `{JsRuntime} `{GoogleEnv}.

(** One turn of the loop over the requested service ids: the pair is
    [(scopes, scopedServiceIds)]. *)
Definition auth_request_step (acc : list string * list string) (sid : string)
    : list string * list string :=
  let key := toLowerCase (trim sid) in
  if String.eqb key (descriptor_id gmailSearcher) then
    (addScopes (fst acc) (getOauthScopes gmailSearcher), snd acc ++ [sid])
  else if String.eqb key (descriptor_id googleDriveSearcher) then
    (addScopes (fst acc) (getOauthScopes googleDriveSearcher), snd acc ++ [sid])
  else acc.

Definition auth_request_loop (serviceIds : list string) : list string * list string :=
  foldl auth_request_step (base_scopes, []) serviceIds.

Definition link_state (braidUserId : string) (scopedServiceIds : list string)
    (callbackUrl : string) : JsValue :=
  JObj [("braidUserId", JStr braidUserId);
        ("services", JArr (map JStr scopedServiceIds));
        ("clientCallback", JStr callbackUrl)].

Definition handleServiceAuthRequest (context : Context) (request : Request)
    : RestServiceResult :=
  match query request !! "braidUserId" with
  | None | Some EmptyString => bad_request "Missing token param"
  | Some braidUserId =>
      match query request !! "callback" with
      | None | Some EmptyString => bad_request "Missing callback param"
      | Some callbackUrl =>
          match query request !! "serviceIds" with
          | None | Some EmptyString => bad_request "Missing serviceIds param"
          | Some serviceIdString =>
              let serviceIds := split "," serviceIdString in
              let r := auth_request_loop serviceIds in
              redirect_to
                (generateAuthUrl context
                   (mkAuthUrlOptions "offline" (fst r)
                      (JSON_stringify (link_state braidUserId (snd r) callbackUrl)
                         SpaceUndefined)))
          end
      end
  end.

(** ToString of a query parameter that may be absent. *)
Definition ToString_opt (o : option string) : string :=
  match o with Some s => s | None => "undefined" end.

(** The callback the profile request ends in; an exception in it, or a
    rejected upsert, leaves the handler's promise unsettled. *)
Definition on_profile (context : Context) (st tokens profile : JsValue)
    : list Effect * Outcome RestServiceResult :=
  match js_get_checked (Some profile) "id" with
  | Normal pid =>
      ([UpsertGoogleUser (js_get st "braidUserId") pid (js_get profile "email")
          profile tokens (js_get st "services")],
       match upsertRecord context (js_get st "braidUserId") pid
               (js_get profile "email") profile tokens (js_get st "services") with
       | Normal _ =>
           Returned (redirect_to
                       (appendUrlParam (js_get st "clientCallback") "accountId" pid))
       | Throw _ => Pending
       end)
  | Throw _ => ([], Pending)
  end.

Definition handleServiceAuthCallback (context : Context) (request : Request)
    : list Effect * Outcome RestServiceResult :=
  match query request !! "code" with
  | None | Some EmptyString => ([], Returned (bad_request "Auth code is missing"))
  | Some code =>
      match JSON_parse (ToString_opt (query request !! "state")) with
      | Normal st =>
          if negb (truthy st) || negb (truthy_opt (js_get st "braidUserId"))
             || negb (truthy_opt (js_get st "services"))
          then ([], Returned (bad_request "State information is missing"))
          else
            match getToken context code with
            | Normal tokens =>
                match userinfo_get tokens with
                | Normal profile =>
                    let r := on_profile context st tokens profile in
                    (TokenExchange code :: ProfileFetch tokens :: fst r, snd r)
                | Throw profileErr =>
                    ([TokenExchange code; ProfileFetch tokens], Threw profileErr)
                end
            | Throw err => ([TokenExchange code], Threw err)
            end
      | Throw e => ([], Threw e)
      end
  end.

(** The loop of [getEmailFromProfile]: [Some r] when the body returned
    [r], [None] when the loop ran to its end. *)
Fixpoint find_account_email (emails : list JsValue)
    : Completion (option (option JsValue)) :=
  match emails with
  | [] => Normal None
  | email :: rest =>
      match js_get_checked (Some email) "type" with
      | Normal (Some (JStr "account")) => Normal (Some (js_get email "value"))
      | Normal _ => find_account_email rest
      | Throw e => Throw e
      end
  end.

(** [x > 0] for the value of a [length] property. *)
Definition gt_zero (o : option JsValue) : bool :=
  match o with Some (JNum n) => 0 <? n | _ => false end.

(** [profile.emails] for a truthy [profile]. *)
Definition profile_emails (profile : JsValue) : option JsValue :=
  js_get profile "emails".

(** The second [if] of [getEmailFromProfile] and the final [return]. *)
Definition first_email (profile : option JsValue) : Completion (option JsValue) :=
  match profile with
  | Some p =>
      if truthy p then
        match js_get_checked (profile_emails p) "length" with
        | Normal len =>
            if gt_zero len then
              js_get_checked (from_option js_index0 None (profile_emails p)) "value"
            else Normal (Some JNull)
        | Throw e => Throw e
        end
      else Normal (Some JNull)
  | None => Normal (Some JNull)
  end.

Definition getEmailFromProfile (profile : option JsValue) : Completion (option JsValue) :=
  match profile with
  | Some p =>
      if truthy p && truthy_opt (profile_emails p) then
        match from_option iterate (Normal []) (profile_emails p) with
        | Normal items =>
            match find_account_email items with
            | Normal (Some r) => Normal r
            | Normal None => first_email profile
            | Throw e => Throw e
            end
        | Throw e => Throw e
        end
      else first_email profile
  | None => first_email profile
  end.

End Provider.

(* ===================================================================== *)
(** ** Server: the registry of client sockets *)
(* ===================================================================== *)

(** [activeSocketsByUser]: user id to the list of that user's sockets. *)
Abbreviation Registry := (gmap string (list WebSocket)).

(** The names every plain object inherits from [Object.prototype]. *)
Definition Object_prototype_names : list string :=
  ["constructor"; "__defineGetter__"; "__defineSetter__"; "hasOwnProperty";
   "__lookupGetter__"; "__lookupSetter__"; "isPrototypeOf"; "propertyIsEnumerable";
   "toString"; "valueOf"; "__proto__"; "toLocaleString"].

(** What [this.activeSocketsByUser[id]] finds: the list stored under the
    id, or the value the object inherits under that name (a function, or
    the prototype itself: truthy, and not a list), or [undefined]. *)
Inductive Found : Type :=
| Own (socketList : list WebSocket)
| Inherited
| NotFound.

Definition find_sockets (sockets : Registry) (userId : string) : Found :=
  match sockets !! userId with
  | Some socketList => Own socketList
  | None =>
      if bool_decide (userId ∈ Object_prototype_names) then Inherited else NotFound
  end.

(** [registerClientSocket]: the registry the call leaves and the
    exception it throws, if any. On an inherited value [push] is not a
    function. *)
Definition registerClientSocket (sockets : Registry) (context : Context)
    (ws : WebSocket) : Registry * option JsError :=
  match user context with
  | Some u =>
      match find_sockets sockets (user_id u) with
      | Own socketList => (<[user_id u := socketList ++ [ws]]> sockets, None)
      | NotFound => (<[user_id u := [] ++ [ws]]> sockets, None)
      | Inherited => (sockets, Some (TypeError "socketList.push is not a function"))
      end
  | None => (sockets, None)
  end.

(** [unregisterClientSocket]: the registry the call leaves and the
    exception it throws, if any. On an inherited value [indexOf] is not a
    function. *)
Definition unregisterClientSocket (sockets : Registry) (context : Context)
    (ws : WebSocket) : Registry * option JsError :=
  match user context with
  | Some u =>
      match find_sockets sockets (user_id u) with
      | Own socketList =>
          if 0 <=? indexOf socketList ws then
            if (1 <? length socketList)%nat then
              (<[user_id u := splice1 socketList (indexOf socketList ws)]> sockets, None)
            else (delete (user_id u) sockets, None)
          else (sockets, None)
      | NotFound => (sockets, None)
      | Inherited => (sockets, Some (TypeError "socketList.indexOf is not a function"))
      end
  | None => (sockets, None)
  end.

(** [onUserSignedOut]: the registry the call leaves and the sockets it
    closes. Under an inherited name the loop throws before it closes
    anything, and the registry is left as it was. *)
Definition onUserSignedOut (sockets : Registry) (userId : string)
    : Registry * list Effect :=
  match sockets !! userId with
  | Some socketList => (delete userId sockets, map WsClose socketList)
  | None => (sockets, [])
  end.

(** The third argument of the unicast [JSON.stringify]:
    [getConfig('debug.messages.pretty') ? 3 : null]. *)
Definition unicast_space (context : Context) : JsSpace :=
  if truthy_opt (getConfig context "debug.messages.pretty") then SpaceNumber 3
  else SpaceNull.

(** [deliverMessage]: the sends of the call. Under an inherited name the
    loop of the multicast throws before it sends anything. *)
Definition deliverMessage (sockets : Registry) (context : Context)
    (message : JsValue) (multicast : bool) : list Effect :=
  if multicast then
    match user context with
    | Some u =>
        match sockets !! user_id u with
        | Some socketList =>
            let serialized := JSON_stringify message SpaceUndefined in
            map (fun ws => WsSend ws serialized) socketList
        | None => []
        end
    | None => []
    end
  else
    match websocket context with
    | Some ws => [WsSend ws (JSON_stringify message (unicast_space context))]
    | None => []
    end.

(* ===================================================================== *)
(** ** Server: websocket messages *)
(* ===================================================================== *)

Definition msg_open_success : JsValue := JObj [("type", JStr "open-success")].

Definition msg_open_failed : JsValue :=
  JObj [("type", JStr "open-failed");
        ("details", JObj [("message", JStr "No such user")])].

(** [v === s] for a string constant [s]. *)
Definition strict_eq_str (v : option JsValue) (s : string) : bool :=
  match v with Some (JStr t) => String.eqb t s | _ => false end.

(** What the try block of a handler leaves behind: the registry, the user
    manager's state, the calls made, and the exception caught if any. *)
Record Routed (S : Type) : Type := mkRouted {
  r_sockets : Registry;
  r_um : S;
  r_effects : list Effect;
  r_error : option JsError
}.
Arguments mkRouted {S}.
Arguments r_sockets {S}.
Arguments r_um {S}.
Arguments r_effects {S}.
Arguments r_error {S}.

Section Server.
Context `{JsRuntime} `{UserManager}.
Variable serviceHandlers : list ServiceHandler.

(** The loop over the service handlers for a card message. *)
Fixpoint card_loop (hs : list ServiceHandler) (context : Context) (msg : JsValue)
    : list Effect * option JsError :=
  match hs with
  | [] => ([], None)
  | handler :: rest =>
      if strict_eq_str (js_get msg "serviceId") (serviceId handler) then
        match handleClientCardMessage handler context msg with
        | Normal _ =>
            (CardMessage (serviceId handler) msg :: fst (card_loop rest context msg),
             snd (card_loop rest context msg))
        | Throw e => ([CardMessage (serviceId handler) msg], Some e)
        end
      else card_loop rest context msg
  end.

(** The branch for [msg.type === 'open']. *)
Definition route_open (sockets : Registry) (um : UM) (context : Context)
    (ws : WebSocket) (msg : JsValue) : Routed UM :=
  match js_get msg "details" with
  | Some details =>
      match js_get details "userId" with
      | Some userId =>
          if truthy details && truthy userId then
            match onWebsocketOpenRequest um context ws userId with
            | (um', Normal (Some u)) =>
                match registerClientSocket sockets (set_user context (Some u)) ws with
                | (sockets', None) =>
                    mkRouted sockets' um'
                      (OpenRequest ws userId
                       :: deliverMessage sockets' (set_user context (Some u))
                            msg_open_success false)
                      None
                | (sockets', Some e) =>
                    mkRouted sockets' um' [OpenRequest ws userId] (Some e)
                end
            | (um', Normal None) => mkRouted sockets um' [OpenRequest ws userId] None
            | (um', Throw e) => mkRouted sockets um' [OpenRequest ws userId] (Some e)
            end
          else
            mkRouted sockets um
              (LoggerWarn "handleWebsocketMessage" "Invalid client open message"
               :: deliverMessage sockets context msg_open_failed false)
              None
      | None =>
          mkRouted sockets um
            (LoggerWarn "handleWebsocketMessage" "Invalid client open message"
             :: deliverMessage sockets context msg_open_failed false)
            None
      end
  | None =>
      mkRouted sockets um
        (LoggerWarn "handleWebsocketMessage" "Invalid client open message"
         :: deliverMessage sockets context msg_open_failed false)
        None
  end.

(** The try block of [handleWebsocketMessage]. *)
Definition route_message (sockets : Registry) (um : UM) (context : Context)
    (ws : WebSocket) (message : string) : Routed UM :=
  match JSON_parse message with
  | Throw e => mkRouted sockets um [] (Some e)
  | Normal msg =>
      if negb (truthy msg) || negb (truthy_opt (js_get msg "type")) then
        mkRouted sockets um []
          (Some (mkError "Error"
                   ("Unexpected or invalid message: "
                    +:+ JSON_stringify (JStr message) SpaceUndefined)))
      else if strict_eq_str (js_get msg "type") "open" then
        route_open sockets um context ws msg
      else if truthy_opt (js_get msg "serviceId") && truthy_opt (js_get msg "accountId")
      then
        match user context with
        | Some _ =>
            mkRouted sockets um (fst (card_loop serviceHandlers context msg))
              (snd (card_loop serviceHandlers context msg))
        | None =>
            mkRouted sockets um
              [LoggerWarn "handleWebsocketMessage"
                 "Unexpected card client message when no current user"]
              None
        end
      else
        match user context with
        | Some _ => mkRouted sockets um [AppMessage msg] None
        | None =>
            mkRouted sockets um
              [LoggerWarn "handleWebsocketMessage"
                 "Unexpected app client message when no current user"]
              None
        end
  end.

(** The catch block: the warning printed for a caught exception. *)
Definition caught (error : option JsError) : list Effect :=
  match error with
  | Some _ => [ConsoleWarn "Exception handling client message"]
  | None => []
  end.

Definition handleWebsocketMessage (sockets : Registry) (um : UM)
    (parentContextData : gmap string JsValue) (ws : WebSocket) (request : Request)
    (message : string) : Registry * UM * list Effect * Outcome unit :=
  let context := set_websocket (ExecutionContext "ws-message" parentContextData) ws in
  match onWebsocketEvent um context ws request with
  | (um1, Normal u) =>
      let r := route_message sockets um1 (set_user context u) ws message in
      (r_sockets r, r_um r,
       r_effects r ++ caught (r_error r) ++ [Finish "ws-message" (r_error r)],
       Returned tt)
  | (um1, Throw e) => (sockets, um1, [], Threw e)
  end.

(** The loop of [handleWebsocketClose] over the service handlers. *)
Fixpoint closed_loop (hs : list ServiceHandler) (context : Context)
    : list Effect * option JsError :=
  match hs with
  | [] => ([], None)
  | handler :: rest =>
      match handleClientSocketClosed handler context with
      | Normal _ =>
          (SocketClosed (serviceId handler) :: fst (closed_loop rest context),
           snd (closed_loop rest context))
      | Throw e => ([SocketClosed (serviceId handler)], Some e)
      end
  end.

Definition handleWebsocketClose (sockets : Registry) (um : UM)
    (parentContextData : gmap string JsValue) (ws : WebSocket) (request : Request)
    : Registry * UM * list Effect * Outcome unit :=
  let context := ExecutionContext "ws-close" parentContextData in
  match onWebsocketEvent um context ws request with
  | (um1, Normal u) =>
      match unregisterClientSocket sockets (set_user context u) ws with
      | (sockets', None) =>
          (sockets', um1,
           LoggerLog "handleWebsocketClose" "Client socket closed"
           :: fst (closed_loop serviceHandlers (set_user context u))
           ++ [Finish "ws-close"
                 (snd (closed_loop serviceHandlers (set_user context u)))],
           Returned tt)
      | (sockets', Some e) =>
          (sockets', um1, [LoggerLog "handleWebsocketClose" "Client socket closed"],
           Threw e)
      end
  | (um1, Throw e) =>
      (sockets, um1, [LoggerLog "handleWebsocketClose" "Client socket closed"], Threw e)
  end.

(* =================================================================== *)
(** ** Server: the HTTP dispatcher *)
(* =================================================================== *)

(** A registered handler: the calls it makes and how its promise ends. *)
Definition RestServiceHandler : Type :=
  forall (context : Context) (request : Request), list Effect * Outcome RestServiceResult.

Definition no_cache : Effect :=
  SetHeader "Cache-Control" "no-cache, no-store, max-age=0, must-revalidate".

Definition sendInternalError (err : string) : list Effect :=
  [SetHeader "Content-Type" "text/plain";
   Status 500;
   Send ("Internal server error: " +:+ JSON_stringify (JStr err) SpaceUndefined)].

(** The response written for the result of a handler. *)
Definition write_result (contentType : option string) (result : RestServiceResult)
    : list Effect :=
  match redirectUrl result with
  | Some (String c u) => [Redirect (String c u)]
  | _ =>
      if truthy_opt (json result) then
        match json result with Some j => [Json j] | None => [] end
      else
        (match contentType with
         | Some (String c t) => [ContentType (String c t)]
         | _ => []
         end)
        ++ [Status (match statusCode result with
                    | Some code => if code =? 0 then 200 else code
                    | None => 200
                    end)]
        ++ (match message result with
            | Some (String c m) => [Send (String c m)]
            | _ => [EndResponse]
            end)
  end.

(** The catch block of [handleHttpRequest]. *)
Definition http_catch (err : JsError) : list Effect :=
  LoggerError err :: sendInternalError (Error_toString err) ++ [Finish "http" (Some err)].

Definition handleHttpRequest (um : UM) (parentContext : Context) (request : Request)
    (handler : RestServiceHandler) (cacheable : bool) (contentType : option string)
    : UM * list Effect * Outcome unit :=
  let context := ExecutionContext "http" (configData parentContext) in
  let headers := if cacheable then [] else [no_cache] in
  match initializeHttpContext um context request with
  | (um1, Normal u) =>
      match handler (set_user context u) request with
      | (calls, Returned result) =>
          (um1,
           headers ++ calls ++ write_result contentType result ++ [Finish "http" None],
           Returned tt)
      | (calls, Threw err) => (um1, headers ++ calls ++ http_catch err, Returned tt)
      | (calls, Pending) => (um1, headers ++ calls, Pending)
      end
  | (um1, Throw err) => (um1, headers ++ http_catch err, Returned tt)
  end.

End Server.

(* ===================================================================== *)
(** ** Server: accepted websockets and the ping-pong monitor *)
(* ===================================================================== *)

(** [getConfig(key, default)]: the configured value, whatever it is, or
    the default when the key is not configured. *)
Definition getConfig_default (context : Context) (key : string) (default : JsValue)
    : JsValue :=
  match getConfig context key with
  | Some v => v
  | None => default
  end.

(** [v === 0]. *)
Definition is_zero (v : JsValue) : bool :=
  match v with JNum n => n =? 0 | _ => false end.

(** The local [pingPongInterval] of [handleWebsockets]. The cast
    [as number] checks nothing: a configured value that is not a number is
    kept as it is. *)
Definition pingPongInterval (context : Context) : JsValue :=
  if is_zero (getConfig_default context "client.pingPongInterval" (JNum 10000))
  then JNum (1000 * 60 * 60 * 24)
  else getConfig_default context "client.pingPongInterval" (JNum 10000).

(** [a > b] on numbers. *)
Definition Qgt_bool (a b : Q) : bool := negb (Qle_bool a b).

(** What arrives on a socket: a text frame or anything else. *)
Inductive WsData : Type :=
| TextData (s : string)
| OtherData.

(** The events of one accepted socket, with the reading of [clock.now()]
    at the time of each. *)
Inductive SocketEvent : Type :=
| TimerFired (now : Q)
| MessageReceived (now : Q) (data : WsData)
| CloseReceived.

(** The variables the closures of one accepted socket share. *)
Record Monitor : Type := mkMonitor {
  lastPong : Q;
  timerSet : bool
}.

(** What a closure does in answer to an event. *)
Inductive MonitorAction : Type :=
| DoClose
| DoPing
| DoNothing
| DoHandleMessage (m : string)
| DoWarnInvalid
| DoHandleClose.

(** The body of the [app.ws] callback: the first deadline and the timer. *)
Definition accept_socket (pingPong : Q) (now : Q) : Monitor :=
  mkMonitor (now + pingPong / 2)%Q true.

Definition monitor_step (pingPong : Q) (m : Monitor) (ev : SocketEvent)
    : Monitor * MonitorAction :=
  match ev with
  | TimerFired now =>
      if timerSet m then
        if Qgt_bool (now - lastPong m)%Q pingPong then (m, DoClose) else (m, DoPing)
      else (m, DoNothing)
  | MessageReceived now (TextData (String c s)) =>
      if String.eqb (String c s) "__pong__" then (mkMonitor now (timerSet m), DoNothing)
      else (m, DoHandleMessage (String c s))
  | MessageReceived now _ => (m, DoWarnInvalid)
  | CloseReceived => (mkMonitor (lastPong m) false, DoHandleClose)
  end.

(** The actions of a monitor along a list of events, in order. *)
Fixpoint monitor_run (pingPong : Q) (m : Monitor) (evs : list SocketEvent)
    : list MonitorAction :=
  match evs with
  | [] => []
  | ev :: rest =>
      snd (monitor_step pingPong m ev)
      :: monitor_run pingPong (fst (monitor_step pingPong m ev)) rest
  end.

Section Websockets.
Context `{JsRuntime} `{UserManager}.
Variable serviceHandlers : list ServiceHandler.

(** [handleWebsockets]: one event of an accepted socket [ws], answered by
    the closures registered on it, on the whole server; [pingPong] is the
    number the local [pingPongInterval] holds. *)
Definition socket_event (pingPong : Q) (context : Context) (ws : WebSocket)
    (request : Request) (sockets : Registry) (um : UM) (m : Monitor) (ev : SocketEvent)
    : Registry * UM * Monitor * list Effect :=
  match monitor_step pingPong m ev with
  | (m', DoClose) =>
      (sockets, um, m',
       [LoggerLog "handleWebsockets"
          "Client socket being closed because of ping-pong timeout";
        WsClose ws])
  | (m', DoPing) => (sockets, um, m', [WsSend ws "__ping__"])
  | (m', DoNothing) => (sockets, um, m', [])
  | (m', DoHandleMessage text) =>
      match handleWebsocketMessage serviceHandlers sockets um (configData context)
              ws request text with
      | (sockets', um', calls, _) => (sockets', um', m', calls)
      end
  | (m', DoWarnInvalid) =>
      (sockets, um, m', [ConsoleWarn "Invalid message received on socket"])
  | (m', DoHandleClose) =>
      match handleWebsocketClose serviceHandlers sockets um (configData context)
              ws request with
      | (sockets', um', calls, _) => (sockets', um', m', calls)
      end
  end.

End Websockets.

(** "A liveness reply within every period", read off the events alone:
    at each firing of the timer the latest reply ([last], at first the
    seeded deadline) is at most one period old. *)
Fixpoint replies_every_period (pingPong last : Q) (evs : list SocketEvent) : Prop :=
  match evs with
  | [] => True
  | TimerFired now :: rest =>
      (now - last <= pingPong)%Q /\ replies_every_period pingPong last rest
  | MessageReceived now (TextData text) :: rest =>
      if String.eqb text "__pong__" then replies_every_period pingPong now rest
      else replies_every_period pingPong last rest
  | _ :: rest => replies_every_period pingPong last rest
  end.

(** The time of the last liveness reply of a trace: the reading of the
    clock at its last [__pong__], or [seed] when it has none. *)
Fixpoint last_reply (seed : Q) (evs : list SocketEvent) : Q :=
  match evs with
  | [] => seed
  | MessageReceived now (TextData text) :: rest =>
      if String.eqb text "__pong__" then last_reply now rest else last_reply seed rest
  | _ :: rest => last_reply seed rest
  end.

(** The variables of the closures after a list of events. *)
Fixpoint monitor_after (pingPong : Q) (m : Monitor) (evs : list SocketEvent) : Monitor :=
  match evs with
  | [] => m
  | ev :: rest => monitor_after pingPong (fst (monitor_step pingPong m ev)) rest
  end.

(** The number the local [pingPongInterval] holds, when it holds one. *)
Definition interval_number (v : JsValue) : option Q :=
  match v with
  | JNum n => Some (inject_Z n)
  | _ => None
  end.

(* ===================================================================== *)
(** ** GoogleProvider: the profile of a linked user *)
(* ===================================================================== *)

Definition PROVIDER_ID : string := "com.hivepoint.google".

(** A record of the Google user collection, with the fields the provider
    reads. *)
Record GoogleUser : Type := mkGoogleUser {
  googleUserId : string;
  profile : JsValue;
  serviceIds : list string
}.

(** The Google user collection of [src/db]. *)
Class GoogleUsers : Type := {
  findByBraidUserId : Context -> string -> Completion (list GoogleUser)
}.

(** A property of an object literal; one whose value is [undefined] is
    left out, as [response.json] leaves it out of the text. *)
Definition opt_prop (k : string) (v : option JsValue) : list (string * JsValue) :=
  match v with Some x => [(k, x)] | None => [] end.

(** The account literal built for one stored user; reading [name] of a
    [null] profile throws. *)
Definition account_of (user : GoogleUser) : Completion JsValue :=
  match js_get_checked (Some (profile user)) "name" with
  | Normal name =>
      Normal (JObj ([("accountId", JStr (googleUserId user))]
                    ++ opt_prop "name" name
                    ++ opt_prop "accountName" (js_get (profile user) "email")
                    ++ opt_prop "imageUrl" (js_get (profile user) "picture")
                    ++ [("serviceIds", JArr (map JStr (serviceIds user)))]))
  | Throw e => Throw e
  end.

(** The loop of [handleUserProfile] over the stored users. *)
Fixpoint accounts_loop (users : list GoogleUser) : Completion (list JsValue) :=
  match users with
  | [] => Normal []
  | user :: rest =>
      match account_of user with
      | Normal account =>
          match accounts_loop rest with
          | Normal accounts => Normal (account :: accounts)
          | Throw e => Throw e
          end
      | Throw e => Throw e
      end
  end.

Definition not_found (text : string) : RestServiceResult :=
  mkResult None (Some 404) (Some text) None.

Definition json_result (v : JsValue) : RestServiceResult :=
  mkResult (Some v) None None None.

Section UserProfile.
Context `{GoogleUsers}.

Definition handleUserProfile (context : Context) (request : Request)
    : list Effect * Outcome RestServiceResult :=
  match query request !! "braidUserId" with
  | None | Some EmptyString =>
      ([], Returned (bad_request "Missing userToken and/or id parameters"))
  | Some braidUserId =>
      match findByBraidUserId context braidUserId with
      | Normal users =>
          if (length users =? 0)%nat then
            ([], Returned (not_found "No matching Google user"))
          else
            match accounts_loop users with
            | Normal accounts =>
                ([], Returned (json_result
                                 (JObj [("providerId", JStr PROVIDER_ID);
                                        ("braidUserId", JStr braidUserId);
                                        ("accounts", JArr accounts)])))
            | Throw e => ([], Threw e)
            end
      | Throw e => ([], Threw e)
      end
  end.

End UserProfile.

(* ===================================================================== *)
(** ** Server: the certificate chain *)
(* ===================================================================== *)

(** [line.match(/-END CERTIFICATE-/)]. *)
Definition ends_certificate (line : string) : bool :=
  includes "-END CERTIFICATE-" line.

(** The loop of [getCertificateAuthority] over the lines of the chain:
    [cert] holds the lines of the certificate being read, [ca] the
    certificates read. *)
Fixpoint certificate_loop (chains cert ca : list string) : list string :=
  match chains with
  | [] => ca
  | line :: rest =>
      if (0 <? String.length line)%nat then
        if ends_certificate line then
          certificate_loop rest [] (ca ++ [join newline (cert ++ [line])])
        else certificate_loop rest (cert ++ [line]) ca
      else certificate_loop rest cert ca
  end.

(** [getCertificateAuthority]; [readFileSync] is the file system, and the
    result is [undefined] when [ssl.ca] is not configured. *)
Definition getCertificateAuthority (readFileSync : JsValue -> string) (context : Context)
    : option (list string) :=
  if truthy_opt (getConfig context "ssl.ca") then
    match getConfig context "ssl.ca" with
    | Some file =>
        Some (certificate_loop (split "010"%char (readFileSync file)) [] [])
    | None => None
    end
  else None.

(* ===================================================================== *)
(** ** Server: the registration of handlers *)
(* ===================================================================== *)

(** The base path of dynamic routes, from [src/url-manager]. *)
Class UrlManager : Type := {
  getDynamicBaseUrl : Context -> string
}.

(** A route of the express application: the verb and path it is
    registered under and the arguments the dispatcher is called with. *)
Record Route : Type := mkRoute {
  verb : string;
  path : string;
  route_handler : RestServiceHandler;
  route_cacheable : bool;
  route_contentType : option string
}.

Section Registration.
Context `{UrlManager}.

Definition route_path (context : Context) (suffix : string) (dynamic : bool) : string :=
  (if dynamic then getDynamicBaseUrl context else EmptyString) +:+ suffix.

Definition registerGet (app : list Route) (context : Context)
    (handler : RestServiceHandler) (suffix : string) (dynamic cacheable : bool)
    (contentType : option string) : list Route :=
  app ++ [mkRoute "get" (route_path context suffix dynamic) handler cacheable contentType].

Definition registerPut (app : list Route) (context : Context)
    (handler : RestServiceHandler) (suffix : string) (dynamic cacheable : bool)
    : list Route :=
  app ++ [mkRoute "put" (route_path context suffix dynamic) handler cacheable None].

Definition registerPost (app : list Route) (context : Context)
    (handler : RestServiceHandler) (suffix : string) (dynamic cacheable : bool)
    : list Route :=
  app ++ [mkRoute "post" (route_path context suffix dynamic) handler cacheable None].

Definition registerDelete (app : list Route) (context : Context)
    (handler : RestServiceHandler) (suffix : string) (dynamic cacheable : bool)
    : list Route :=
  app ++ [mkRoute "delete" (route_path context suffix dynamic) handler cacheable None].

Definition registerHandler (app : list Route) (context : Context)
    (handler : RestServiceHandler) (action suffix : string) (dynamic cacheable : bool)
    : Completion (list Route) :=
  if String.eqb action "get" then
    Normal (registerGet app context handler suffix dynamic cacheable None)
  else if String.eqb action "put" then
    Normal (registerPut app context handler suffix dynamic cacheable)
  else if String.eqb action "post" then
    Normal (registerPost app context handler suffix dynamic cacheable)
  else if String.eqb action "delete" then
    Normal (registerDelete app context handler suffix dynamic cacheable)
  else Throw (mkError "Error" ("Unsupported HTTP action " +:+ action)).

End Registration.

(* ===================================================================== *)
(** ** Kinds of recorded calls *)
(* ===================================================================== *)

Definition is_finish (c : Effect) : bool :=
  match c with Finish _ _ => true | _ => false end.

Definition is_ws_close (c : Effect) : bool :=
  match c with WsClose _ => true | _ => false end.

Definition is_upsert (c : Effect) : bool :=
  match c with UpsertGoogleUser _ _ _ _ _ _ => true | _ => false end.

Definition is_profile_fetch (c : Effect) : bool :=
  match c with ProfileFetch _ => true | _ => false end.

(** The calls that end an HTTP response. *)
Definition is_terminal (c : Effect) : bool :=
  match c with
  | Send _ | EndResponse | Redirect _ | Json _ => true
  | _ => false
  end.

(** [handler.serviceId === msg.serviceId]. *)
Definition handles (msg : JsValue) (handler : ServiceHandler) : bool :=
  strict_eq_str (js_get msg "serviceId") (serviceId handler).

(** The context a socket close is handled in, before the user manager has
    looked at it. *)
Definition close_context (parentContextData : gmap string JsValue) : Context :=
  ExecutionContext "ws-close" parentContextData.

(** The context an HTTP request is handled in, before the user manager
    has looked at it. *)
Definition http_context (parentContext : Context) : Context :=
  ExecutionContext "http" (configData parentContext).

(** The actions by which the monitor touches the socket. *)
Definition touches_socket (a : MonitorAction) : bool :=
  match a with DoClose | DoPing => true | _ => false end.

(** [email.type === 'account']. *)
Definition is_account (email : JsValue) : bool :=
  strict_eq_str (js_get email "type") "account".

(** The lines of one certificate of a chain: lines that are not empty, of
    which the last, and only the last, carries the end marker. *)
Definition certificate_lines (block : list string) : Prop :=
  exists body last,
    block = body ++ [last]
    /\ Forall (fun line => line <> EmptyString /\ ends_certificate line = false) body
    /\ ends_certificate last = true.

(** The verbs [registerHandler] knows. *)
Definition supported_verbs : list string := ["get"; "put"; "post"; "delete"].

(** An [async] handler that returns its result. *)
Definition returning (f : Context -> Request -> RestServiceResult) : RestServiceHandler :=
  fun context request => ([], Returned (f context request)).

(* ===================================================================== *)
(** ** The notions the properties are stated with *)
(* ===================================================================== *)

(** A list without its repetitions, each element kept where it first
    occurs: "deduplicated, order-preserving". *)
Fixpoint first_occurrences (l : list string) : list string :=
  match l with
  | [] => []
  | x :: rest => x :: filter (fun y => y <> x) (first_occurrences rest)
  end.

Section LinkingRule.
Context `{GoogleEnv}.

(** The known sub-service a requested id names, if any. *)
Definition recognized (sid : string) : option GoogleSearcher :=
  if String.eqb (toLowerCase (trim sid)) (descriptor_id gmailSearcher)
  then Some gmailSearcher
  else if String.eqb (toLowerCase (trim sid)) (descriptor_id googleDriveSearcher)
  then Some googleDriveSearcher
  else None.

Definition declared_scopes (sid : string) : list string :=
  match recognized sid with
  | Some searcher => getOauthScopes searcher
  | None => []
  end.

(** The union of the two base profile scopes and of the declared scopes
    of each recognized requested sub-service, each kept where it first
    occurs. *)
Definition requested_scopes (serviceIds : list string) : list string :=
  first_occurrences
    (["https://www.googleapis.com/auth/userinfo.email";
      "https://www.googleapis.com/auth/userinfo.profile"]
     ++ flat_map declared_scopes serviceIds).

(** The requested ids that name a known sub-service. *)
Definition accepted_services (serviceIds : list string) : list string :=
  filter (fun sid => is_Some (recognized sid)) serviceIds.

End LinkingRule.

(** A message of type [open] that carries the user identifier [userId] in
    its details. *)
Definition open_with_user (msg userId : JsValue) : Prop :=
  js_get msg "type" = Some (JStr "open")
  /\ exists details,
       js_get msg "details" = Some details /\ truthy details = true
       /\ js_get details "userId" = Some userId /\ truthy userId = true.

(** The context a websocket message is handled in, before the user
    manager has looked at it. *)
Definition message_context (parentContextData : gmap string JsValue) (ws : WebSocket)
    : Context :=
  set_websocket (ExecutionContext "ws-message" parentContextData) ws.

(** The number of times socket [ws] occurs in a session list. *)
Definition copies (ws : WebSocket) (l : list WebSocket) : nat :=
  length (filter (fun x => x = ws) l).

(** The number of messages a list of calls sends on socket [ws]. *)
Fixpoint sends_to (ws : WebSocket) (calls : list Effect) : nat :=
  match calls with
  | [] => O
  | WsSend w _ :: rest => if decide (w = ws) then S (sends_to ws rest) else sends_to ws rest
  | _ :: rest => sends_to ws rest
  end.

(** A list without the first occurrence of [x]. *)
Fixpoint remove_first (x : WebSocket) (l : list WebSocket) : list WebSocket :=
  match l with
  | [] => []
  | y :: rest => if decide (y = x) then rest else y :: remove_first x rest
  end.



(** The sessions of a user: none when the user has no entry. *)
Definition sessions (sockets : Registry) (userId : string) : list WebSocket :=
  default [] (sockets !! userId).




(** The body sent in a list of calls on the HTTP response, if any. *)
Fixpoint sent_body (calls : list Effect) : option string :=
  match calls with
  | [] => None
  | Send body :: _ => Some body
  | _ :: rest => sent_body rest
  end.

(** The status set in a list of calls on the HTTP response, if any. *)
Fixpoint sent_status (calls : list Effect) : option Z :=
  match calls with
  | [] => None
  | Status code :: _ => Some code
  | _ :: rest => sent_status rest
  end.

Definition is_token_exchange (c : Effect) : bool :=
  match c with TokenExchange _ => true | _ => false end.

Definition is_ws_send (c : Effect) : bool :=
  match c with WsSend _ _ => true | _ => false end.

(* ===================================================================== *)
(** ** A small world to run the code in *)
(* ===================================================================== *)

Module Sample.

Definition open_as (userId : string) : JsValue :=
  JObj [("type", JStr "open"); ("details", JObj [("userId", JStr userId)])].

Definition state_of_u1 : JsValue :=
  JObj [("braidUserId", JStr "U1"); ("services", JArr [JStr "mail"]);
        ("clientCallback", JStr "https://x/cb")].

Definition state_without_services : JsValue :=
  JObj [("braidUserId", JStr "U1"); ("clientCallback", JStr "https://x/cb")].

(** The JSON texts this runtime is asked to parse: those that
    [JSON.stringify] writes for the values listed. Any other text is
    taken as not being JSON. *)
Definition known_values : list JsValue :=
  [open_as "u1"; open_as "ghost"; state_of_u1; state_without_services; JNull].

Fixpoint parse_among (vs : list JsValue) (text : string) : Completion JsValue :=
  match vs with
  | [] => Throw (mkError "SyntaxError" "Unexpected token in JSON")
  | v :: rest =>
      if String.eqb (JSON_stringify v SpaceUndefined) text then Normal v
      else parse_among rest text
  end.

Definition runtime : JsRuntime := {| JSON_parse := parse_among known_values |}.

(** A user manager that knows one user, [u1], and remembers on which
    socket each user opened. *)
Definition bound_user (um : gmap nat string) (ws : WebSocket) : option User :=
  mkUser <$> um !! ws.

Definition userManager : UserManager := {|
  UM := gmap nat string;
  onWebsocketEvent um context ws request := (um, Normal (bound_user um ws));
  onWebsocketOpenRequest um context ws userId :=
    match userId with
    | JStr "u1" => (<[ws := "u1"]> um, Normal (Some (mkUser "u1")))
    | _ => (um, Normal (user context))
    end;
  initializeHttpContext um context request := (um, Normal None)
|}.

Definition googleEnv : GoogleEnv := {|
  gmailSearcher := mkSearcher "mail" ["https://www.googleapis.com/auth/gmail.readonly"];
  googleDriveSearcher :=
    mkSearcher "drive" ["https://www.googleapis.com/auth/drive.readonly"];
  generateAuthUrl context options :=
    "https://accounts.google.com/o/oauth2/auth?access_type=" +:+ access_type options
    +:+ "&scope=" +:+ join " " (scope options) +:+ "&state=" +:+ state options;
  getToken context code := Normal (JObj [("access_token", JStr code)]);
  userinfo_get tokens := Normal (JObj [("id", JStr "g-1"); ("email", JStr "a@b.c")]);
  upsertRecord context braidUserId googleUserId email profile tokens services :=
    Normal tt;
  appendUrlParam url name value :=
    match url, value with
    | Some (JStr u), Some (JStr v) => u +:+ "?" +:+ name +:+ "=" +:+ v
    | _, _ => EmptyString
    end
|}.

Definition no_config : gmap string JsValue := ∅.

Definition pretty_config : gmap string JsValue :=
  {[ "debug.messages.pretty" := JBool true ]}.

Definition server_context (config : gmap string JsValue) : Context :=
  mkContext "server" config None None.

Definition empty_request : Request := mkRequest ∅.

(** An auth request for the mail service and for an unknown one. *)
Definition link_request : Request :=
  mkRequest {[ "braidUserId" := "U1"; "callback" := "https://x/cb";
               "serviceIds" := "mail,unknown-id" ]}.

(** A callback that carries a code and no state. *)
Definition callback_without_state : Request := mkRequest {[ "code" := "4/abc" ]}.

(** The text of a JSON value as a client would send it. *)
Definition wire (v : JsValue) : string := JSON_stringify v SpaceUndefined.

(** A handler that fails with the given error. *)
Definition failing_handler (e : JsError)
    : Context -> Request -> list Effect * Outcome RestServiceResult :=
  fun _ _ => ([], Threw e).

Definition callback_handler
    : Context -> Request -> list Effect * Outcome RestServiceResult :=
  @handleServiceAuthCallback runtime googleEnv.

(** An internal error whose text names a host of the deployment. *)
Definition refused : JsError :=
  mkError "Error" "connect ECONNREFUSED db.internal:27017".

(** The calls of the dispatcher for a request whose handler throws
    [refused]. *)
Definition refused_calls : list Effect :=
  snd (fst (@handleHttpRequest userManager ∅ (server_context no_config) empty_request
              (failing_handler refused) false None)).

(** User [u1] on socket 1, alone in the registry. *)
Definition u1 : User := mkUser "u1".

Definition u1_alone : gmap string (list WebSocket) := {[ "u1" := [1%nat] ]}.

Definition u1_on_socket_1 (config : gmap string JsValue) : Context :=
  mkContext "ws-message" config (Some u1) (Some 1%nat).

(** A message arriving on socket 1 of a server without configuration. *)
Definition receive (sockets : gmap string (list WebSocket)) (um : gmap nat string)
    (text : string)
    : gmap string (list WebSocket) * gmap nat string * list Effect * Outcome unit :=
  @handleWebsocketMessage runtime userManager [] sockets um no_config 1%nat
    empty_request text.

Definition ghost_open := receive ∅ ∅ (wire (open_as "ghost")).

Definition first_open := receive ∅ ∅ (wire (open_as "u1")).

Definition second_open :=
  receive (fst (fst (fst first_open))) (snd (fst (fst first_open)))
    (wire (open_as "u1")).

(** A server configured with a ping-pong interval of zero. *)
Definition zero_interval : Context :=
  mkContext "server" {[ "client.pingPongInterval" := JNum 0 ]} None None.

(** A request that names no user. *)
Definition anonymous_request : Request := mkRequest {[ "callback" := "https://x/cb" ]}.

(** The callback that answers the state issued for [link_request]. *)
Definition link_callback : Request :=
  mkRequest {[ "code" := "4/abc"; "state" := wire state_of_u1 ]}.

(** A Google account whose profile has no picture. *)
Definition ann : GoogleUser :=
  mkGoogleUser "g-1" (JObj [("name", JStr "Ann"); ("email", JStr "ann@x.org")]) ["mail"].

Definition bob : GoogleUser :=
  mkGoogleUser "g-2" (JObj [("name", JStr "Bob"); ("picture", JStr "https://x/b.png")])
    ["mail"; "drive"].

(** A collection that holds two accounts for [U1] and none for others. *)
Definition googleUsers : GoogleUsers := {|
  findByBraidUserId context braidUserId :=
    if String.eqb braidUserId "U1" then Normal [ann; bob] else Normal []
|}.

Definition profile_request : Request := mkRequest {[ "braidUserId" := "U1" ]}.

Definition urlManager : UrlManager := {| getDynamicBaseUrl context := "/v1" |}.

(** Two service handlers; the second fails on card messages. *)
Definition mail_handler : ServiceHandler :=
  mkHandler "mail" (fun _ _ => Normal tt) (fun _ => Normal tt).

Definition drive_handler : ServiceHandler :=
  mkHandler "drive" (fun _ _ => Throw (mkError "Error" "drive is down"))
    (fun _ => Normal tt).

(** A provider that rejects every exchange of a code. *)
Definition rejecting_exchange : GoogleEnv := {|
  gmailSearcher := @gmailSearcher googleEnv;
  googleDriveSearcher := @googleDriveSearcher googleEnv;
  generateAuthUrl := @generateAuthUrl googleEnv;
  getToken context code := Throw (mkError "Error" "invalid_grant");
  userinfo_get := @userinfo_get googleEnv;
  upsertRecord := @upsertRecord googleEnv;
  appendUrlParam := @appendUrlParam googleEnv
|}.

(** A collection that rejects every upsert. *)
Definition rejecting_upsert : GoogleEnv := {|
  gmailSearcher := @gmailSearcher googleEnv;
  googleDriveSearcher := @googleDriveSearcher googleEnv;
  generateAuthUrl := @generateAuthUrl googleEnv;
  getToken := @getToken googleEnv;
  userinfo_get := @userinfo_get googleEnv;
  upsertRecord context braidUserId googleUserId email userProfile tokens services :=
    Throw (mkError "MongoError" "connection closed");
  appendUrlParam := @appendUrlParam googleEnv
|}.

(** A chain of two certificates, with an empty last line. *)
Definition chain_blocks : list (list string) :=
  [["-----BEGIN CERTIFICATE-----"; "MIIB"; "-----END CERTIFICATE-----"];
   ["-----BEGIN CERTIFICATE-----"; "MIIC"; "-----END CERTIFICATE-----"]].

Definition chain_file : string := join newline (concat chain_blocks ++ [EmptyString]).

Definition ssl_context : Context :=
  mkContext "server" {[ "ssl.ca" := JStr "/etc/ssl/chain.pem" ]} None None.

(** A card message for the mail service, and an application message. *)
Definition card_message : JsValue :=
  JObj [("type", JStr "card"); ("serviceId", JStr "mail"); ("accountId", JStr "g-1")].

Definition app_message : JsValue := JObj [("type", JStr "hello")].

(** A runtime that also parses the texts of these two messages. *)
Definition message_runtime : JsRuntime :=
  {| JSON_parse := parse_among (card_message :: app_message :: known_values) |}.

(** The user manager's state once [u1] has opened on socket 1. *)
Definition u1_bound : gmap nat string := {[ 1%nat := "u1" ]}.

(** A profile with a home and an account address. *)
Definition two_addresses : list JsValue :=
  [JObj [("type", JStr "home"); ("value", JStr "h@x.org")];
   JObj [("type", JStr "account"); ("value", JStr "a@x.org")]].

End Sample.

(* ===================================================================== *)
(** ** Lemmas on arrays and session lists *)
(* ===================================================================== *)

(** The compact text of a small message. *)
Example stringify_flat :
  JSON_stringify (JObj [("type", JStr "open"); ("n", JArr [JNum 1; JNull])]) SpaceUndefined
  = "{" +:+ dquote +:+ "type" +:+ dquote +:+ ":" +:+ dquote +:+ "open" +:+ dquote
    +:+ "," +:+ dquote +:+ "n" +:+ dquote +:+ ":[1,null]}".
Proof. vm_compute. reflexivity. Qed.

Lemma indexOf_from_notin {A : Type} `{EqDecision A} (l : list A) (x : A) (i : Z) :
  x ∉ l -> indexOf_from l x i = -1.
Proof.
  revert i. induction l as [|y l IH]; intros i Hx; simpl; [reflexivity|].
  destruct (decide (y = x)) as [->|Hne].
  - exfalso. apply Hx. left.
  - apply IH. intros Hin. apply Hx. right. exact Hin.
Qed.

Lemma indexOf_from_in {A : Type} `{EqDecision A} (l : list A) (x : A) (i : Z) :
  x ∈ l -> i <= indexOf_from l x i.
Proof.
  revert i. induction l as [|y l IH]; intros i Hx; simpl.
  - inversion Hx.
  - destruct (decide (y = x)) as [->|Hne]; [lia|].
    assert (Hin : x ∈ l) by (inversion Hx; subst; [congruence | assumption]).
    specialize (IH (i + 1) Hin). lia.
Qed.

Lemma indexOf_found {A : Type} `{EqDecision A} (l : list A) (x : A) :
  (0 <=? indexOf l x) = true <-> x ∈ l.
Proof.
  unfold indexOf. split.
  - intros Hle. destruct (decide (x ∈ l)) as [Hin|Hnot]; [exact Hin|].
    rewrite (indexOf_from_notin l x 0 Hnot) in Hle. discriminate.
  - intros Hin. apply Z.leb_le. apply (indexOf_from_in l x 0 Hin).
Qed.

Lemma indexOf_missing {A : Type} `{EqDecision A} (l : list A) (x : A) :
  (indexOf l x <? 0) = true <-> x ∉ l.
Proof.
  unfold indexOf. split.
  - intros Hlt Hin. apply Z.ltb_lt in Hlt.
    pose proof (indexOf_from_in l x 0 Hin). lia.
  - intros Hnot. rewrite (indexOf_from_notin l x 0 Hnot). reflexivity.
Qed.

Lemma splice1_indexOf_from (l : list WebSocket) (x : WebSocket) (i : Z) :
  x ∈ l -> delete (Z.to_nat (indexOf_from l x i - i)) l = remove_first x l.
Proof.
  revert i. induction l as [|y l IH]; intros i Hx; simpl.
  - inversion Hx.
  - destruct (decide (y = x)) as [->|Hne].
    + replace (i - i) with 0 by lia. reflexivity.
    + assert (Hin : x ∈ l) by (inversion Hx; subst; [congruence | assumption]).
      pose proof (indexOf_from_in l x (i + 1) Hin) as Hge.
      replace (indexOf_from l x (i + 1) - i) with (Z.succ (indexOf_from l x (i + 1) - (i + 1)))
        by lia.
      rewrite Z2Nat.inj_succ by lia. simpl. f_equal. apply IH. exact Hin.
Qed.

Lemma splice1_indexOf (l : list WebSocket) (x : WebSocket) :
  x ∈ l -> splice1 l (indexOf l x) = remove_first x l.
Proof.
  intros Hx. unfold splice1, indexOf.
  rewrite <- (splice1_indexOf_from l x 0 Hx). f_equal. f_equal. lia.
Qed.

Lemma copies_cons (ws y : WebSocket) (l : list WebSocket) :
  copies ws (y :: l) = if decide (y = ws) then S (copies ws l) else copies ws l.
Proof.
  unfold copies. rewrite filter_cons. destruct (decide (y = ws)); reflexivity.
Qed.

Lemma copies_app (ws : WebSocket) (l1 l2 : list WebSocket) :
  copies ws (l1 ++ l2) = (copies ws l1 + copies ws l2)%nat.
Proof. unfold copies. rewrite filter_app, length_app. reflexivity. Qed.

Lemma copies_pos (ws : WebSocket) (l : list WebSocket) :
  (0 < copies ws l)%nat <-> ws ∈ l.
Proof.
  induction l as [|y l IH]; [split; [inversion 1 | inversion 1]|].
  rewrite copies_cons. destruct (decide (y = ws)) as [->|Hne].
  - split; [intros _; left | intros _; lia].
  - rewrite IH. split; [intros Hin; right; exact Hin|].
    intros Hin. inversion Hin; subst; [congruence | assumption].
Qed.

Lemma copies_remove_first_same (ws : WebSocket) (l : list WebSocket) :
  ws ∈ l -> S (copies ws (remove_first ws l)) = copies ws l.
Proof.
  induction l as [|y l IH]; intros Hin; [inversion Hin|].
  simpl. rewrite copies_cons. destruct (decide (y = ws)) as [->|Hne]; [reflexivity|].
  rewrite copies_cons. destruct (decide (y = ws)); [congruence|].
  apply IH. inversion Hin; subst; [congruence | assumption].
Qed.

Lemma copies_remove_first_other (ws other : WebSocket) (l : list WebSocket) :
  other <> ws -> copies other (remove_first ws l) = copies other l.
Proof.
  intros Hne. induction l as [|y l IH]; [reflexivity|].
  simpl. destruct (decide (y = ws)) as [->|Hy].
  - rewrite copies_cons. destruct (decide (ws = other)); [congruence | reflexivity].
  - rewrite !copies_cons. destruct (decide (y = other)); rewrite IH; reflexivity.
Qed.

Lemma sends_to_multicast (ws : WebSocket) (text : string) (l : list WebSocket) :
  sends_to ws (map (fun w => WsSend w text) l) = copies ws l.
Proof.
  induction l as [|y l IH]; [reflexivity|].
  simpl. rewrite copies_cons. destruct (decide (y = ws)); rewrite IH; reflexivity.
Qed.

(* ===================================================================== *)
(** ** The HTTP dispatcher and internal faults *)
(* ===================================================================== *)

Section DispatcherFacts.
Context `{JsRuntime} `{UserManager}.

(** The catch block of the dispatcher, whichever of the hook and the
    handler threw. *)
Lemma dispatcher_catch_path
    (um : UM) (parentContext : Context) (request : Request)
    (handler : RestServiceHandler) (cacheable : bool) (contentType : option string)
    (err : JsError) (calls : list Effect) :
  (snd (initializeHttpContext um (ExecutionContext "http" (configData parentContext))
          request) = Throw err /\ calls = [])
  \/ (exists u,
        snd (initializeHttpContext um (ExecutionContext "http" (configData parentContext))
               request) = Normal u
        /\ handler (set_user (ExecutionContext "http" (configData parentContext)) u)
             request = (calls, Threw err)) ->
  handleHttpRequest um parentContext request handler cacheable contentType
  = (fst (initializeHttpContext um (ExecutionContext "http" (configData parentContext))
            request),
     (if cacheable then [] else [no_cache]) ++ calls ++ http_catch err,
     Returned tt).
Proof.
  unfold handleHttpRequest.
  destruct (initializeHttpContext um _ request) as [um1 [u|e]] eqn:Hhook; simpl.
  - intros [[Hthrow _]|[u' [Hu Hh]]]; [discriminate|].
    injection Hu as <-. rewrite Hh. reflexivity.
  - intros [[Hthrow ->]|[u' [Hu _]]]; [|discriminate].
    injection Hthrow as <-. reflexivity.
Qed.

(** Claim C1, as the code has it. When the session-hydration hook or the
    registered handler throws, the dispatcher logs the error, answers
    with status 500, finishes the context with that error and settles
    normally; the body it sends is the fixed prefix followed by the JSON
    string of the error's own text. *)
Theorem internal_fault_answered_500
    (um : UM) (parentContext : Context) (request : Request)
    (handler : RestServiceHandler) (cacheable : bool) (contentType : option string)
    (err : JsError) (calls : list Effect) :
  (snd (initializeHttpContext um (ExecutionContext "http" (configData parentContext))
          request) = Throw err /\ calls = [])
  \/ (exists u,
        snd (initializeHttpContext um (ExecutionContext "http" (configData parentContext))
               request) = Normal u
        /\ handler (set_user (ExecutionContext "http" (configData parentContext)) u)
             request = (calls, Threw err)) ->
  handleHttpRequest um parentContext request handler cacheable contentType
  = (fst (initializeHttpContext um (ExecutionContext "http" (configData parentContext))
            request),
     (if cacheable then [] else [no_cache]) ++ calls
     ++ [LoggerError err;
         SetHeader "Content-Type" "text/plain";
         Status 500;
         Send ("Internal server error: " +:+ QuoteJSONString (Error_toString err));
         Finish "http" (Some err)],
     Returned tt).
Proof.
  intros Hfault.
  rewrite (dispatcher_catch_path um parentContext request handler cacheable
             contentType err calls Hfault).
  reflexivity.
Qed.

End DispatcherFacts.

(** Claim C1 fails as stated: the body of the 500 response carries the
    text of the internal error. *)
Lemma internal_fault_body_leaks :
  sent_status Sample.refused_calls = Some 500
  /\ sent_body Sample.refused_calls
     = Some ("Internal server error: " +:+ dquote
             +:+ "Error: connect ECONNREFUSED db.internal:27017" +:+ dquote)
  /\ from_option (includes (err_message Sample.refused)) false
       (sent_body Sample.refused_calls) = true.
Proof. vm_compute. repeat split; reflexivity. Qed.

Lemma internal_fault_answered_500_witness :
  snd (fst (@handleHttpRequest Sample.userManager ∅ (Sample.server_context ∅)
              Sample.empty_request
              (Sample.failing_handler (mkError "Error" "boom")) true None))
  = [LoggerError (mkError "Error" "boom");
     SetHeader "Content-Type" "text/plain";
     Status 500;
     Send ("Internal server error: " +:+ QuoteJSONString "Error: boom");
     Finish "http" (Some (mkError "Error" "boom"))].
Proof.
  rewrite (@internal_fault_answered_500 Sample.userManager ∅ (Sample.server_context ∅)
             Sample.empty_request (Sample.failing_handler (mkError "Error" "boom"))
             true None (mkError "Error" "boom") []).
  - reflexivity.
  - right. exists None. split; reflexivity.
Defined.

(* ===================================================================== *)
(** ** Delivery: the wire text of unicast and multicast *)
(* ===================================================================== *)

(** Claim C2, as the code has it. For every message and context:
    multicast sends the compact text of the message to each session of
    the context's user, in the order of the list, and nothing when the
    context has no user; unicast sends one text to the socket of the
    context, and nothing when the context has none: the same compact text
    when the configuration key [debug.messages.pretty] is not set to a
    truthy value, and the text indented by three spaces when it is. So
    without the flag whatever unicast writes is what multicast writes. *)
Theorem unicast_text_matches_multicast_unless_pretty
    (sockets : Registry) (context : Context) (message : JsValue) :
  deliverMessage sockets context message true
  = match user context with
    | Some u =>
        map (fun ws => WsSend ws (JSON_stringify message SpaceUndefined))
          (sessions sockets (user_id u))
    | None => []
    end
  /\ deliverMessage sockets context message false
     = match websocket context with
       | Some ws =>
           [WsSend ws
              (if truthy_opt (getConfig context "debug.messages.pretty")
               then JSON_stringify message (SpaceNumber 3)
               else JSON_stringify message SpaceUndefined)]
       | None => []
       end
  /\ (truthy_opt (getConfig context "debug.messages.pretty") = false ->
      forall ws text ws' text',
        WsSend ws text ∈ deliverMessage sockets context message false ->
        WsSend ws' text' ∈ deliverMessage sockets context message true ->
        text = text').
Proof.
  assert (Hmulti : deliverMessage sockets context message true
                   = match user context with
                     | Some u =>
                         map (fun ws => WsSend ws (JSON_stringify message SpaceUndefined))
                           (sessions sockets (user_id u))
                     | None => []
                     end).
  { unfold deliverMessage, sessions. destruct (user context) as [u|]; [|reflexivity].
    destruct (sockets !! user_id u); reflexivity. }
  assert (Huni : deliverMessage sockets context message false
                 = match websocket context with
                   | Some ws =>
                       [WsSend ws
                          (if truthy_opt (getConfig context "debug.messages.pretty")
                           then JSON_stringify message (SpaceNumber 3)
                           else JSON_stringify message SpaceUndefined)]
                   | None => []
                   end).
  { unfold deliverMessage, unicast_space.
    destruct (websocket context) as [ws|]; [|reflexivity].
    destruct (truthy_opt (getConfig context "debug.messages.pretty")); reflexivity. }
  split; [exact Hmulti|]. split; [exact Huni|].
  intros Hplain ws text ws' text'. rewrite Hmulti, Huni, Hplain.
  intros Hone Hall.
  destruct (websocket context) as [w|]; [|inversion Hone].
  apply list_elem_of_singleton in Hone. injection Hone as _ ->.
  destruct (user context) as [u|]; [|inversion Hall].
  apply list_elem_of_fmap in Hall as (w' & Heq & _). injection Heq as _ ->.
  reflexivity.
Qed.

(** Claim C2 fails as stated: with [debug.messages.pretty] set, the same
    message reaches the same socket as two different texts. *)
Lemma pretty_unicast_differs_from_multicast :
  deliverMessage Sample.u1_alone (Sample.u1_on_socket_1 Sample.pretty_config)
    msg_open_success true
  = [WsSend 1%nat ("{" +:+ dquote +:+ "type" +:+ dquote +:+ ":" +:+ dquote
                   +:+ "open-success" +:+ dquote +:+ "}")]
  /\ deliverMessage Sample.u1_alone (Sample.u1_on_socket_1 Sample.pretty_config)
       msg_open_success false
     = [WsSend 1%nat ("{" +:+ newline +:+ "   " +:+ dquote +:+ "type" +:+ dquote +:+ ": "
                      +:+ dquote +:+ "open-success" +:+ dquote +:+ newline +:+ "}")]
  /\ ~ (forall ws ws' text text',
          WsSend ws text
          ∈ deliverMessage Sample.u1_alone (Sample.u1_on_socket_1 Sample.pretty_config)
              msg_open_success false ->
          WsSend ws' text'
          ∈ deliverMessage Sample.u1_alone (Sample.u1_on_socket_1 Sample.pretty_config)
              msg_open_success true ->
          text = text').
Proof.
  split; [vm_compute; reflexivity|]. split; [vm_compute; reflexivity|].
  intros Hall.
  specialize (Hall 1%nat 1%nat
                (JSON_stringify msg_open_success (SpaceNumber 3))
                (JSON_stringify msg_open_success SpaceUndefined)).
  assert (Hneq : JSON_stringify msg_open_success (SpaceNumber 3)
                 <> JSON_stringify msg_open_success SpaceUndefined)
    by (vm_compute; discriminate).
  apply Hneq, Hall; vm_compute; left.
Qed.

(** Without the flag a message reaches socket 1 as the same text on both
    ways. *)
Lemma unicast_text_matches_multicast_witness :
  deliverMessage Sample.u1_alone (Sample.u1_on_socket_1 Sample.no_config)
    msg_open_success false
  = [WsSend 1%nat ("{" +:+ dquote +:+ "type" +:+ dquote +:+ ":" +:+ dquote
                   +:+ "open-success" +:+ dquote +:+ "}")]
  /\ deliverMessage Sample.u1_alone (Sample.u1_on_socket_1 Sample.no_config)
       msg_open_success true
     = [WsSend 1%nat ("{" +:+ dquote +:+ "type" +:+ dquote +:+ ":" +:+ dquote
                      +:+ "open-success" +:+ dquote +:+ "}")].
Proof.
  destruct (unicast_text_matches_multicast_unless_pretty Sample.u1_alone
              (Sample.u1_on_socket_1 Sample.no_config) msg_open_success)
    as (Hmulti & Huni & _).
  rewrite Hmulti, Huni. split; vm_compute; reflexivity.
Defined.

(* ===================================================================== *)
(** ** GoogleProvider: the profile e-mail helper *)
(* ===================================================================== *)

(** Claim C9. On a profile object that has no [emails] property the helper
    does not return [null]: its second test reads [length] of the absent
    list and a TypeError is thrown. *)
Theorem getEmailFromProfile_faults_without_emails (props : list (string * JsValue)) :
  assoc_get "emails" props = None ->
  getEmailFromProfile (Some (JObj props))
  = Throw (TypeError "Cannot read properties of undefined (reading 'length')")
  /\ getEmailFromProfile (Some (JObj props)) <> Normal (Some JNull).
Proof.
  intros Habsent. unfold getEmailFromProfile, first_email, profile_emails. simpl.
  rewrite Habsent. simpl. split; [reflexivity | discriminate].
Qed.

Lemma getEmailFromProfile_faults_witness :
  getEmailFromProfile (Some (JObj [("id", JStr "g-1"); ("name", JStr "Ann")]))
  = Throw (TypeError "Cannot read properties of undefined (reading 'length')")
  /\ getEmailFromProfile (Some (JObj [("id", JStr "g-1"); ("name", JStr "Ann")]))
     <> Normal (Some JNull).
Proof.
  apply (getEmailFromProfile_faults_without_emails [("id", JStr "g-1"); ("name", JStr "Ann")]).
  reflexivity.
Defined.

(* ===================================================================== *)
(** ** GoogleProvider: the account-linking callback *)
(* ===================================================================== *)

Section CallbackFacts.
Context `{JsRuntime} `{GoogleEnv} `{UserManager}.

(** The checks of the callback that answer 400 do so before any call to
    the provider. *)
Lemma callback_rejects_missing_code (context : Context) (request : Request) :
  truthy_str (query request !! "code") = false ->
  handleServiceAuthCallback context request
  = ([], Returned (bad_request "Auth code is missing")).
Proof.
  unfold handleServiceAuthCallback.
  destruct (query request !! "code") as [[|c s]|]; simpl;
    [reflexivity | discriminate | reflexivity].
Qed.

Lemma callback_rejects_incomplete_state (context : Context) (request : Request)
    (st : JsValue) :
  truthy_str (query request !! "code") = true ->
  JSON_parse (ToString_opt (query request !! "state")) = Normal st ->
  truthy st = false \/ truthy_opt (js_get st "braidUserId") = false
  \/ truthy_opt (js_get st "services") = false ->
  handleServiceAuthCallback context request
  = ([], Returned (bad_request "State information is missing")).
Proof.
  unfold handleServiceAuthCallback.
  destruct (query request !! "code") as [[|c s]|]; simpl; try discriminate.
  intros _ -> Hbad.
  destruct Hbad as [-> | [-> | ->]]; simpl;
    rewrite ?orb_true_r; reflexivity.
Qed.

(** Claim C5, where the code departs from it. With a code present and a
    state that [JSON.parse] rejects, the handler makes no call to the
    provider, but it does not answer with a client error: the exception
    of the parser leaves the handler and the dispatcher answers 500. *)
Theorem callback_unparseable_state_answers_500
    (um : UM) (parentContext : Context) (request : Request) (e : JsError)
    (u : option User) :
  truthy_str (query request !! "code") = true ->
  JSON_parse (ToString_opt (query request !! "state")) = Throw e ->
  snd (initializeHttpContext um (ExecutionContext "http" (configData parentContext))
         request) = Normal u ->
  (forall context, handleServiceAuthCallback context request = ([], Threw e))
  /\ sent_status
       (snd (fst (handleHttpRequest um parentContext request
                    handleServiceAuthCallback false None))) = Some 500
  /\ filter is_token_exchange
       (snd (fst (handleHttpRequest um parentContext request
                    handleServiceAuthCallback false None))) = [].
Proof.
  intros Hcode Hparse Hhook.
  assert (Hthrow : forall context,
             handleServiceAuthCallback context request = ([], Threw e)).
  { intros context. unfold handleServiceAuthCallback.
    destruct (query request !! "code") as [[|c s]|]; simpl in Hcode; try discriminate.
    rewrite Hparse. reflexivity. }
  split; [exact Hthrow|].
  rewrite (dispatcher_catch_path um parentContext request
             handleServiceAuthCallback false None e []).
  - split; reflexivity.
  - right. exists u. split; [exact Hhook | apply Hthrow].
Qed.

End CallbackFacts.

(** Claim C5 at a request that carries a code and no state at all. *)
Lemma callback_unparseable_state_witness :
  sent_status
    (snd (fst (@handleHttpRequest Sample.userManager ∅ (Sample.server_context ∅)
                 Sample.callback_without_state
                 Sample.callback_handler false None))) = Some 500.
Proof.
  apply (@callback_unparseable_state_answers_500 Sample.runtime Sample.googleEnv
           Sample.userManager ∅ (Sample.server_context ∅)
           Sample.callback_without_state
           (mkError "SyntaxError" "Unexpected token in JSON") None).
  - vm_compute. reflexivity.
  - vm_compute. reflexivity.
  - reflexivity.
Defined.

(* ===================================================================== *)
(** ** GoogleProvider: the scopes and services of an auth request *)
(* ===================================================================== *)

Lemma filter_keeps_all (P : string -> Prop) `{forall x, Decision (P x)} (l : list string) :
  (forall x, x ∈ l -> P x) -> filter P l = l.
Proof.
  induction l as [|x l IH]; intros Hall; [reflexivity|].
  rewrite filter_cons. destruct (decide (P x)) as [_|Hn].
  - f_equal. apply IH. intros y Hy. apply Hall. right. exact Hy.
  - exfalso. apply Hn, Hall. left.
Qed.

Lemma elem_of_first_occurrences (x : string) (l : list string) :
  x ∈ first_occurrences l <-> x ∈ l.
Proof.
  induction l as [|y l IH]; [reflexivity|]. simpl.
  rewrite !elem_of_cons, list_elem_of_filter, IH.
  destruct (decide (x = y)) as [->|Hne]; tauto.
Qed.

Lemma NoDup_first_occurrences (l : list string) : NoDup (first_occurrences l).
Proof.
  induction l as [|y l IH]; [constructor|]. simpl. constructor.
  - rewrite list_elem_of_filter. tauto.
  - apply NoDup_filter. exact IH.
Qed.

Lemma first_occurrences_NoDup (l : list string) : NoDup l -> first_occurrences l = l.
Proof.
  induction 1 as [|x l Hx Hnd IH]; [reflexivity|]. simpl. rewrite IH. f_equal.
  apply filter_keeps_all. intros y Hy ->. exact (Hx Hy).
Qed.

Lemma first_occurrences_app (l1 l2 : list string) :
  first_occurrences (l1 ++ l2)
  = first_occurrences l1 ++ filter (fun y => y ∉ l1) (first_occurrences l2).
Proof.
  induction l1 as [|x l1 IH]; simpl.
  - symmetry. apply filter_keeps_all. intros y _ Hin. inversion Hin.
  - f_equal. rewrite IH, filter_app. f_equal.
    rewrite list_filter_filter. apply list_filter_iff. intros y.
    rewrite not_elem_of_cons. tauto.
Qed.

Lemma addScopes_filter (scopes add : list string) :
  addScopes scopes add
  = scopes ++ filter (fun y => y ∉ scopes) (first_occurrences add).
Proof.
  revert scopes. induction add as [|a add IH]; intros scopes; simpl.
  - rewrite app_nil_r. reflexivity.
  - rewrite filter_cons. destruct (indexOf scopes a <? 0) eqn:Hidx.
    + apply indexOf_missing in Hidx.
      destruct (decide (a ∉ scopes)) as [_|Hn]; [|contradiction].
      rewrite IH, <- app_assoc. simpl. do 2 f_equal.
      rewrite list_filter_filter. apply list_filter_iff. intros y.
      rewrite not_elem_of_app, list_elem_of_singleton. tauto.
    + assert (Hin : a ∈ scopes).
      { destruct (decide (a ∈ scopes)) as [Hin|Hnot]; [exact Hin|].
        apply indexOf_missing in Hnot. congruence. }
      destruct (decide (a ∉ scopes)) as [Hn|_]; [contradiction|].
      rewrite IH. f_equal.
      rewrite list_filter_filter. apply list_filter_iff. intros y.
      split; [|tauto]. intros Hy. split; [exact Hy|]. intros ->. exact (Hy Hin).
Qed.

Lemma addScopes_first_occurrences (l add : list string) :
  addScopes (first_occurrences l) add = first_occurrences (l ++ add).
Proof.
  rewrite addScopes_filter, first_occurrences_app. f_equal.
  apply list_filter_iff. intros y. rewrite elem_of_first_occurrences. reflexivity.
Qed.

Section AuthRequestFacts.
Context `{GoogleEnv}.

Lemma auth_request_step_scopes (l accepted : list string) (sid : string) :
  auth_request_step (first_occurrences l, accepted) sid
  = (first_occurrences (l ++ declared_scopes sid),
     accepted ++ accepted_services [sid]).
Proof.
  unfold auth_request_step, declared_scopes, accepted_services, recognized. simpl.
  rewrite filter_cons, filter_nil.
  destruct (String.eqb (toLowerCase (trim sid)) (descriptor_id gmailSearcher)).
  - rewrite addScopes_first_occurrences.
    destruct (decide (is_Some (Some gmailSearcher))) as [_|Hn]; [reflexivity|].
    exfalso. apply Hn. eexists. reflexivity.
  - destruct (String.eqb (toLowerCase (trim sid)) (descriptor_id googleDriveSearcher)).
    + rewrite addScopes_first_occurrences.
      destruct (decide (is_Some (Some googleDriveSearcher))) as [_|Hn]; [reflexivity|].
      exfalso. apply Hn. eexists. reflexivity.
    + rewrite !app_nil_r.
      destruct (decide (is_Some (@None GoogleSearcher))) as [[x Hx]|_]; [discriminate|].
      reflexivity.
Qed.

Lemma auth_request_fold (serviceIds l accepted : list string) :
  foldl auth_request_step (first_occurrences l, accepted) serviceIds
  = (first_occurrences (l ++ flat_map declared_scopes serviceIds),
     accepted ++ accepted_services serviceIds).
Proof.
  revert l accepted. induction serviceIds as [|sid rest IH]; intros l accepted; simpl.
  - rewrite !app_nil_r. reflexivity.
  - rewrite auth_request_step_scopes, IH, <- !app_assoc. f_equal.
    unfold accepted_services. rewrite (filter_cons _ sid rest), filter_cons, filter_nil.
    destruct (decide (is_Some (recognized sid))); reflexivity.
Qed.

Lemma auth_request_loop_spec (serviceIds : list string) :
  auth_request_loop serviceIds
  = (requested_scopes serviceIds, accepted_services serviceIds).
Proof.
  unfold auth_request_loop, requested_scopes.
  change base_scopes with (first_occurrences base_scopes) at 1.
  rewrite auth_request_fold. reflexivity.
Qed.

Lemma nothing_recognized (serviceIds : list string) :
  (forall sid, sid ∈ serviceIds -> recognized sid = None) ->
  flat_map declared_scopes serviceIds = [] /\ accepted_services serviceIds = [].
Proof.
  induction serviceIds as [|sid rest IH]; intros Hnone; [split; reflexivity|].
  destruct IH as [Hd Ha]; [intros sid' Hin; apply Hnone; right; exact Hin|].
  split.
  - simpl. rewrite Hd. unfold declared_scopes. rewrite (Hnone sid) by left. reflexivity.
  - unfold accepted_services in *. rewrite filter_cons, Ha.
    destruct (decide (is_Some (recognized sid))) as [[x Hx]|_]; [|reflexivity].
    rewrite (Hnone sid) in Hx by left. discriminate.
Qed.

(** Claim C6. A request that carries a user id, a callback and a list of
    service ids is answered by a redirect, and nothing else, to the
    authorization URL made for offline access from the requested scopes
    and from the state token, which is the JSON text of the user id, the
    accepted services and the callback. The scopes are the two profile
    scopes, [userinfo.email] and [userinfo.profile], followed by the
    declared scopes of the recognized services, each kept once, where it
    first occurs; the accepted services are the requested ids that are
    recognized, as they were written; ids that are not recognized add
    nothing and raise nothing, and when none is recognized the redirect
    carries the two profile scopes and an empty list of services. *)
Theorem auth_request_scopes_and_services
    (context : Context) (request : Request)
    (braidUserId callbackUrl serviceIdString : string) :
  query request !! "braidUserId" = Some braidUserId -> braidUserId <> EmptyString ->
  query request !! "callback" = Some callbackUrl -> callbackUrl <> EmptyString ->
  query request !! "serviceIds" = Some serviceIdString ->
  serviceIdString <> EmptyString ->
  handleServiceAuthRequest context request
  = mkResult None None None
      (Some (generateAuthUrl context
               (mkAuthUrlOptions "offline"
                  (requested_scopes (split "," serviceIdString))
                  (JSON_stringify
                     (JObj [("braidUserId", JStr braidUserId);
                            ("services",
                             JArr (map JStr
                                     (accepted_services (split "," serviceIdString))));
                            ("clientCallback", JStr callbackUrl)])
                     SpaceUndefined))))
  /\ NoDup (requested_scopes (split "," serviceIdString))
  /\ (exists added,
        requested_scopes (split "," serviceIdString)
        = "https://www.googleapis.com/auth/userinfo.email"
          :: "https://www.googleapis.com/auth/userinfo.profile" :: added)
  /\ (forall s,
        s ∈ requested_scopes (split "," serviceIdString) <->
        s = "https://www.googleapis.com/auth/userinfo.email"
        \/ s = "https://www.googleapis.com/auth/userinfo.profile"
        \/ exists sid searcher,
             sid ∈ split "," serviceIdString /\ recognized sid = Some searcher
             /\ s ∈ getOauthScopes searcher)
  /\ (forall sid,
        sid ∈ accepted_services (split "," serviceIdString) <->
        sid ∈ split "," serviceIdString /\ is_Some (recognized sid))
  /\ ((forall sid, sid ∈ split "," serviceIdString -> recognized sid = None) ->
      handleServiceAuthRequest context request
      = mkResult None None None
          (Some (generateAuthUrl context
                   (mkAuthUrlOptions "offline"
                      ["https://www.googleapis.com/auth/userinfo.email";
                       "https://www.googleapis.com/auth/userinfo.profile"]
                      (JSON_stringify
                         (JObj [("braidUserId", JStr braidUserId);
                                ("services", JArr []);
                                ("clientCallback", JStr callbackUrl)])
                         SpaceUndefined))))).
Proof.
  intros Hu Hune Hc Hcne Hs Hsne.
  assert (Hanswer :
    handleServiceAuthRequest context request
    = mkResult None None None
        (Some (generateAuthUrl context
                 (mkAuthUrlOptions "offline"
                    (requested_scopes (split "," serviceIdString))
                    (JSON_stringify
                       (JObj [("braidUserId", JStr braidUserId);
                              ("services",
                               JArr (map JStr
                                       (accepted_services (split "," serviceIdString))));
                              ("clientCallback", JStr callbackUrl)])
                       SpaceUndefined))))).
  { unfold handleServiceAuthRequest. rewrite Hu, Hc, Hs.
    destruct braidUserId; [congruence|]. destruct callbackUrl; [congruence|].
    destruct serviceIdString; [congruence|].
    rewrite auth_request_loop_spec. reflexivity. }
  split; [exact Hanswer|]. split; [|split; [|split; [|split]]].
  - apply NoDup_first_occurrences.
  - unfold requested_scopes. rewrite first_occurrences_app.
    eexists. reflexivity.
  - intros s. unfold requested_scopes.
    rewrite elem_of_first_occurrences, elem_of_app.
    rewrite (list_elem_of_In (flat_map _ _) s), in_flat_map.
    rewrite !elem_of_cons, elem_of_nil.
    split.
    + intros [[Hb|[Hb|[]]]|Hd]; [left; exact Hb | right; left; exact Hb | right; right].
      destruct Hd as (sid & Hsid & Hin). unfold declared_scopes in Hin.
      destruct (recognized sid) as [searcher|] eqn:Hrec; [|inversion Hin].
      exists sid, searcher. rewrite !list_elem_of_In. auto.
    + intros [Hb|[Hb|Hd]]; [left; left; exact Hb | left; right; left; exact Hb | right].
      destruct Hd as (sid & searcher & Hsid & Hrec & Hin).
      exists sid. unfold declared_scopes. rewrite Hrec, <- !list_elem_of_In. auto.
  - intros sid. unfold accepted_services. rewrite list_elem_of_filter. tauto.
  - intros Hnone. destruct (nothing_recognized _ Hnone) as [Hd Ha].
    rewrite Hanswer, Ha. unfold requested_scopes. rewrite Hd. reflexivity.
Qed.

End AuthRequestFacts.

(** A request for the mail service and for an unknown one: the redirect
    carries the two profile scopes and the scope of the mail service, and
    a state that accepts the mail service only. *)
Lemma auth_request_scopes_witness :
  @handleServiceAuthRequest Sample.googleEnv (Sample.server_context Sample.no_config)
    Sample.link_request
  = mkResult None None None
      (Some (@generateAuthUrl Sample.googleEnv (Sample.server_context Sample.no_config)
               (mkAuthUrlOptions "offline"
                  ["https://www.googleapis.com/auth/userinfo.email";
                   "https://www.googleapis.com/auth/userinfo.profile";
                   "https://www.googleapis.com/auth/gmail.readonly"]
                  (JSON_stringify
                     (JObj [("braidUserId", JStr "U1");
                            ("services", JArr [JStr "mail"]);
                            ("clientCallback", JStr "https://x/cb")])
                     SpaceUndefined)))).
Proof.
  rewrite (proj1 (@auth_request_scopes_and_services Sample.googleEnv
                    (Sample.server_context Sample.no_config) Sample.link_request
                    "U1" "https://x/cb" "mail,unknown-id"
                    ltac:(vm_compute; reflexivity) ltac:(discriminate)
                    ltac:(vm_compute; reflexivity) ltac:(discriminate)
                    ltac:(vm_compute; reflexivity) ltac:(discriminate))).
  vm_compute. reflexivity.
Defined.

(* ===================================================================== *)
(** ** The registry: entries are never empty *)
(* ===================================================================== *)

Lemma find_sockets_own (sockets : Registry) (userId : string) (l : list WebSocket) :
  sockets !! userId = Some l -> find_sockets sockets userId = Own l.
Proof. intros Hl. unfold find_sockets. rewrite Hl. reflexivity. Qed.

Lemma find_sockets_inherited (sockets : Registry) (userId : string) :
  find_sockets sockets userId = Inherited -> sockets !! userId = None.
Proof.
  unfold find_sockets. destruct (sockets !! userId); [discriminate | reflexivity].
Qed.

Lemma find_sockets_sessions (sockets : Registry) (userId : string) :
  find_sockets sockets userId <> Inherited ->
  (find_sockets sockets userId = Own (sessions sockets userId)
   /\ sockets !! userId = Some (sessions sockets userId))
  \/ (find_sockets sockets userId = NotFound /\ sockets !! userId = None).
Proof.
  unfold find_sockets, sessions. intros Hplain.
  destruct (sockets !! userId) as [l|]; [left; split; reflexivity|].
  destruct (bool_decide (userId ∈ Object_prototype_names)); [congruence|].
  right. split; reflexivity.
Qed.

Lemma register_lookup (sockets : Registry) (context : Context) (ws : WebSocket) (u : User) :
  user context = Some u ->
  find_sockets sockets (user_id u) <> Inherited ->
  registerClientSocket sockets context ws
  = (<[user_id u := sessions sockets (user_id u) ++ [ws]]> sockets, None).
Proof.
  intros Hu Hplain. unfold registerClientSocket. rewrite Hu.
  destruct (find_sockets_sessions sockets (user_id u) Hplain) as [[-> _]|[-> Hl]];
    [reflexivity|].
  unfold sessions. rewrite Hl. reflexivity.
Qed.

Lemma register_inherited (sockets : Registry) (context : Context) (ws : WebSocket)
    (u : User) :
  user context = Some u ->
  find_sockets sockets (user_id u) = Inherited ->
  registerClientSocket sockets context ws
  = (sockets, Some (TypeError "socketList.push is not a function")).
Proof.
  intros Hu Hfound. unfold registerClientSocket. rewrite Hu, Hfound. reflexivity.
Qed.


Lemma unregister_inherited (sockets : Registry) (context : Context) (ws : WebSocket)
    (u : User) :
  user context = Some u ->
  find_sockets sockets (user_id u) = Inherited ->
  unregisterClientSocket sockets context ws
  = (sockets, Some (TypeError "socketList.indexOf is not a function")).
Proof.
  intros Hu Hfound. unfold unregisterClientSocket. rewrite Hu, Hfound. reflexivity.
Qed.

Lemma unregister_absent (sockets : Registry) (context : Context) (ws : WebSocket) :
  (forall u, user context = Some u -> ws ∉ sessions sockets (user_id u)) ->
  fst (unregisterClientSocket sockets context ws) = sockets.
Proof.
  intros Habsent. unfold unregisterClientSocket.
  destruct (user context) as [u|]; [|reflexivity].
  specialize (Habsent u eq_refl). unfold sessions in Habsent.
  unfold find_sockets.
  destruct (sockets !! user_id u) as [l|];
    [|destruct (bool_decide _); reflexivity]. simpl in Habsent.
  destruct (0 <=? indexOf l ws) eqn:Hidx; [|reflexivity].
  apply indexOf_found in Hidx. contradiction.
Qed.

Lemma unregister_last (sockets : Registry) (context : Context) (ws : WebSocket) (u : User) :
  user context = Some u -> sockets !! user_id u = Some [ws] ->
  unregisterClientSocket sockets context ws = (delete (user_id u) sockets, None).
Proof.
  intros Hu Hl. unfold unregisterClientSocket.
  rewrite Hu, (find_sockets_own _ _ _ Hl).
  unfold indexOf. simpl. destruct (decide (ws = ws)); [reflexivity | congruence].
Qed.

Lemma unregister_one_of_many (sockets : Registry) (context : Context) (ws : WebSocket)
    (u : User) (l : list WebSocket) :
  user context = Some u -> sockets !! user_id u = Some l -> ws ∈ l ->
  (1 < length l)%nat ->
  unregisterClientSocket sockets context ws
  = (<[user_id u := remove_first ws l]> sockets, None).
Proof.
  intros Hu Hl Hin Hlen. unfold unregisterClientSocket.
  rewrite Hu, (find_sockets_own _ _ _ Hl).
  rewrite (proj2 (indexOf_found l ws) Hin).
  rewrite (proj2 (Nat.ltb_lt 1 (length l)) Hlen).
  rewrite splice1_indexOf by exact Hin. reflexivity.
Qed.

Lemma unregister_returns (sockets : Registry) (context : Context) (ws : WebSocket) :
  (forall u, user context = Some u -> find_sockets sockets (user_id u) <> Inherited) ->
  snd (unregisterClientSocket sockets context ws) = None.
Proof.
  intros Hplain. unfold unregisterClientSocket.
  destruct (user context) as [u|]; [|reflexivity]. specialize (Hplain u eq_refl).
  destruct (find_sockets sockets (user_id u)) as [l| |]; [|congruence|reflexivity].
  destruct (0 <=? indexOf l ws); [destruct (1 <? length l)%nat|]; reflexivity.
Qed.

(** A call that throws leaves the registry as it was. *)
Lemma register_throw_keeps (sockets : Registry) (context : Context) (ws : WebSocket)
    (e : JsError) :
  snd (registerClientSocket sockets context ws) = Some e ->
  fst (registerClientSocket sockets context ws) = sockets.
Proof.
  unfold registerClientSocket. destruct (user context) as [u|]; [|discriminate].
  destruct (find_sockets sockets (user_id u)); simpl; (discriminate || reflexivity).
Qed.

Lemma unregister_throw_keeps (sockets : Registry) (context : Context) (ws : WebSocket)
    (e : JsError) :
  snd (unregisterClientSocket sockets context ws) = Some e ->
  fst (unregisterClientSocket sockets context ws) = sockets.
Proof.
  unfold unregisterClientSocket. destruct (user context) as [u|]; [|discriminate].
  destruct (find_sockets sockets (user_id u)) as [l| |]; simpl;
    [|reflexivity|discriminate].
  destruct (0 <=? indexOf l ws); [destruct (1 <? length l)%nat|]; discriminate.
Qed.


Lemma signout_result (sockets : Registry) (userId : string) :
  onUserSignedOut sockets userId
  = (delete userId sockets, map WsClose (sessions sockets userId)).
Proof.
  unfold onUserSignedOut, sessions.
  destruct (sockets !! userId) as [l|] eqn:Hl; [reflexivity|].
  simpl. rewrite delete_id by exact Hl. reflexivity.
Qed.












(* ===================================================================== *)
(** ** The open handshake *)
(* ===================================================================== *)

Lemma typed_message_truthy (msg v : JsValue) :
  js_get msg "type" = Some v -> truthy msg = true.
Proof. destruct msg; simpl; try discriminate; reflexivity. Qed.

Section HandshakeFacts.
Context `{JsRuntime} `{UserManager}.
Variable serviceHandlers : list ServiceHandler.

Lemma route_open_with_user (sockets : Registry) (um : UM) (context : Context)
    (ws : WebSocket) (msg userId : JsValue) :
  open_with_user msg userId ->
  route_open sockets um context ws msg
  = match onWebsocketOpenRequest um context ws userId with
    | (um', Normal (Some u)) =>
        match registerClientSocket sockets (set_user context (Some u)) ws with
        | (sockets', None) =>
            mkRouted sockets' um'
              (OpenRequest ws userId
               :: deliverMessage sockets' (set_user context (Some u))
                    msg_open_success false)
              None
        | (sockets', Some e) => mkRouted sockets' um' [OpenRequest ws userId] (Some e)
        end
    | (um', Normal None) => mkRouted sockets um' [OpenRequest ws userId] None
    | (um', Throw e) => mkRouted sockets um' [OpenRequest ws userId] (Some e)
    end.
Proof.
  intros (_ & details & Hd & Htd & Hid & Htu). unfold route_open.
  rewrite Hd, Hid, Htd, Htu. reflexivity.
Qed.

Lemma route_message_open (sockets : Registry) (um : UM) (context : Context)
    (ws : WebSocket) (text : string) (msg userId : JsValue) :
  JSON_parse text = Normal msg -> open_with_user msg userId ->
  route_message serviceHandlers sockets um context ws text
  = route_open sockets um context ws msg.
Proof.
  intros Hparse Hopen. unfold route_message. rewrite Hparse.
  destruct Hopen as (Htype & _).
  rewrite (typed_message_truthy msg _ Htype), Htype. reflexivity.
Qed.

(** A successful open: the socket is appended to the user's sessions and
    [open-success] goes back on the same socket. *)
Lemma open_success_step (sockets : Registry) (um um1 um2 : UM)
    (parentContextData : gmap string JsValue) (ws : WebSocket) (request : Request)
    (text : string) (msg userId : JsValue) (u0 : option User) (u : User) :
  JSON_parse text = Normal msg -> open_with_user msg userId ->
  onWebsocketEvent um (message_context parentContextData ws) ws request
  = (um1, Normal u0) ->
  onWebsocketOpenRequest um1 (set_user (message_context parentContextData ws) u0)
    ws userId = (um2, Normal (Some u)) ->
  find_sockets sockets (user_id u) <> Inherited ->
  handleWebsocketMessage serviceHandlers sockets um parentContextData ws request text
  = (<[user_id u := sessions sockets (user_id u) ++ [ws]]> sockets, um2,
     [OpenRequest ws userId;
      WsSend ws (JSON_stringify msg_open_success
                   (unicast_space (message_context parentContextData ws)));
      Finish "ws-message" None],
     Returned tt).
Proof.
  intros Hparse Hopen Hev Hreq Hplain. unfold handleWebsocketMessage.
  fold (message_context parentContextData ws). rewrite Hev.
  rewrite (route_message_open _ _ _ _ _ _ _ Hparse Hopen).
  rewrite (route_open_with_user _ _ _ _ _ _ Hopen), Hreq.
  rewrite (register_lookup sockets
             (set_user (set_user (message_context parentContextData ws) u0) (Some u))
             ws u eq_refl Hplain). reflexivity.
Qed.

(** An open for a user whose id is a name the registry inherits: the
    registration throws, nothing is registered, no [open-success] is
    sent, and the context is finished with the TypeError. *)
Lemma open_inherited_name_step (sockets : Registry) (um um1 um2 : UM)
    (parentContextData : gmap string JsValue) (ws : WebSocket) (request : Request)
    (text : string) (msg userId : JsValue) (u0 : option User) (u : User) :
  JSON_parse text = Normal msg -> open_with_user msg userId ->
  onWebsocketEvent um (message_context parentContextData ws) ws request
  = (um1, Normal u0) ->
  onWebsocketOpenRequest um1 (set_user (message_context parentContextData ws) u0)
    ws userId = (um2, Normal (Some u)) ->
  find_sockets sockets (user_id u) = Inherited ->
  handleWebsocketMessage serviceHandlers sockets um parentContextData ws request text
  = (sockets, um2,
     [OpenRequest ws userId;
      ConsoleWarn "Exception handling client message";
      Finish "ws-message" (Some (TypeError "socketList.push is not a function"))],
     Returned tt).
Proof.
  intros Hparse Hopen Hev Hreq Hfound. unfold handleWebsocketMessage.
  fold (message_context parentContextData ws). rewrite Hev.
  rewrite (route_message_open _ _ _ _ _ _ _ Hparse Hopen).
  rewrite (route_open_with_user _ _ _ _ _ _ Hopen), Hreq.
  rewrite (register_inherited sockets
             (set_user (set_user (message_context parentContextData ws) u0) (Some u))
             ws u eq_refl Hfound). reflexivity.
Qed.

(** Claim C3, where the code departs from it. An open message that
    carries a user identifier makes the server hand the socket and the
    identifier to the user manager, which authenticates it. When that
    fails, by an exception or by leaving the context without user, the
    server leaves the registry as it was and makes no call on the socket:
    after the hand-over it only finishes the context, behind a console
    warning when the failure was an exception. The server sends no
    [open-failed], which it does send for an open without user
    identifier. What the user manager does with the socket it was handed
    is its own. *)
Theorem failed_open_gets_no_answer
    (sockets : Registry) (um um1 um2 : UM)
    (parentContextData : gmap string JsValue) (ws : WebSocket) (request : Request)
    (text : string) (msg userId : JsValue) (u0 : option User)
    (failure : Completion (option User)) :
  JSON_parse text = Normal msg -> open_with_user msg userId ->
  onWebsocketEvent um (message_context parentContextData ws) ws request
  = (um1, Normal u0) ->
  onWebsocketOpenRequest um1 (set_user (message_context parentContextData ws) u0)
    ws userId = (um2, failure) ->
  failure = Normal None \/ (exists e, failure = Throw e) ->
  handleWebsocketMessage serviceHandlers sockets um parentContextData ws request text
  = (sockets, um2,
     OpenRequest ws userId
     :: match failure with
        | Normal _ => [Finish "ws-message" None]
        | Throw e =>
            [ConsoleWarn "Exception handling client message";
             Finish "ws-message" (Some e)]
        end,
     Returned tt).
Proof.
  intros Hparse Hopen Hev Hreq Hfail. unfold handleWebsocketMessage.
  fold (message_context parentContextData ws). rewrite Hev.
  rewrite (route_message_open _ _ _ _ _ _ _ Hparse Hopen).
  rewrite (route_open_with_user _ _ _ _ _ _ Hopen), Hreq.
  destruct Hfail as [->|[e ->]]; reflexivity.
Qed.

(** Where [open-failed] is sent: an open message whose details carry no
    user identifier. *)
Lemma open_without_user_sends_open_failed (sockets : Registry) (um um1 : UM)
    (parentContextData : gmap string JsValue) (ws : WebSocket) (request : Request)
    (text : string) (msg : JsValue) (u0 : option User) :
  JSON_parse text = Normal msg -> js_get msg "type" = Some (JStr "open") ->
  js_get msg "details" = None ->
  onWebsocketEvent um (message_context parentContextData ws) ws request
  = (um1, Normal u0) ->
  handleWebsocketMessage serviceHandlers sockets um parentContextData ws request text
  = (sockets, um1,
     [LoggerWarn "handleWebsocketMessage" "Invalid client open message";
      WsSend ws (JSON_stringify msg_open_failed
                   (unicast_space (message_context parentContextData ws)));
      Finish "ws-message" None],
     Returned tt).
Proof.
  intros Hparse Htype Hd Hev. unfold handleWebsocketMessage.
  fold (message_context parentContextData ws). rewrite Hev.
  unfold route_message. rewrite Hparse, (typed_message_truthy msg _ Htype), Htype.
  simpl. unfold route_open. rewrite Hd. reflexivity.
Qed.

(** Claim C4, as the code has it. Every successful open whose
    registration does not throw (the user's id is not a name the registry
    inherits from [Object.prototype], or the user has an entry) appends
    the socket to the user's sessions, also when it is there already:
    after two such opens on one socket the list holds it twice more than
    before, and a multicast to that user sends the socket one copy for
    each time it is listed. *)
Theorem second_open_registers_again
    (sockets : Registry) (um um1 um2 um3 um4 : UM)
    (parentContextData : gmap string JsValue) (ws : WebSocket) (request : Request)
    (text : string) (msg userId : JsValue) (u0 u1 : option User) (u : User)
    (context : Context) (message : JsValue) :
  JSON_parse text = Normal msg -> open_with_user msg userId ->
  onWebsocketEvent um (message_context parentContextData ws) ws request
  = (um1, Normal u0) ->
  onWebsocketOpenRequest um1 (set_user (message_context parentContextData ws) u0)
    ws userId = (um2, Normal (Some u)) ->
  onWebsocketEvent um2 (message_context parentContextData ws) ws request
  = (um3, Normal u1) ->
  onWebsocketOpenRequest um3 (set_user (message_context parentContextData ws) u1)
    ws userId = (um4, Normal (Some u)) ->
  user context = Some u ->
  find_sockets sockets (user_id u) <> Inherited ->
  exists sockets1 calls1 sockets2 calls2,
    handleWebsocketMessage serviceHandlers sockets um parentContextData ws request text
    = (sockets1, um2, calls1, Returned tt)
    /\ handleWebsocketMessage serviceHandlers sockets1 um2 parentContextData ws
         request text
       = (sockets2, um4, calls2, Returned tt)
    /\ sockets2 !! user_id u = Some (sessions sockets (user_id u) ++ [ws; ws])
    /\ (forall w,
          sends_to w (deliverMessage sockets2 context message true)
          = copies w (sessions sockets (user_id u) ++ [ws; ws]))
    /\ sends_to ws (deliverMessage sockets2 context message true)
       = (copies ws (sessions sockets (user_id u)) + 2)%nat.
Proof.
  intros Hparse Hopen Hev1 Hreq1 Hev2 Hreq2 Hctx Hplain.
  eexists _, _, _, _.
  split;
    [exact (open_success_step _ _ _ _ _ _ _ _ _ _ _ _ Hparse Hopen Hev1 Hreq1 Hplain)|].
  split.
  { apply (open_success_step _ _ _ _ _ _ _ _ _ _ _ _ Hparse Hopen Hev2 Hreq2).
    erewrite find_sockets_own by apply lookup_insert_eq. discriminate. }
  assert (Hl : <[user_id u := sessions
                   (<[user_id u := sessions sockets (user_id u) ++ [ws]]> sockets)
                   (user_id u) ++ [ws]]>
                 (<[user_id u := sessions sockets (user_id u) ++ [ws]]> sockets)
               !! user_id u
               = Some (sessions sockets (user_id u) ++ [ws; ws])).
  { rewrite lookup_insert_eq. unfold sessions at 1. rewrite lookup_insert_eq. simpl.
    rewrite <- app_assoc. reflexivity. }
  split; [exact Hl|].
  assert (Hall : forall w,
             sends_to w
               (deliverMessage
                  (<[user_id u := sessions
                       (<[user_id u := sessions sockets (user_id u) ++ [ws]]> sockets)
                       (user_id u) ++ [ws]]>
                     (<[user_id u := sessions sockets (user_id u) ++ [ws]]> sockets))
                  context message true)
             = copies w (sessions sockets (user_id u) ++ [ws; ws])).
  { intros w. unfold deliverMessage. rewrite Hctx, Hl. apply sends_to_multicast. }
  split; [exact Hall|].
  rewrite Hall, copies_app. f_equal.
  rewrite !copies_cons. destruct (decide (ws = ws)); [reflexivity | congruence].
Qed.

(** Claim C10. When a socket is listed more than once for a user, one
    unregistration removes its first occurrence only: the socket is
    still listed, one time fewer, the other sockets are listed as
    before, and a multicast to the user still sends to it. This is what
    the close of a socket registered twice does. *)
Theorem duplicate_registration_outlives_unregister
    (sockets : Registry) (context : Context) (ws : WebSocket) (u : User)
    (l : list WebSocket) (message : JsValue)
    (um um1 : UM) (parentContextData : gmap string JsValue) (request : Request) :
  user context = Some u -> sockets !! user_id u = Some l -> (2 <= copies ws l)%nat ->
  onWebsocketEvent um (ExecutionContext "ws-close" parentContextData) ws request
  = (um1, Normal (Some u)) ->
  fst (unregisterClientSocket sockets context ws) !! user_id u
  = Some (remove_first ws l)
  /\ S (copies ws (remove_first ws l)) = copies ws l
  /\ ws ∈ remove_first ws l
  /\ (forall other, other <> ws -> copies other (remove_first ws l) = copies other l)
  /\ WsSend ws (JSON_stringify message SpaceUndefined)
     ∈ deliverMessage (fst (unregisterClientSocket sockets context ws)) context
         message true
  /\ fst (fst (fst (handleWebsocketClose serviceHandlers sockets um parentContextData
                      ws request)))
     = fst (unregisterClientSocket sockets context ws).
Proof.
  intros Hu Hl Hcopies Hev.
  assert (Hin : ws ∈ l) by (apply copies_pos; lia).
  assert (Hlen : (1 < length l)%nat).
  { pose proof (length_filter (fun x => x = ws) l) as Hle.
    unfold copies in Hcopies. lia. }
  pose proof (copies_remove_first_same ws l Hin) as Hsame.
  assert (Hstill : ws ∈ remove_first ws l) by (apply copies_pos; lia).
  assert (Hreg : fst (unregisterClientSocket sockets context ws) !! user_id u
                 = Some (remove_first ws l)).
  { rewrite (unregister_one_of_many sockets context ws u l Hu Hl Hin Hlen).
    apply lookup_insert_eq. }
  split; [exact Hreg|]. split; [exact Hsame|]. split; [exact Hstill|].
  split; [intros other Hne; apply copies_remove_first_other; exact Hne|].
  split.
  - unfold deliverMessage. rewrite Hu, Hreg.
    apply list_elem_of_fmap. exists ws. split; [reflexivity | exact Hstill].
  - unfold handleWebsocketClose. rewrite Hev.
    rewrite (unregister_one_of_many sockets context ws u l Hu Hl Hin Hlen).
    rewrite (unregister_one_of_many sockets
               (set_user (ExecutionContext "ws-close" parentContextData) (Some u))
               ws u l eq_refl Hl Hin Hlen).
    reflexivity.
Qed.

End HandshakeFacts.

(** The run claim C3 is about: the user manager does not know [ghost],
    the open leaves the context without user, the server registers
    nothing and makes no call on the socket. *)
Lemma failed_open_emits_no_open_failed :
  snd (fst Sample.ghost_open)
  = [OpenRequest 1%nat (JStr "ghost"); Finish "ws-message" None]
  /\ (forall text, WsSend 1%nat text ∉ snd (fst Sample.ghost_open))
  /\ fst (fst (fst Sample.ghost_open)) !! "ghost" = None.
Proof.
  assert (Hcalls : snd (fst Sample.ghost_open)
                   = [OpenRequest 1%nat (JStr "ghost"); Finish "ws-message" None])
    by (vm_compute; reflexivity).
  split; [exact Hcalls|]. split; [|vm_compute; reflexivity].
  intros text Hin. rewrite Hcalls in Hin.
  apply elem_of_cons in Hin as [Hin|Hin]; [discriminate|].
  apply list_elem_of_singleton in Hin. discriminate.
Qed.

Lemma failed_open_witness :
  @handleWebsocketMessage Sample.runtime Sample.userManager [] ∅ ∅ Sample.no_config
    1%nat Sample.empty_request (Sample.wire (Sample.open_as "ghost"))
  = (∅, ∅, [OpenRequest 1%nat (JStr "ghost"); Finish "ws-message" None], Returned tt).
Proof.
  apply (@failed_open_gets_no_answer Sample.runtime Sample.userManager []
           ∅ ∅ ∅ ∅ Sample.no_config 1%nat Sample.empty_request
           (Sample.wire (Sample.open_as "ghost")) (Sample.open_as "ghost")
           (JStr "ghost") None (Normal None)).
  - vm_compute. reflexivity.
  - split; [reflexivity|]. exists (JObj [("userId", JStr "ghost")]).
    repeat split; reflexivity.
  - vm_compute. reflexivity.
  - vm_compute. reflexivity.
  - left. reflexivity.
Defined.

(** Claim C4 fails as stated: after two successful opens on socket 1 a
    multicast to the user sends socket 1 two copies. *)
Lemma second_open_doubles_delivery :
  fst (fst (fst Sample.second_open)) !! "u1" = Some [1%nat; 1%nat]
  /\ deliverMessage (fst (fst (fst Sample.second_open)))
       (Sample.u1_on_socket_1 Sample.no_config) msg_open_success true
     = [WsSend 1%nat (Sample.wire msg_open_success);
        WsSend 1%nat (Sample.wire msg_open_success)]
  /\ ~ (sends_to 1%nat
         (deliverMessage (fst (fst (fst Sample.second_open)))
            (Sample.u1_on_socket_1 Sample.no_config) msg_open_success true) <= 1)%nat.
Proof.
  split; [vm_compute; reflexivity|]. split; [vm_compute; reflexivity|].
  vm_compute. lia.
Qed.

Lemma second_open_witness :
  exists sockets2,
    sockets2 !! "u1" = Some [1%nat; 1%nat]
    /\ sends_to 1%nat
         (deliverMessage sockets2
            (mkContext "http" Sample.no_config (Some (mkUser "u1")) None)
            msg_open_success true) = 2%nat.
Proof.
  destruct (@second_open_registers_again Sample.runtime Sample.userManager []
              ∅ ∅ ∅ {[ 1%nat := "u1" ]} {[ 1%nat := "u1" ]}
              {[ 1%nat := "u1" ]} Sample.no_config 1%nat Sample.empty_request
              (Sample.wire (Sample.open_as "u1")) (Sample.open_as "u1") (JStr "u1")
              None (Some (mkUser "u1")) (mkUser "u1")
              (mkContext "http" Sample.no_config (Some (mkUser "u1")) None)
              msg_open_success)
    as (sockets1 & calls1 & sockets2 & calls2 & _ & _ & Hl & _ & Hsends).
  - vm_compute. reflexivity.
  - split; [reflexivity|]. exists (JObj [("userId", JStr "u1")]).
    repeat split; reflexivity.
  - vm_compute. reflexivity.
  - vm_compute. reflexivity.
  - vm_compute. reflexivity.
  - vm_compute. reflexivity.
  - reflexivity.
  - vm_compute. discriminate.
  - exists sockets2. split; [exact Hl | exact Hsends].
Defined.

Lemma duplicate_registration_witness :
  fst (unregisterClientSocket {[ "u1" := [1%nat; 2%nat; 1%nat] ]}
         (mkContext "ws-close" Sample.no_config (Some (mkUser "u1")) None) 1%nat)
  !! "u1"
  = Some [2%nat; 1%nat].
Proof.
  apply (@duplicate_registration_outlives_unregister Sample.userManager []
           {[ "u1" := [1%nat; 2%nat; 1%nat] ]}
           (mkContext "ws-close" Sample.no_config (Some (mkUser "u1")) None)
           1%nat (mkUser "u1") [1%nat; 2%nat; 1%nat] msg_open_success
           {[ 1%nat := "u1" ]} {[ 1%nat := "u1" ]} Sample.no_config Sample.empty_request).
  - reflexivity.
  - vm_compute. reflexivity.
  - vm_compute. lia.
  - vm_compute. reflexivity.
Defined.

(* ===================================================================== *)
(** ** The ping-pong monitor *)
(* ===================================================================== *)

Lemma Qgt_bool_true (a b : Q) : Qgt_bool a b = true <-> (b < a)%Q.
Proof.
  unfold Qgt_bool. rewrite negb_true_iff. split.
  - intros Hle. apply Qnot_le_lt. intros Hab.
    apply Qle_bool_iff in Hab. congruence.
  - intros Hlt. destruct (Qle_bool a b) eqn:Hle; [|reflexivity].
    apply Qle_bool_iff in Hle. exfalso. exact (Qlt_not_le _ _ Hlt Hle).
Qed.

Lemma Qgt_bool_false (a b : Q) : Qgt_bool a b = false <-> (a <= b)%Q.
Proof.
  unfold Qgt_bool. rewrite negb_false_iff. apply Qle_bool_iff.
Qed.

Lemma monitor_step_keeps_deadline_on_timer (pingPong : Q) (m : Monitor) (now : Q) :
  fst (monitor_step pingPong m (TimerFired now)) = m.
Proof.
  simpl. destruct (timerSet m); [|reflexivity].
  destruct (Qgt_bool (now - lastPong m) pingPong); reflexivity.
Qed.

Lemma monitor_step_message (pingPong : Q) (m : Monitor) (now : Q) (data : WsData) :
  monitor_step pingPong m (MessageReceived now data)
  = match data with
    | TextData text =>
        if String.eqb text "__pong__" then (mkMonitor now (timerSet m), DoNothing)
        else if is_empty_string text then (m, DoWarnInvalid)
        else (m, DoHandleMessage text)
    | OtherData => (m, DoWarnInvalid)
    end.
Proof. destruct data as [[|c s]|]; reflexivity. Qed.

Lemma replies_keep_socket_open (pingPong : Q) (evs : list SocketEvent) (m : Monitor) :
  replies_every_period pingPong (lastPong m) evs ->
  DoClose ∉ monitor_run pingPong m evs.
Proof.
  revert m. induction evs as [|ev evs IH]; intros m Hreplies Hin; [inversion Hin|].
  cbn [monitor_run] in Hin. destruct ev as [now|now data|].
  - destruct Hreplies as [Hfresh Hrest].
    rewrite monitor_step_keeps_deadline_on_timer in Hin.
    apply elem_of_cons in Hin as [Hnow|Hlater]; [|exact (IH m Hrest Hlater)].
    cbn [monitor_step] in Hnow. apply Qgt_bool_false in Hfresh. rewrite Hfresh in Hnow.
    destruct (timerSet m); discriminate.
  - rewrite monitor_step_message in Hin. cbn [replies_every_period] in Hreplies.
    destruct data as [text|].
    + destruct (String.eqb text "__pong__").
      * apply elem_of_cons in Hin as [Hnow|Hlater]; [discriminate|].
        exact (IH (mkMonitor now (timerSet m)) Hreplies Hlater).
      * destruct (is_empty_string text);
          (apply elem_of_cons in Hin as [Hnow|Hlater];
           [discriminate | exact (IH m Hreplies Hlater)]).
    + apply elem_of_cons in Hin as [Hnow|Hlater];
        [discriminate | exact (IH m Hreplies Hlater)].
  - apply elem_of_cons in Hin as [Hnow|Hlater]; [discriminate|].
    exact (IH (mkMonitor (lastPong m) false) Hreplies Hlater).
Qed.

Lemma monitor_after_open (pingPong : Q) (evs : list SocketEvent) (m : Monitor) :
  CloseReceived ∉ evs -> timerSet m = true ->
  monitor_after pingPong m evs = mkMonitor (last_reply (lastPong m) evs) true.
Proof.
  revert m. induction evs as [|ev evs IH]; intros m Hopen Htimer.
  - destruct m as [l t]. simpl in *. rewrite Htimer. reflexivity.
  - apply not_elem_of_cons in Hopen as [Hev Hopen]. cbn [monitor_after].
    destruct ev as [now|now data|]; [| |congruence].
    + rewrite monitor_step_keeps_deadline_on_timer. exact (IH m Hopen Htimer).
    + rewrite monitor_step_message. cbn [last_reply]. destruct data as [text|].
      * destruct (String.eqb text "__pong__").
        -- exact (IH (mkMonitor now (timerSet m)) Hopen Htimer).
        -- destruct (is_empty_string text); exact (IH m Hopen Htimer).
      * exact (IH m Hopen Htimer).
Qed.

Lemma monitor_run_snoc (pingPong : Q) (evs : list SocketEvent) (ev : SocketEvent)
    (m : Monitor) :
  monitor_run pingPong m (evs ++ [ev])
  = monitor_run pingPong m evs
    ++ [snd (monitor_step pingPong (monitor_after pingPong m evs) ev)].
Proof.
  revert m. induction evs as [|ev' evs IH]; intros m; [reflexivity|].
  cbn [app monitor_run monitor_after]. rewrite IH. reflexivity.
Qed.

Section LivenessFacts.
Context `{JsRuntime} `{UserManager}.
Variable serviceHandlers : list ServiceHandler.

(** Claim C7. A configured interval of zero is replaced by a day of
    milliseconds (86400000); an interval that is not configured is 10000;
    any other configured value is kept. When the interval is a number
    [P]: an accepted socket starts with its deadline half an interval
    after the start, and with its timer set. After any events of a socket
    that is still open, a firing of the timer at time [now] closes the
    socket when [now] is more than [P] after the last liveness reply (the
    time of the last [__pong__], or the first deadline when there was
    none) and sends it a ping otherwise, and does nothing else. Hence a
    socket that misses a full period is closed at that firing, a socket
    whose latest reply is at most one interval old at every firing is
    never closed by the monitor, and a socket that never replies is
    pinged at the first firing and closed at the second. *)
Theorem ping_pong_liveness (context : Context) (ws : WebSocket) (request : Request)
    (sockets : Registry) (um : UM) (start : Q) :
  (getConfig context "client.pingPongInterval" = Some (JNum 0) ->
   pingPongInterval context = JNum 86400000)
  /\ (getConfig context "client.pingPongInterval" = None ->
      pingPongInterval context = JNum 10000)
  /\ (forall v, v <> JNum 0 -> getConfig context "client.pingPongInterval" = Some v ->
      pingPongInterval context = v)
  /\ (forall P, interval_number (pingPongInterval context) = Some P ->
      accept_socket P start = mkMonitor (start + P / 2)%Q true
      /\ (forall evs now, CloseReceived ∉ evs ->
            monitor_after P (accept_socket P start) evs
            = mkMonitor (last_reply (start + P / 2)%Q evs) true
            /\ socket_event serviceHandlers P context ws request sockets um
                 (monitor_after P (accept_socket P start) evs) (TimerFired now)
               = (sockets, um, monitor_after P (accept_socket P start) evs,
                  if Qgt_bool (now - last_reply (start + P / 2)%Q evs) P
                  then [LoggerLog "handleWebsockets"
                          "Client socket being closed because of ping-pong timeout";
                        WsClose ws]
                  else [WsSend ws "__ping__"]))
      /\ (forall evs now, CloseReceived ∉ evs ->
            (P < now - last_reply (start + P / 2)%Q evs)%Q ->
            monitor_run P (accept_socket P start) (evs ++ [TimerFired now])
            = monitor_run P (accept_socket P start) evs ++ [DoClose]
            /\ snd (socket_event serviceHandlers P context ws request sockets um
                      (monitor_after P (accept_socket P start) evs) (TimerFired now))
               = [LoggerLog "handleWebsockets"
                    "Client socket being closed because of ping-pong timeout";
                  WsClose ws])
      /\ (forall evs now, CloseReceived ∉ evs ->
            (now - last_reply (start + P / 2)%Q evs <= P)%Q ->
            monitor_run P (accept_socket P start) (evs ++ [TimerFired now])
            = monitor_run P (accept_socket P start) evs ++ [DoPing]
            /\ snd (socket_event serviceHandlers P context ws request sockets um
                      (monitor_after P (accept_socket P start) evs) (TimerFired now))
               = [WsSend ws "__ping__"])
      /\ (forall m evs,
            replies_every_period P (lastPong m) evs -> DoClose ∉ monitor_run P m evs)
      /\ (forall evs,
            replies_every_period P (start + P / 2)%Q evs ->
            DoClose ∉ monitor_run P (accept_socket P start) evs)
      /\ ((0 < P)%Q ->
          monitor_run P (accept_socket P start)
            [TimerFired (start + P); TimerFired (start + 2 * P)]
          = [DoPing; DoClose])).
Proof.
  split; [|split; [|split]].
  - intros Hzero. unfold pingPongInterval, getConfig_default. rewrite Hzero. reflexivity.
  - intros Hnone. unfold pingPongInterval, getConfig_default. rewrite Hnone. reflexivity.
  - intros v Hv Hcfg. unfold pingPongInterval, getConfig_default. rewrite Hcfg.
    destruct (is_zero v) eqn:Hz; [|reflexivity].
    destruct v as [| |k| | |]; try discriminate. simpl in Hz.
    apply Z.eqb_eq in Hz. subst k. congruence.
  - intros P _.
    assert (Hafter : forall evs, CloseReceived ∉ evs ->
              monitor_after P (accept_socket P start) evs
              = mkMonitor (last_reply (start + P / 2)%Q evs) true).
    { intros evs Hopen. exact (monitor_after_open P evs (accept_socket P start) Hopen eq_refl). }
    assert (Hfire : forall evs now, CloseReceived ∉ evs ->
              socket_event serviceHandlers P context ws request sockets um
                (monitor_after P (accept_socket P start) evs) (TimerFired now)
              = (sockets, um, monitor_after P (accept_socket P start) evs,
                 if Qgt_bool (now - last_reply (start + P / 2)%Q evs) P
                 then [LoggerLog "handleWebsockets"
                         "Client socket being closed because of ping-pong timeout";
                       WsClose ws]
                 else [WsSend ws "__ping__"])).
    { intros evs now Hopen. rewrite (Hafter evs Hopen). unfold socket_event.
      cbn [monitor_step timerSet lastPong].
      destruct (Qgt_bool (now - last_reply (start + P / 2)%Q evs) P); reflexivity. }
    split; [reflexivity|]. split; [|split; [|split; [|split; [|split]]]].
    + intros evs now Hopen. split; [exact (Hafter evs Hopen) | exact (Hfire evs now Hopen)].
    + intros evs now Hopen Hlate. apply Qgt_bool_true in Hlate. split.
      * rewrite monitor_run_snoc, (Hafter evs Hopen).
        cbn [monitor_step timerSet lastPong]. rewrite Hlate. reflexivity.
      * rewrite (Hfire evs now Hopen), Hlate. reflexivity.
    + intros evs now Hopen Hfresh. apply Qgt_bool_false in Hfresh. split.
      * rewrite monitor_run_snoc, (Hafter evs Hopen).
        cbn [monitor_step timerSet lastPong]. rewrite Hfresh. reflexivity.
      * rewrite (Hfire evs now Hopen), Hfresh. reflexivity.
    + intros m evs. apply replies_keep_socket_open.
    + intros evs. apply (replies_keep_socket_open P evs (accept_socket P start)).
    + intros Hpos. simpl.
      assert (Hfirst : Qgt_bool (start + P - (start + P / 2)) P = false).
      { apply Qgt_bool_false. unfold Qdiv.
        setoid_replace (/ 2)%Q with (1 # 2)%Q using relation Qeq by reflexivity. lra. }
      assert (Hsecond : Qgt_bool (start + 2 * P - (start + P / 2)) P = true).
      { apply Qgt_bool_true. unfold Qdiv.
        setoid_replace (/ 2)%Q with (1 # 2)%Q using relation Qeq by reflexivity. lra. }
      rewrite Hfirst. simpl. rewrite Hsecond. reflexivity.
Qed.

End LivenessFacts.

(** A server configured with an interval of zero runs its monitors on a
    day of milliseconds: a socket that answers each ping is still open
    after three days, and one that stops answering after the first day is
    closed at the firing of the third. *)
Lemma ping_pong_liveness_witness :
  pingPongInterval Sample.zero_interval = JNum 86400000
  /\ (DoClose ∉ monitor_run 86400000 (accept_socket 86400000 0)
                  [TimerFired 86400000; MessageReceived 86400050 (TextData "__pong__");
                   TimerFired 172800000; MessageReceived 172800020 (TextData "__pong__");
                   TimerFired 259200000])
  /\ monitor_run 86400000 (accept_socket 86400000 0)
       ([TimerFired 86400000; MessageReceived 86400050 (TextData "__pong__");
         TimerFired 172800000] ++ [TimerFired 259200000])
     = (monitor_run 86400000 (accept_socket 86400000 0)
          [TimerFired 86400000; MessageReceived 86400050 (TextData "__pong__");
           TimerFired 172800000] ++ [DoClose]).
Proof.
  destruct (@ping_pong_liveness Sample.runtime Sample.userManager []
              Sample.zero_interval 1%nat Sample.empty_request ∅ ∅ 0%Q)
    as (Hzero & _ & _ & Hmonitor).
  destruct (Hmonitor 86400000%Q ltac:(vm_compute; reflexivity))
    as (_ & _ & Hclosed & _ & _ & Hopen & _).
  split; [apply Hzero; vm_compute; reflexivity|]. split.
  - apply Hopen. vm_compute. repeat split; discriminate.
  - apply Hclosed.
    + intros Hin. repeat (apply elem_of_cons in Hin as [Hin|Hin]; [discriminate|]).
      inversion Hin.
    + vm_compute. reflexivity.
Defined.

(* ===================================================================== *)
(** ** GoogleProvider: more on the linking flow *)
(* ===================================================================== *)

Lemma filter_drops_all (P : string -> Prop) `{forall x, Decision (P x)} (l : list string) :
  (forall x, x ∈ l -> ~ P x) -> filter P l = [].
Proof.
  induction l as [|x l IH]; intros Hnone; [reflexivity|].
  rewrite filter_cons. destruct (decide (P x)) as [Hp|_].
  - exfalso. exact (Hnone x ltac:(left) Hp).
  - apply IH. intros y Hy. apply Hnone. right. exact Hy.
Qed.

Lemma elem_of_addScopes (scopes add : list string) (x : string) :
  x ∈ addScopes scopes add <-> x ∈ scopes \/ x ∈ add.
Proof.
  rewrite addScopes_filter, elem_of_app, list_elem_of_filter, elem_of_first_occurrences.
  destruct (decide (x ∈ scopes)); tauto.
Qed.

(** Property X1. [addScopes] keeps the scopes it is given in front and in
    order, ends with exactly the scopes of both lists, keeps a list
    without repetition free of repetition, and adding the same scopes a
    second time changes nothing. *)
Theorem addScopes_laws (scopes add : list string) :
  scopes `prefix_of` addScopes scopes add
  /\ (forall x, x ∈ addScopes scopes add <-> x ∈ scopes \/ x ∈ add)
  /\ (NoDup scopes -> NoDup (addScopes scopes add))
  /\ addScopes (addScopes scopes add) add = addScopes scopes add.
Proof.
  split; [|split; [|split]].
  - rewrite addScopes_filter. eexists. reflexivity.
  - intros x. apply elem_of_addScopes.
  - intros Hnd. rewrite addScopes_filter. apply NoDup_app. split; [exact Hnd|]. split.
    + intros x Hx Hin. apply list_elem_of_filter in Hin as [Hnot _]. exact (Hnot Hx).
    + apply NoDup_filter, NoDup_first_occurrences.
  - rewrite (addScopes_filter (addScopes scopes add) add).
    rewrite filter_drops_all; [apply app_nil_r|].
    intros x Hx Hnot. apply Hnot, elem_of_addScopes. right.
    apply elem_of_first_occurrences. exact Hx.
Qed.

Lemma addScopes_laws_witness :
  NoDup (addScopes base_scopes ["a"; "b"; "a"]).
Proof.
  apply (proj1 (proj2 (proj2 (addScopes_laws base_scopes ["a"; "b"; "a"])))).
  unfold base_scopes. repeat constructor; rewrite ?elem_of_cons; intros Hin.
  - destruct Hin as [Hin|Hin]; [discriminate | inversion Hin].
  - inversion Hin.
Defined.

Section LinkingFacts.
Context `{JsRuntime} `{GoogleEnv} `{UserManager}.

(** Property X2. An auth request that lacks the user id, the callback or
    the service-id list is answered with status 400 and one of the three
    messages of the handler, and with no redirect: through the dispatcher
    the response is that status and message, and the context is finished
    without error. *)
Theorem auth_request_missing_parameter
    (um : UM) (parentContext : Context) (request : Request) (u : option User) :
  truthy_str (query request !! "braidUserId") = false
  \/ truthy_str (query request !! "callback") = false
  \/ truthy_str (query request !! "serviceIds") = false ->
  snd (initializeHttpContext um (http_context parentContext) request) = Normal u ->
  exists text,
    text ∈ ["Missing token param"; "Missing callback param"; "Missing serviceIds param"]
    /\ (forall context, handleServiceAuthRequest context request = bad_request text)
    /\ snd (fst (handleHttpRequest um parentContext request
                   (returning handleServiceAuthRequest) false None))
       = [no_cache; Status 400; Send text; Finish "http" None].
Proof.
  intros Hmissing Hhook.
  assert (Hres : exists text,
             text ∈ ["Missing token param"; "Missing callback param";
                     "Missing serviceIds param"]
             /\ forall context, handleServiceAuthRequest context request = bad_request text).
  { unfold handleServiceAuthRequest.
    destruct (query request !! "braidUserId") as [[|c1 s1]|];
      try (exists "Missing token param"; split; [left | reflexivity]).
    destruct (query request !! "callback") as [[|c2 s2]|];
      try (exists "Missing callback param"; split; [right; left | reflexivity]).
    destruct (query request !! "serviceIds") as [[|c3 s3]|];
      try (exists "Missing serviceIds param"; split; [right; right; left | reflexivity]).
    simpl in Hmissing. destruct Hmissing as [Hm|[Hm|Hm]]; discriminate. }
  destruct Hres as (text & Hin & Hres). exists text. split; [exact Hin|].
  split; [exact Hres|].
  unfold handleHttpRequest. fold (http_context parentContext).
  destruct (initializeHttpContext um (http_context parentContext) request) as [um1 r].
  simpl in Hhook. subst r. unfold returning. rewrite Hres.
  rewrite !elem_of_cons in Hin.
  destruct Hin as [->|[->|[->|Hin]]]; [reflexivity | reflexivity | reflexivity|].
  inversion Hin.
Qed.

(** Property X3. The two steps of the linking flow compose. When the
    callback brings back the state text that an auth request for user
    [braidUserId] issued, and the runtime parses that text back to the
    value it was written from, then with a code and a provider that
    answers, the callback exchanges the code, fetches the profile, upserts
    one Google user for that user id with the accepted services of the
    request, and redirects to the client callback with the account id. *)
Theorem linking_flow_round_trip
    (context : Context) (request : Request)
    (braidUserId callbackUrl code : string) (serviceIds : list string)
    (tokens userProfile : JsValue) :
  braidUserId <> EmptyString -> code <> EmptyString ->
  query request !! "code" = Some code ->
  query request !! "state"
  = Some (JSON_stringify (link_state braidUserId (accepted_services serviceIds) callbackUrl)
            SpaceUndefined) ->
  JSON_parse (JSON_stringify
                (link_state braidUserId (accepted_services serviceIds) callbackUrl)
                SpaceUndefined)
  = Normal (link_state braidUserId (accepted_services serviceIds) callbackUrl) ->
  getToken context code = Normal tokens ->
  userinfo_get tokens = Normal userProfile -> userProfile <> JNull ->
  upsertRecord context (Some (JStr braidUserId)) (js_get userProfile "id")
    (js_get userProfile "email") userProfile tokens
    (Some (JArr (map JStr (accepted_services serviceIds)))) = Normal tt ->
  handleServiceAuthCallback context request
  = ([TokenExchange code; ProfileFetch tokens;
      UpsertGoogleUser (Some (JStr braidUserId)) (js_get userProfile "id")
        (js_get userProfile "email") userProfile tokens
        (Some (JArr (map JStr (accepted_services serviceIds))))],
     Returned (redirect_to (appendUrlParam (Some (JStr callbackUrl)) "accountId"
                              (js_get userProfile "id")))).
Proof.
  intros Hu Hcode Hq Hstate Hparse Htok Hprof Hnn Hups.
  assert (Hb : js_get (link_state braidUserId (accepted_services serviceIds) callbackUrl)
                 "braidUserId" = Some (JStr braidUserId)) by reflexivity.
  assert (Hs : js_get (link_state braidUserId (accepted_services serviceIds) callbackUrl)
                 "services" = Some (JArr (map JStr (accepted_services serviceIds))))
    by reflexivity.
  assert (Hc : js_get (link_state braidUserId (accepted_services serviceIds) callbackUrl)
                 "clientCallback" = Some (JStr callbackUrl)) by reflexivity.
  assert (Ht : truthy (link_state braidUserId (accepted_services serviceIds) callbackUrl)
               = true) by reflexivity.
  unfold handleServiceAuthCallback. rewrite Hq.
  destruct code as [|c0 code']; [congruence|].
  rewrite Hstate. cbn [ToString_opt]. rewrite Hparse, Ht, Hb, Hs.
  destruct braidUserId as [|b0 b']; [congruence|].
  cbn [truthy truthy_opt negb orb is_empty_string].
  rewrite Htok, Hprof. unfold on_profile. rewrite Hb, Hs, Hc.
  destruct userProfile; try congruence;
    cbn [js_get_checked fst snd]; rewrite Hups; reflexivity.
Qed.

(** Property X4. When the provider rejects the exchange of the code, or
    the fetch of the profile, the callback rejects with the provider's
    error and no Google user is upserted; after a rejected exchange the
    profile is not even fetched. *)
Theorem provider_failure_writes_nothing
    (context : Context) (request : Request) (code : string) (st : JsValue)
    (e : JsError) :
  query request !! "code" = Some code -> code <> EmptyString ->
  JSON_parse (ToString_opt (query request !! "state")) = Normal st ->
  truthy st = true -> truthy_opt (js_get st "braidUserId") = true ->
  truthy_opt (js_get st "services") = true ->
  (getToken context code = Throw e
   \/ exists tokens, getToken context code = Normal tokens
                     /\ userinfo_get tokens = Throw e) ->
  snd (handleServiceAuthCallback context request) = Threw e
  /\ filter is_upsert (fst (handleServiceAuthCallback context request)) = []
  /\ (getToken context code = Throw e ->
      fst (handleServiceAuthCallback context request) = [TokenExchange code]).
Proof.
  intros Hq Hcode Hparse Hst Hu Hs Hfail.
  unfold handleServiceAuthCallback. rewrite Hq.
  destruct code as [|c0 code']; [congruence|].
  rewrite Hparse, Hst, Hu, Hs. cbn [negb orb].
  destruct Hfail as [Htok|(tokens & Htok & Hprof)].
  - rewrite Htok. split; [reflexivity|]. split; [reflexivity|]. intros _. reflexivity.
  - rewrite Htok, Hprof. split; [reflexivity|]. split; [reflexivity|].
    intros Hcontra. discriminate.
Qed.

(** Property X5. When the upsert of the Google user is rejected, the
    callback neither resolves nor rejects: the dispatcher writes no
    response for the request and does not finish its context. *)
Theorem rejected_upsert_leaves_request_unanswered
    (um : UM) (parentContext : Context) (request : Request) (code : string)
    (st tokens userProfile : JsValue) (u : option User) (e : JsError) :
  query request !! "code" = Some code -> code <> EmptyString ->
  JSON_parse (ToString_opt (query request !! "state")) = Normal st ->
  truthy st = true -> truthy_opt (js_get st "braidUserId") = true ->
  truthy_opt (js_get st "services") = true ->
  snd (initializeHttpContext um (http_context parentContext) request) = Normal u ->
  getToken (set_user (http_context parentContext) u) code = Normal tokens ->
  userinfo_get tokens = Normal userProfile -> userProfile <> JNull ->
  upsertRecord (set_user (http_context parentContext) u) (js_get st "braidUserId")
    (js_get userProfile "id") (js_get userProfile "email") userProfile tokens
    (js_get st "services") = Throw e ->
  snd (handleHttpRequest um parentContext request handleServiceAuthCallback false None)
  = Pending
  /\ filter is_terminal
       (snd (fst (handleHttpRequest um parentContext request
                    handleServiceAuthCallback false None))) = []
  /\ filter is_finish
       (snd (fst (handleHttpRequest um parentContext request
                    handleServiceAuthCallback false None))) = [].
Proof.
  intros Hq Hcode Hparse Hst Hu Hs Hhook Htok Hprof Hnn Hups.
  unfold handleHttpRequest. fold (http_context parentContext).
  destruct (initializeHttpContext um (http_context parentContext) request) as [um1 r].
  simpl in Hhook. subst r.
  unfold handleServiceAuthCallback. rewrite Hq.
  destruct code as [|c0 code']; [congruence|].
  rewrite Hparse, Hst, Hu, Hs. cbn [negb orb]. rewrite Htok, Hprof.
  unfold on_profile.
  destruct userProfile; try congruence;
    cbn [js_get_checked fst snd]; rewrite Hups; repeat split; reflexivity.
Qed.

End LinkingFacts.

Lemma auth_request_missing_parameter_witness :
  exists text,
    text ∈ ["Missing token param"; "Missing callback param"; "Missing serviceIds param"]
    /\ (forall context,
          @handleServiceAuthRequest Sample.googleEnv context Sample.anonymous_request
          = bad_request text)
    /\ snd (fst (@handleHttpRequest Sample.userManager ∅ (Sample.server_context ∅)
                   Sample.anonymous_request
                   (returning (@handleServiceAuthRequest Sample.googleEnv)) false None))
       = [no_cache; Status 400; Send text; Finish "http" None].
Proof.
  apply (@auth_request_missing_parameter Sample.googleEnv Sample.userManager ∅
           (Sample.server_context ∅) Sample.anonymous_request None).
  - left. vm_compute. reflexivity.
  - reflexivity.
Defined.

Lemma linking_flow_round_trip_witness :
  snd (@handleServiceAuthCallback Sample.runtime Sample.googleEnv
         (Sample.server_context ∅) Sample.link_callback)
  = Returned (redirect_to "https://x/cb?accountId=g-1").
Proof.
  rewrite (@linking_flow_round_trip Sample.runtime Sample.googleEnv
             (Sample.server_context ∅) Sample.link_callback "U1" "https://x/cb" "4/abc"
             ["mail"; "unknown-id"] (JObj [("access_token", JStr "4/abc")])
             (JObj [("id", JStr "g-1"); ("email", JStr "a@b.c")])).
  - vm_compute. reflexivity.
  - discriminate.
  - discriminate.
  - vm_compute. reflexivity.
  - vm_compute. reflexivity.
  - vm_compute. reflexivity.
  - reflexivity.
  - reflexivity.
  - discriminate.
  - reflexivity.
Defined.

Lemma provider_failure_writes_nothing_witness :
  @handleServiceAuthCallback Sample.runtime Sample.rejecting_exchange
    (Sample.server_context ∅) Sample.link_callback
  = ([TokenExchange "4/abc"], Threw (mkError "Error" "invalid_grant")).
Proof.
  destruct (@provider_failure_writes_nothing Sample.runtime Sample.rejecting_exchange
              (Sample.server_context ∅) Sample.link_callback "4/abc" Sample.state_of_u1
              (mkError "Error" "invalid_grant"))
    as (Hout & _ & Hcalls).
  - vm_compute. reflexivity.
  - discriminate.
  - vm_compute. reflexivity.
  - reflexivity.
  - reflexivity.
  - reflexivity.
  - left. reflexivity.
  - rewrite <- Hout, <- (Hcalls eq_refl). apply surjective_pairing.
Defined.

Lemma rejected_upsert_witness :
  snd (@handleHttpRequest Sample.userManager ∅ (Sample.server_context ∅)
         Sample.link_callback
         (@handleServiceAuthCallback Sample.runtime Sample.rejecting_upsert) false None)
  = Pending.
Proof.
  apply (@rejected_upsert_leaves_request_unanswered Sample.runtime Sample.rejecting_upsert
           Sample.userManager ∅ (Sample.server_context ∅) Sample.link_callback "4/abc"
           Sample.state_of_u1 (JObj [("access_token", JStr "4/abc")])
           (JObj [("id", JStr "g-1"); ("email", JStr "a@b.c")]) None
           (mkError "MongoError" "connection closed")).
  - vm_compute. reflexivity.
  - discriminate.
  - vm_compute. reflexivity.
  - reflexivity.
  - reflexivity.
  - reflexivity.
  - reflexivity.
  - reflexivity.
  - reflexivity.
  - discriminate.
  - reflexivity.
Defined.

(* ===================================================================== *)
(** ** GoogleProvider: the profile read path *)
(* ===================================================================== *)

Lemma accounts_loop_all (users : list GoogleUser) :
  Forall (fun user => profile user <> JNull) users ->
  exists accounts,
    accounts_loop users = Normal accounts
    /\ length accounts = length users
    /\ map (fun a => js_get a "accountId") accounts
       = map (fun user => Some (JStr (googleUserId user))) users
    /\ map (fun a => js_get a "serviceIds") accounts
       = map (fun user => Some (JArr (map JStr (serviceIds user)))) users.
Proof.
  induction 1 as [|user users Hnn _ IH].
  - exists []. repeat split; reflexivity.
  - destruct IH as (accounts & Hloop & Hlen & Hids & Hsvc).
    assert (Hacc : exists account,
               account_of user = Normal account
               /\ js_get account "accountId" = Some (JStr (googleUserId user))
               /\ js_get account "serviceIds" = Some (JArr (map JStr (serviceIds user)))).
    { unfold account_of.
      destruct (profile user) as [| | | |items|props] eqn:Hp; try congruence;
        cbn [js_get_checked]; eexists; (split; [reflexivity|]); split; try reflexivity;
        cbn [js_get app assoc_get String.eqb Ascii.eqb Bool.eqb];
        repeat match goal with
          | |- context [opt_prop ?k ?v] => destruct v; cbn [opt_prop app assoc_get]
          end;
        reflexivity. }
    destruct Hacc as (account & Hacc & Hid & Hs).
    exists (account :: accounts). cbn [accounts_loop]. rewrite Hacc, Hloop.
    repeat split; cbn [length map]; congruence.
Qed.

Section ProfileFacts.
Context `{GoogleUsers}.

(** Property X6. The profile read path answers with status 400 and the
    message [Missing userToken and/or id parameters] when the request has
    no user id, and with status 404 and the message [No matching Google
    user] when the collection holds no Google user for the user id;
    otherwise, the stored profiles being objects, it answers with a JSON
    payload, without status or message, that names the provider
    [com.hivepoint.google] and the user id and lists one account for each
    stored user, in the order of the collection, under the id and the
    services stored. It makes no call to the provider and never
    redirects. *)
Theorem user_profile_lists_linked_accounts
    (context : Context) (request : Request) (braidUserId : string)
    (users : list GoogleUser) :
  (truthy_str (query request !! "braidUserId") = false ->
   handleUserProfile context request
   = ([], Returned (mkResult None (Some 400)
                      (Some "Missing userToken and/or id parameters") None)))
  /\ (query request !! "braidUserId" = Some braidUserId -> braidUserId <> EmptyString ->
      findByBraidUserId context braidUserId = Normal users ->
      Forall (fun user => profile user <> JNull) users ->
      (users = [] ->
       handleUserProfile context request
       = ([], Returned (mkResult None (Some 404) (Some "No matching Google user") None)))
      /\ (users <> [] ->
          exists accounts,
            handleUserProfile context request
            = ([], Returned (mkResult
                               (Some (JObj [("providerId", JStr "com.hivepoint.google");
                                            ("braidUserId", JStr braidUserId);
                                            ("accounts", JArr accounts)]))
                               None None None))
            /\ length accounts = length users
            /\ map (fun a => js_get a "accountId") accounts
               = map (fun user => Some (JStr (googleUserId user))) users
            /\ map (fun a => js_get a "serviceIds") accounts
               = map (fun user => Some (JArr (map JStr (serviceIds user)))) users)).
Proof.
  split.
  - intros Hmissing. unfold handleUserProfile.
    destruct (query request !! "braidUserId") as [[|c s]|];
      [reflexivity | discriminate | reflexivity].
  - intros Hq Hne Hfind Hobjects. unfold handleUserProfile. rewrite Hq.
    destruct braidUserId as [|c s]; [congruence|]. rewrite Hfind. split.
    + intros ->. reflexivity.
    + intros Hsome. destruct users as [|user rest]; [congruence|].
      destruct (accounts_loop_all (user :: rest) Hobjects)
        as (accounts & Hloop & Hlen & Hids & Hsvc).
      exists accounts. cbn [length Nat.eqb]. rewrite Hloop. repeat split; assumption.
Qed.

End ProfileFacts.

Lemma user_profile_witness :
  exists accounts,
    @handleUserProfile Sample.googleUsers (Sample.server_context ∅) Sample.profile_request
    = ([], Returned (mkResult
                       (Some (JObj [("providerId", JStr "com.hivepoint.google");
                                    ("braidUserId", JStr "U1");
                                    ("accounts", JArr accounts)]))
                       None None None))
    /\ length accounts = 2%nat
    /\ map (fun a => js_get a "accountId") accounts
       = [Some (JStr "g-1"); Some (JStr "g-2")]
    /\ map (fun a => js_get a "serviceIds") accounts
       = [Some (JArr [JStr "mail"]); Some (JArr [JStr "mail"; JStr "drive"])].
Proof.
  apply (proj2 (@user_profile_lists_linked_accounts Sample.googleUsers
                  (Sample.server_context ∅) Sample.profile_request "U1"
                  [Sample.ann; Sample.bob])).
  - vm_compute. reflexivity.
  - discriminate.
  - reflexivity.
  - repeat constructor; discriminate.
  - discriminate.
Defined.

(* ===================================================================== *)
(** ** GoogleProvider: the address of a profile *)
(* ===================================================================== *)

Lemma not_account_default {A : Type} (s : string) (x y : A) :
  s <> "account" ->
  match s with
  | "account" => x
  | _ => y
  end = y.
Proof.
  intros Hne.
  do 7 (destruct s as [|[[] [] [] [] [] [] [] []] s]; try reflexivity).
  destruct s; [congruence | reflexivity].
Qed.

Lemma find_account_email_spec (items : list JsValue) :
  Forall (fun email => email <> JNull) items ->
  find_account_email items
  = Normal (option_map (fun email => js_get email "value") (List.find is_account items)).
Proof.
  induction 1 as [|email items Hnn _ IH]; [reflexivity|].
  cbn [find_account_email List.find].
  assert (Hget : js_get_checked (Some email) "type" = Normal (js_get email "type"))
    by (destruct email; [congruence | reflexivity ..]).
  rewrite Hget. unfold is_account, strict_eq_str.
  destruct (js_get email "type") as [[| | |s| |]|]; try exact IH.
  destruct (String.eqb_spec s "account") as [->|Hne]; [reflexivity|].
  rewrite (not_account_default s _ _ Hne). exact IH.
Qed.

(** Property X7. For a profile whose [emails] is an array of entries, none
    of them [null], the helper returns the value of the first entry of
    type [account]; when no entry has that type it returns the value of
    the first entry, and [null] when the array is empty. For a profile
    that is absent or [null] it returns [null]. *)
Theorem getEmailFromProfile_picks_account_address
    (props : list (string * JsValue)) (items : list JsValue) :
  (assoc_get "emails" props = Some (JArr items) ->
   Forall (fun email => email <> JNull) items ->
   getEmailFromProfile (Some (JObj props))
   = Normal (match List.find is_account items with
             | Some email => js_get email "value"
             | None =>
                 match items with
                 | [] => Some JNull
                 | first :: _ => js_get first "value"
                 end
             end))
  /\ getEmailFromProfile None = Normal (Some JNull)
  /\ getEmailFromProfile (Some JNull) = Normal (Some JNull).
Proof.
  split; [|split; reflexivity].
  intros Hemails Hnn.
  unfold getEmailFromProfile, profile_emails. cbn [js_get truthy]. rewrite Hemails.
  cbn [truthy_opt truthy andb from_option iterate].
  rewrite (find_account_email_spec items Hnn).
  destruct (List.find is_account items) as [email|]; [reflexivity|].
  cbn [option_map]. unfold first_email, profile_emails. cbn [js_get truthy].
  rewrite Hemails. cbn [js_get_checked js_get String.eqb Ascii.eqb Bool.eqb].
  destruct items as [|first rest]; [reflexivity|].
  assert (Hpos : gt_zero (Some (JNum (Z.of_nat (length (first :: rest))))) = true)
    by reflexivity.
  rewrite Hpos. cbn [from_option js_index0].
  inversion Hnn as [|? ? Hfirst _]; subst.
  destruct first; [congruence | reflexivity ..].
Qed.

Lemma getEmailFromProfile_picks_witness :
  getEmailFromProfile (Some (JObj [("emails", JArr Sample.two_addresses)]))
  = Normal (Some (JStr "a@x.org")).
Proof.
  rewrite (proj1 (getEmailFromProfile_picks_account_address
                    [("emails", JArr Sample.two_addresses)] Sample.two_addresses)).
  - reflexivity.
  - reflexivity.
  - repeat constructor; discriminate.
Defined.

(* ===================================================================== *)
(** ** Server: reading the certificate chain *)
(* ===================================================================== *)

Lemma split_go_no_separator (sep : ascii) (s : string) (cur : list ascii) :
  sep ∉ String.list_ascii_of_string s ->
  split_go sep cur s
  = [String.string_of_list_ascii (rev cur ++ String.list_ascii_of_string s)].
Proof.
  revert cur. induction s as [|c s IH]; intros cur Hno; simpl.
  - rewrite app_nil_r. reflexivity.
  - simpl in Hno. apply not_elem_of_cons in Hno as [Hne Hno].
    destruct (Ascii.eqb_spec c sep) as [->|_]; [congruence|].
    rewrite (IH (c :: cur) Hno). simpl. rewrite <- app_assoc. reflexivity.
Qed.

Lemma split_go_first_piece (sep : ascii) (s rest : string) (cur : list ascii) :
  sep ∉ String.list_ascii_of_string s ->
  split_go sep cur (s +:+ String sep rest)
  = String.string_of_list_ascii (rev cur ++ String.list_ascii_of_string s)
    :: split_go sep [] rest.
Proof.
  revert cur. induction s as [|c s IH]; intros cur Hno; simpl.
  - rewrite Ascii.eqb_refl, app_nil_r. reflexivity.
  - simpl in Hno. apply not_elem_of_cons in Hno as [Hne Hno].
    destruct (Ascii.eqb_spec c sep) as [->|_]; [congruence|].
    rewrite (IH (c :: cur) Hno). simpl. rewrite <- app_assoc. reflexivity.
Qed.

Lemma split_join (sep : ascii) (lines : list string) :
  lines <> [] ->
  Forall (fun line => sep ∉ String.list_ascii_of_string line) lines ->
  split sep (join (str1 sep) lines) = lines.
Proof.
  intros Hne Hall. unfold split.
  induction Hall as [|line rest Hline Hrest IH]; [congruence|].
  destruct rest as [|next rest'].
  - simpl. rewrite (split_go_no_separator sep line [] Hline). simpl.
    rewrite String.string_of_list_ascii_of_string. reflexivity.
  - change (join (str1 sep) (line :: next :: rest'))
      with (line +:+ String sep (join (str1 sep) (next :: rest'))).
    rewrite (split_go_first_piece sep line _ [] Hline). simpl rev. simpl app.
    rewrite String.string_of_list_ascii_of_string. f_equal. apply IH. discriminate.
Qed.

Lemma ends_certificate_nonempty (line : string) :
  ends_certificate line = true -> (0 <? String.length line)%nat = true.
Proof. destruct line; [discriminate | reflexivity]. Qed.

Lemma nonempty_has_length (line : string) :
  line <> EmptyString -> (0 <? String.length line)%nat = true.
Proof. destruct line; [congruence | reflexivity]. Qed.

Lemma certificate_loop_block (body : list string) (last : string)
    (rest cert ca : list string) :
  Forall (fun line => line <> EmptyString /\ ends_certificate line = false) body ->
  ends_certificate last = true ->
  certificate_loop (body ++ last :: rest) cert ca
  = certificate_loop rest [] (ca ++ [join newline (cert ++ body ++ [last])]).
Proof.
  intros Hbody Hlast. revert cert.
  induction Hbody as [|line body [Hne Hnot] _ IH]; intros cert.
  - cbn [app certificate_loop].
    rewrite (ends_certificate_nonempty last Hlast), Hlast. reflexivity.
  - cbn [app certificate_loop]. rewrite (nonempty_has_length line Hne), Hnot.
    rewrite IH, <- app_assoc. reflexivity.
Qed.

Lemma certificate_loop_blocks (blocks : list (list string)) (rest ca : list string) :
  Forall certificate_lines blocks ->
  certificate_loop (concat blocks ++ rest) [] ca
  = certificate_loop rest [] (ca ++ map (join newline) blocks).
Proof.
  intros Hblocks. revert ca.
  induction Hblocks as [|block blocks (body & last & -> & Hbody & Hlast) _ IH];
    intros ca.
  - simpl. rewrite app_nil_r. reflexivity.
  - cbn [concat map]. rewrite <- !app_assoc. cbn [app].
    rewrite (certificate_loop_block body last _ [] ca Hbody Hlast).
    rewrite IH, <- app_assoc. reflexivity.
Qed.

Lemma certificate_loop_unfinished (lines cert ca : list string) :
  Forall (fun line => ends_certificate line = false) lines ->
  certificate_loop lines cert ca = ca.
Proof.
  intros Hlines. revert cert.
  induction Hlines as [|line lines Hnot _ IH]; intros cert; [reflexivity|].
  cbn [certificate_loop]. rewrite Hnot.
  destruct (0 <? String.length line)%nat; apply IH.
Qed.

(** Property X8. Reading a chain file gives back its certificates. When
    the file is the lines of some certificates, each ended by a line with
    the end marker, joined by line feeds and possibly followed by lines
    without the marker (an empty last line, an unfinished certificate),
    the result is those certificates, each as its lines joined by line
    feeds: empty lines and the unfinished tail are dropped. Without
    [ssl.ca] in the configuration the result is [undefined]. *)
Theorem getCertificateAuthority_reads_chain
    (readFileSync : JsValue -> string) (context : Context) (file : JsValue)
    (blocks : list (list string)) (tail : list string) :
  (getConfig context "ssl.ca" = None ->
   getCertificateAuthority readFileSync context = None)
  /\ (getConfig context "ssl.ca" = Some file -> truthy file = true ->
      Forall certificate_lines blocks ->
      Forall (fun line => ends_certificate line = false) tail ->
      Forall (fun line => "010"%char ∉ String.list_ascii_of_string line)
        (concat blocks ++ tail) ->
      readFileSync file = join newline (concat blocks ++ tail) ->
      getCertificateAuthority readFileSync context = Some (map (join newline) blocks)).
Proof.
  split.
  - intros Hnone. unfold getCertificateAuthority. rewrite Hnone. reflexivity.
  - intros Hcfg Htruthy Hblocks Htail Hlines Hfile.
    unfold getCertificateAuthority. rewrite Hcfg. cbn [truthy_opt]. rewrite Htruthy.
    f_equal. rewrite Hfile.
    destruct (concat blocks ++ tail) as [|line lines] eqn:Hall.
    + apply app_eq_nil in Hall as [Hconcat ->].
      destruct Hblocks as [|block blocks (body & last & -> & _ & _) _]; [reflexivity|].
      cbn [concat] in Hconcat. apply app_eq_nil in Hconcat as [Hnil _].
      apply app_eq_nil in Hnil as [_ Hnil]. discriminate.
    + change newline with (str1 "010"%char).
      rewrite (split_join "010"%char (line :: lines)) by (congruence || exact Hlines).
      rewrite <- Hall, (certificate_loop_blocks blocks tail [] Hblocks).
      apply certificate_loop_unfinished. exact Htail.
Qed.

Lemma getCertificateAuthority_witness :
  getCertificateAuthority (fun _ => Sample.chain_file) Sample.ssl_context
  = Some (map (join newline) Sample.chain_blocks).
Proof.
  apply (proj2 (getCertificateAuthority_reads_chain (fun _ => Sample.chain_file)
                  Sample.ssl_context (JStr "/etc/ssl/chain.pem") Sample.chain_blocks
                  [EmptyString])).
  - vm_compute. reflexivity.
  - reflexivity.
  - repeat constructor.
    + exists ["-----BEGIN CERTIFICATE-----"; "MIIB"], "-----END CERTIFICATE-----".
      split; [reflexivity|]. split; [|reflexivity].
      repeat constructor; discriminate.
    + exists ["-----BEGIN CERTIFICATE-----"; "MIIC"], "-----END CERTIFICATE-----".
      split; [reflexivity|]. split; [|reflexivity].
      repeat constructor; discriminate.
  - repeat constructor.
  - apply (bool_decide_unpack _). vm_compute. exact I.
  - reflexivity.
Defined.

(* ===================================================================== *)
(** ** Server: registering handlers *)
(* ===================================================================== *)

Section RegistrationFacts.
Context `{UrlManager}.

(** Property X9. [registerHandler] accepts exactly the verbs [get],
    [put], [post] and [delete], in lower case. For one of them it adds
    one route to the application, under that verb, at the suffix
    prefixed by the dynamic base path when the route is dynamic, and
    leaves the routes already there in place; for any other action it
    throws and registers nothing. *)
Theorem registerHandler_accepts_four_verbs
    (app : list Route) (context : Context) (handler : RestServiceHandler)
    (action suffix : string) (dynamic cacheable : bool) :
  (action ∈ supported_verbs ->
   registerHandler app context handler action suffix dynamic cacheable
   = Normal (app ++ [mkRoute action
                       ((if dynamic then getDynamicBaseUrl context else EmptyString)
                        +:+ suffix)
                       handler cacheable None]))
  /\ (action ∉ supported_verbs ->
      registerHandler app context handler action suffix dynamic cacheable
      = Throw (mkError "Error" ("Unsupported HTTP action " +:+ action))).
Proof.
  unfold supported_verbs, registerHandler. split.
  - rewrite !elem_of_cons. intros [->|[->|[->|[->|Hin]]]]; try reflexivity.
    inversion Hin.
  - rewrite !not_elem_of_cons. intros (Hget & Hput & Hpost & Hdelete & _).
    destruct (String.eqb_spec action "get"); [congruence|].
    destruct (String.eqb_spec action "put"); [congruence|].
    destruct (String.eqb_spec action "post"); [congruence|].
    destruct (String.eqb_spec action "delete"); [congruence|].
    reflexivity.
Qed.

End RegistrationFacts.

Lemma registerHandler_witness :
  @registerHandler Sample.urlManager [] (Sample.server_context ∅)
    (Sample.failing_handler Sample.refused) "GET" "/ping" false false
  = Throw (mkError "Error" "Unsupported HTTP action GET").
Proof.
  apply (proj2 (@registerHandler_accepts_four_verbs Sample.urlManager []
                  (Sample.server_context ∅) (Sample.failing_handler Sample.refused)
                  "GET" "/ping" false false)).
  unfold supported_verbs. rewrite !not_elem_of_cons.
  repeat split; try discriminate. intros Hin. inversion Hin.
Defined.

(* ===================================================================== *)
(** ** The registry: counting registrations *)
(* ===================================================================== *)

Lemma remove_first_appended (ws : WebSocket) (l : list WebSocket) :
  ws ∉ l -> remove_first ws (l ++ [ws]) = l.
Proof.
  induction l as [|y l IH]; intros Hnot; simpl.
  - destruct (decide (ws = ws)); [reflexivity | congruence].
  - apply not_elem_of_cons in Hnot as [Hne Hnot].
    destruct (decide (y = ws)); [congruence|]. rewrite IH by exact Hnot. reflexivity.
Qed.

Lemma copies_absent (ws : WebSocket) (l : list WebSocket) :
  ws ∉ l -> copies ws l = O.
Proof.
  intros Hnot. destruct (copies ws l) eqn:Hc; [reflexivity|].
  exfalso. apply Hnot, copies_pos. lia.
Qed.

Lemma sessions_insert (sockets : Registry) (userId other : string) (l : list WebSocket) :
  sessions (<[userId := l]> sockets) other
  = if decide (userId = other) then l else sessions sockets other.
Proof.
  unfold sessions. destruct (decide (userId = other)) as [<-|Hne].
  - rewrite lookup_insert_eq. reflexivity.
  - rewrite lookup_insert_ne by exact Hne. reflexivity.
Qed.

Lemma sessions_delete (sockets : Registry) (userId other : string) :
  sessions (delete userId sockets) other
  = if decide (userId = other) then [] else sessions sockets other.
Proof.
  unfold sessions. destruct (decide (userId = other)) as [<-|Hne].
  - rewrite lookup_delete_eq. reflexivity.
  - rewrite lookup_delete_ne by exact Hne. reflexivity.
Qed.

Lemma unregister_sessions (sockets : Registry) (context : Context) (ws : WebSocket)
    (u : User) :
  user context = Some u ->
  sessions (fst (unregisterClientSocket sockets context ws)) (user_id u)
  = remove_first ws (sessions sockets (user_id u))
  /\ forall other, other <> user_id u ->
       sessions (fst (unregisterClientSocket sockets context ws)) other
       = sessions sockets other.
Proof.
  intros Hu. unfold unregisterClientSocket, find_sockets. rewrite Hu.
  destruct (sockets !! user_id u) as [l|] eqn:Hl; cbn [fst].
  - assert (Hs : sessions sockets (user_id u) = l) by (unfold sessions; rewrite Hl; reflexivity).
    destruct (0 <=? indexOf l ws) eqn:Hidx.
    + apply indexOf_found in Hidx. destruct (1 <? length l)%nat eqn:Hlen; cbn [fst].
      * rewrite splice1_indexOf by exact Hidx. split.
        -- rewrite sessions_insert, Hs. destruct (decide (user_id u = user_id u));
             [reflexivity | congruence].
        -- intros other Hne. rewrite sessions_insert.
           destruct (decide (user_id u = other)); [congruence | reflexivity].
      * apply Nat.ltb_ge in Hlen. split.
        -- rewrite sessions_delete, Hs.
           destruct (decide (user_id u = user_id u)); [|congruence].
           destruct l as [|y [|z l]]; simpl in Hlen; try lia; [inversion Hidx|].
           apply list_elem_of_singleton in Hidx. subst y. simpl.
           destruct (decide (ws = ws)); [reflexivity | congruence].
        -- intros other Hne. rewrite sessions_delete.
           destruct (decide (user_id u = other)); [congruence | reflexivity].
    + cbn [fst]. split; [|reflexivity]. rewrite Hs.
      assert (Hnot : ws ∉ l).
      { intros Hin. apply indexOf_found in Hin. congruence. }
      clear -Hnot. induction l as [|y l IH]; [reflexivity|].
      apply not_elem_of_cons in Hnot as [Hne Hnot]. simpl.
      destruct (decide (y = ws)); [congruence|]. rewrite <- IH by exact Hnot. reflexivity.
  - destruct (bool_decide (user_id u ∈ Object_prototype_names)); cbn [fst];
      (split; [|reflexivity]); unfold sessions; rewrite Hl; reflexivity.
Qed.

Lemma copies_remove_first (ws w : WebSocket) (l : list WebSocket) :
  copies w (remove_first ws l)
  = if decide (w = ws) then Nat.pred (copies w l) else copies w l.
Proof.
  destruct (decide (w = ws)) as [->|Hne].
  - destruct (decide (ws ∈ l)) as [Hin|Hnot].
    + rewrite <- (copies_remove_first_same ws l Hin). reflexivity.
    + rewrite (copies_absent ws l Hnot).
      assert (Hsame : remove_first ws l = l).
      { clear -Hnot. induction l as [|y l IH]; [reflexivity|].
        apply not_elem_of_cons in Hnot as [Hne Hnot]. simpl.
        destruct (decide (y = ws)); [congruence|]. rewrite IH by exact Hnot. reflexivity. }
      rewrite Hsame. apply copies_absent. exact Hnot.
  - apply copies_remove_first_other. exact Hne.
Qed.

(** Property X10. For a context with a user whose registry lookup does
    not find an inherited value, registration and unregistration return
    without exception; a registration adds exactly one listing of the
    socket to that user's sessions and an unregistration removes exactly
    one (none when the socket is not listed); the listings of every other
    socket, and the sessions of every other user, stay as they were. *)
Theorem registration_counts
    (sockets : Registry) (context : Context) (ws : WebSocket) (u : User) :
  user context = Some u ->
  find_sockets sockets (user_id u) <> Inherited ->
  snd (registerClientSocket sockets context ws) = None
  /\ snd (unregisterClientSocket sockets context ws) = None
  /\ (forall w,
        copies w (sessions (fst (registerClientSocket sockets context ws)) (user_id u))
        = if decide (w = ws) then S (copies w (sessions sockets (user_id u)))
          else copies w (sessions sockets (user_id u)))
  /\ (forall w,
        copies w (sessions (fst (unregisterClientSocket sockets context ws)) (user_id u))
        = if decide (w = ws) then Nat.pred (copies w (sessions sockets (user_id u)))
          else copies w (sessions sockets (user_id u)))
  /\ (forall other, other <> user_id u ->
        sessions (fst (registerClientSocket sockets context ws)) other
        = sessions sockets other
        /\ sessions (fst (unregisterClientSocket sockets context ws)) other
           = sessions sockets other).
Proof.
  intros Hu Hplain.
  destruct (unregister_sessions sockets context ws u Hu) as [Hsame Hother].
  rewrite (register_lookup sockets context ws u Hu Hplain). cbn [fst snd].
  split; [reflexivity|]. split; [|split; [|split]].
  - apply unregister_returns. intros u' Hu'. rewrite Hu in Hu'.
    injection Hu' as <-. exact Hplain.
  - intros w. rewrite sessions_insert.
    destruct (decide (user_id u = user_id u)); [|congruence].
    rewrite copies_app, copies_cons. change (copies w []) with O.
    destruct (decide (ws = w)) as [->|Hne].
    + destruct (decide (w = w)); [lia | congruence].
    + destruct (decide (w = ws)); [congruence | lia].
  - intros w. rewrite Hsame. apply copies_remove_first.
  - intros other Hne. split; [|exact (Hother other Hne)].
    rewrite sessions_insert.
    destruct (decide (user_id u = other)); [congruence | reflexivity].
Qed.

Lemma registration_counts_witness :
  copies 1%nat
    (sessions (fst (unregisterClientSocket {[ "u1" := [1%nat; 2%nat; 1%nat] ]}
                      (Sample.u1_on_socket_1 Sample.no_config) 1%nat)) "u1") = 1%nat.
Proof.
  destruct (registration_counts {[ "u1" := [1%nat; 2%nat; 1%nat] ]}
              (Sample.u1_on_socket_1 Sample.no_config) 1%nat Sample.u1)
    as (_ & _ & _ & Hunregister & _).
  - reflexivity.
  - vm_compute. discriminate.
  - etransitivity; [exact (Hunregister 1%nat) | vm_compute; reflexivity].
Defined.

(** Property X11. Registering a socket that the user does not have yet
    and unregistering it again gives back the registry as it was, also
    when the socket was the user's only one, provided the registry maps
    that user to no empty list. *)
Theorem register_then_unregister
    (sockets : Registry) (context : Context) (ws : WebSocket) (u : User) :
  user context = Some u -> ws ∉ sessions sockets (user_id u) ->
  sockets !! user_id u <> Some [] ->
  fst (unregisterClientSocket (fst (registerClientSocket sockets context ws)) context ws)
  = sockets.
Proof.
  intros Hu Hnot Hne.
  destruct (find_sockets sockets (user_id u)) eqn:Hfound.
  2:{ rewrite (register_inherited sockets context ws u Hu Hfound). cbn [fst].
      rewrite (unregister_inherited sockets context ws u Hu Hfound). reflexivity. }
  all: rewrite (register_lookup sockets context ws u Hu) by congruence; cbn [fst];
    clear Hfound; unfold sessions in *;
    destruct (sockets !! user_id u) as [l|] eqn:Hl; simpl in *.
  1,3: destruct l as [|y l]; [congruence|];
    rewrite (unregister_one_of_many _ context ws u ((y :: l) ++ [ws]) Hu);
    [ cbn [fst]; rewrite remove_first_appended by exact Hnot;
      rewrite insert_insert_eq; apply insert_id; exact Hl
    | apply lookup_insert_eq
    | apply elem_of_app; right; left
    | rewrite length_app; simpl; lia ].
  all: rewrite (unregister_last _ context ws u Hu (lookup_insert_eq _ _ _));
    apply delete_insert_id; exact Hl.
Qed.

Lemma register_then_unregister_witness :
  fst (unregisterClientSocket
         (fst (registerClientSocket Sample.u1_alone
                 (Sample.u1_on_socket_1 Sample.no_config) 2%nat))
         (Sample.u1_on_socket_1 Sample.no_config) 2%nat)
  = Sample.u1_alone.
Proof.
  apply (register_then_unregister Sample.u1_alone
           (Sample.u1_on_socket_1 Sample.no_config) 2%nat Sample.u1 eq_refl).
  - vm_compute. intros Hin. apply elem_of_cons in Hin as [Hin|Hin];
      [discriminate | inversion Hin].
  - vm_compute. discriminate.
Defined.

(** Property X12. A signout closes the sessions of the user in the order
    they are listed, once for each listing. After it a multicast to that
    user sends nothing, a second signout does nothing, and the sessions
    of the other users are as before. *)
Theorem signout_silences_user
    (sockets : Registry) (userId : string) (context : Context) (message : JsValue) :
  (forall u, user context = Some u -> user_id u = userId) ->
  snd (onUserSignedOut sockets userId) = map WsClose (sessions sockets userId)
  /\ deliverMessage (fst (onUserSignedOut sockets userId)) context message true = []
  /\ onUserSignedOut (fst (onUserSignedOut sockets userId)) userId
     = (fst (onUserSignedOut sockets userId), [])
  /\ (forall other, other <> userId ->
        sessions (fst (onUserSignedOut sockets userId)) other = sessions sockets other).
Proof.
  intros Hctx. rewrite signout_result. cbn [fst snd].
  split; [reflexivity|]. split; [|split].
  - unfold deliverMessage. destruct (user context) as [u|] eqn:Hu; [|reflexivity].
    rewrite (Hctx u eq_refl), lookup_delete_eq. reflexivity.
  - unfold onUserSignedOut. rewrite lookup_delete_eq. reflexivity.
  - intros other Hne. rewrite sessions_delete.
    destruct (decide (userId = other)); [congruence | reflexivity].
Qed.

Lemma signout_silences_user_witness :
  deliverMessage (fst (onUserSignedOut Sample.u1_alone "u1"))
    (Sample.u1_on_socket_1 Sample.no_config) msg_open_success true = [].
Proof.
  apply (signout_silences_user Sample.u1_alone "u1"
           (Sample.u1_on_socket_1 Sample.no_config) msg_open_success).
  intros u Hu. injection Hu as <-. reflexivity.
Defined.

(* ===================================================================== *)
(** ** Websocket messages: what a message can and cannot do *)
(* ===================================================================== *)

Lemma filter_none (f : Effect -> bool) (calls : list Effect) :
  Forall (fun c => f c = false) calls -> filter f calls = [].
Proof.
  induction 1 as [|c calls Hc _ IH]; [reflexivity|].
  rewrite filter_cons. destruct (decide (f c)) as [Ht|_]; [|exact IH].
  rewrite Hc in Ht. destruct Ht.
Qed.

Lemma deliverMessage_only_sends (sockets : Registry) (context : Context)
    (message : JsValue) (multicast : bool) :
  Forall (fun c => is_finish c = false /\ is_ws_close c = false)
    (deliverMessage sockets context message multicast).
Proof.
  unfold deliverMessage. destruct multicast.
  - destruct (user context) as [u|]; [|constructor].
    destruct (sockets !! user_id u) as [l|]; [|constructor].
    induction l as [|w l IH]; constructor; [split; reflexivity | exact IH].
  - destruct (websocket context); repeat constructor.
Qed.

Section MessageFacts.
Context `{JsRuntime} `{UserManager}.
Variable serviceHandlers : list ServiceHandler.

Lemma card_loop_quiet (hs : list ServiceHandler) (context : Context) (msg : JsValue) :
  Forall (fun c => is_finish c = false /\ is_ws_close c = false)
    (fst (card_loop hs context msg)).
Proof.
  induction hs as [|handler hs IH]; [constructor|]. cbn [card_loop].
  destruct (strict_eq_str (js_get msg "serviceId") (serviceId handler)); [|exact IH].
  destruct (handleClientCardMessage handler context msg); repeat constructor. exact IH.
Qed.

Lemma closed_loop_quiet (hs : list ServiceHandler) (context : Context) :
  Forall (fun c => is_finish c = false /\ is_ws_close c = false)
    (fst (closed_loop hs context)).
Proof.
  induction hs as [|handler hs IH]; [constructor|]. cbn [closed_loop].
  destruct (handleClientSocketClosed handler context); repeat constructor. exact IH.
Qed.

Lemma route_open_footprint (sockets : Registry) (um : UM) (context : Context)
    (ws : WebSocket) (msg : JsValue) :
  Forall (fun c => is_finish c = false /\ is_ws_close c = false)
    (r_effects (route_open sockets um context ws msg))
  /\ (r_sockets (route_open sockets um context ws msg) = sockets
      \/ exists u, r_sockets (route_open sockets um context ws msg)
                   = fst (registerClientSocket sockets (set_user context (Some u)) ws)).
Proof.
  unfold route_open.
  destruct (js_get msg "details") as [details|];
    [destruct (js_get details "userId") as [userId|];
     [destruct (truthy details && truthy userId);
      [destruct (onWebsocketOpenRequest um context ws userId) as [um' [[u|]|e]];
       [destruct (registerClientSocket sockets (set_user context (Some u)) ws)
          as [sockets' [e|]] eqn:Hregister| |]|]|]|];
    cbn [r_effects r_sockets];
    try (replace sockets'
           with (fst (registerClientSocket sockets (set_user context (Some u)) ws))
           by (rewrite Hregister; reflexivity));
    (split;
     [repeat (constructor; [split; reflexivity|]);
      first [apply deliverMessage_only_sends | constructor]
     | first [left; reflexivity | right; eexists; reflexivity]]).
Qed.

Lemma route_message_footprint (sockets : Registry) (um : UM) (context : Context)
    (ws : WebSocket) (text : string) :
  Forall (fun c => is_finish c = false /\ is_ws_close c = false)
    (r_effects (route_message serviceHandlers sockets um context ws text))
  /\ (r_sockets (route_message serviceHandlers sockets um context ws text) = sockets
      \/ exists u, r_sockets (route_message serviceHandlers sockets um context ws text)
                   = fst (registerClientSocket sockets (set_user context (Some u)) ws)).
Proof.
  unfold route_message. destruct (JSON_parse text) as [msg|e].
  - destruct (negb (truthy msg) || negb (truthy_opt (js_get msg "type")));
      [split; [constructor | left; reflexivity]|].
    destruct (strict_eq_str (js_get msg "type") "open"); [apply route_open_footprint|].
    destruct (truthy_opt (js_get msg "serviceId") && truthy_opt (js_get msg "accountId"));
      destruct (user context); cbn [r_effects r_sockets];
      (split; [first [apply card_loop_quiet | repeat constructor] | left; reflexivity]).
  - split; [constructor | left; reflexivity].
Qed.

(** Property X13. A websocket message is handled to the end whatever it
    holds: once the user manager has looked at the event, the handler
    finishes its context exactly once, as its last call, closes no socket
    and resolves. When the user manager throws on the event the handler
    rejects with that error, having made no call: the context is then not
    finished. *)
Theorem websocket_message_finishes_once
    (sockets : Registry) (um um1 : UM) (parentContextData : gmap string JsValue)
    (ws : WebSocket) (request : Request) (text : string)
    (looked : Completion (option User)) :
  onWebsocketEvent um (message_context parentContextData ws) ws request = (um1, looked) ->
  match looked with
  | Normal _ =>
      exists body error,
        snd (fst (handleWebsocketMessage serviceHandlers sockets um parentContextData
                    ws request text))
        = body ++ [Finish "ws-message" error]
        /\ filter is_finish body = []
        /\ filter is_ws_close (body ++ [Finish "ws-message" error]) = []
        /\ snd (handleWebsocketMessage serviceHandlers sockets um parentContextData
                  ws request text) = Returned tt
  | Throw e =>
      handleWebsocketMessage serviceHandlers sockets um parentContextData ws request text
      = (sockets, um1, [], Threw e)
  end.
Proof.
  intros Hev. unfold handleWebsocketMessage.
  fold (message_context parentContextData ws). rewrite Hev.
  destruct looked as [u0|e]; [|reflexivity]. cbn [fst snd].
  destruct (route_message_footprint sockets um1
              (set_user (message_context parentContextData ws) u0) ws text) as [Hq _].
  set (r := route_message serviceHandlers sockets um1
              (set_user (message_context parentContextData ws) u0) ws text) in *.
  exists (r_effects r ++ caught (r_error r)), (r_error r).
  assert (Hbody : Forall (fun c => is_finish c = false /\ is_ws_close c = false)
                    (r_effects r ++ caught (r_error r))).
  { apply Forall_app. split; [exact Hq|].
    unfold caught. destruct (r_error r); repeat constructor. }
  split; [rewrite <- app_assoc; reflexivity|]. split; [|split; [|reflexivity]].
  - apply filter_none. eapply Forall_impl; [exact Hbody|]. intros c [Hc _]. exact Hc.
  - apply filter_none. apply Forall_app. split; [|repeat constructor].
    eapply Forall_impl; [exact Hbody|]. intros c [_ Hc]. exact Hc.
Qed.

(** Property X14. A websocket message never removes a registration: after
    it the sessions of every user are those before it, or those before it
    with the socket the message came on appended. *)
Theorem websocket_message_only_appends
    (sockets : Registry) (um : UM) (parentContextData : gmap string JsValue)
    (ws : WebSocket) (request : Request) (text : string) (userId : string) :
  sessions (fst (fst (fst (handleWebsocketMessage serviceHandlers sockets um
                             parentContextData ws request text)))) userId
  = sessions sockets userId
  \/ sessions (fst (fst (fst (handleWebsocketMessage serviceHandlers sockets um
                                parentContextData ws request text)))) userId
     = sessions sockets userId ++ [ws].
Proof.
  unfold handleWebsocketMessage.
  destruct (onWebsocketEvent um _ ws request) as [um1 [u0|e]]; [|left; reflexivity].
  cbn [fst].
  destruct (route_message_footprint sockets um1
              (set_user (set_websocket (ExecutionContext "ws-message" parentContextData) ws)
                 u0) ws text) as [_ [Hsame|[u Hreg]]].
  - rewrite Hsame. left. reflexivity.
  - rewrite Hreg. clear Hreg.
    destruct (find_sockets sockets (user_id u)) eqn:Hfound.
    2:{ erewrite (register_inherited sockets _ ws u) by (reflexivity || exact Hfound).
        left. reflexivity. }
    all: erewrite (register_lookup sockets _ ws u) by (reflexivity || congruence);
      cbn [fst]; rewrite sessions_insert;
      destruct (decide (user_id u = userId)) as [<-|Hne]; [right | left]; reflexivity.
Qed.

(** Property X15. A payload that is not JSON, or that is JSON without a
    truthy [type], is dropped: the registry and the sockets are left
    alone, a warning is printed and the context is finished with the
    error, which for the second case quotes the payload. *)
Theorem malformed_message_is_dropped
    (sockets : Registry) (um um1 : UM) (parentContextData : gmap string JsValue)
    (ws : WebSocket) (request : Request) (text : string) (u0 : option User)
    (parsed : Completion JsValue) :
  onWebsocketEvent um (message_context parentContextData ws) ws request
  = (um1, Normal u0) ->
  JSON_parse text = parsed ->
  match parsed with
  | Normal msg => truthy msg = false \/ truthy_opt (js_get msg "type") = false
  | Throw _ => True
  end ->
  handleWebsocketMessage serviceHandlers sockets um parentContextData ws request text
  = (sockets, um1,
     [ConsoleWarn "Exception handling client message";
      Finish "ws-message"
        (Some (match parsed with
               | Normal _ =>
                   mkError "Error"
                     ("Unexpected or invalid message: " +:+ QuoteJSONString text)
               | Throw e => e
               end))],
     Returned tt).
Proof.
  intros Hev Hparse Hbad. unfold handleWebsocketMessage.
  fold (message_context parentContextData ws). rewrite Hev.
  unfold route_message. rewrite Hparse. destruct parsed as [msg|e]; [|reflexivity].
  assert (Hcond : negb (truthy msg) || negb (truthy_opt (js_get msg "type")) = true).
  { destruct Hbad as [->| ->]; [reflexivity | apply orb_true_r]. }
  rewrite Hcond. reflexivity.
Qed.

(** Property X16. The open handshake gates the routing. On a socket that
    the user manager binds to no user, a message of a type other than
    [open] reaches neither a service handler nor the application: it is
    dropped with a warning, nothing is sent back and the registry is left
    alone. *)
Theorem message_before_open_is_dropped
    (sockets : Registry) (um um1 : UM) (parentContextData : gmap string JsValue)
    (ws : WebSocket) (request : Request) (text : string) (msg : JsValue) :
  onWebsocketEvent um (message_context parentContextData ws) ws request
  = (um1, Normal None) ->
  JSON_parse text = Normal msg -> truthy msg = true ->
  truthy_opt (js_get msg "type") = true ->
  strict_eq_str (js_get msg "type") "open" = false ->
  exists warning,
    warning ∈ ["Unexpected card client message when no current user";
               "Unexpected app client message when no current user"]
    /\ handleWebsocketMessage serviceHandlers sockets um parentContextData ws request text
       = (sockets, um1,
          [LoggerWarn "handleWebsocketMessage" warning; Finish "ws-message" None],
          Returned tt).
Proof.
  intros Hev Hparse Hmsg Htype Hopen. unfold handleWebsocketMessage.
  fold (message_context parentContextData ws). rewrite Hev.
  unfold route_message. rewrite Hparse, Hmsg, Htype, Hopen. cbn [negb orb].
  destruct (truthy_opt (js_get msg "serviceId") && truthy_opt (js_get msg "accountId")).
  - exists "Unexpected card client message when no current user".
    split; [left | reflexivity].
  - exists "Unexpected app client message when no current user".
    split; [right; left | reflexivity].
Qed.

Lemma card_loop_all_succeed (hs : list ServiceHandler) (context : Context) (msg : JsValue) :
  Forall (fun handler =>
            handles msg handler = true ->
            handleClientCardMessage handler context msg = Normal tt) hs ->
  card_loop hs context msg
  = (map (fun handler => CardMessage (serviceId handler) msg) (filter (handles msg) hs),
     None).
Proof.
  induction 1 as [|handler hs Hok _ IH]; [reflexivity|].
  cbn [card_loop]. rewrite filter_cons. unfold handles in *.
  destruct (strict_eq_str (js_get msg "serviceId") (serviceId handler)) eqn:Hm.
  - rewrite (Hok eq_refl), IH.
    destruct (decide (Is_true true)) as [_|Hn]; [reflexivity|]. exfalso. exact (Hn I).
  - rewrite IH. destruct (decide (Is_true false)) as [Ht|_]; [destruct Ht | reflexivity].
Qed.

Lemma card_loop_stops_at_throw (before after : list ServiceHandler)
    (culprit : ServiceHandler) (context : Context) (msg : JsValue) (e : JsError) :
  Forall (fun handler =>
            handles msg handler = true ->
            handleClientCardMessage handler context msg = Normal tt) before ->
  handles msg culprit = true ->
  handleClientCardMessage culprit context msg = Throw e ->
  card_loop (before ++ culprit :: after) context msg
  = (map (fun handler => CardMessage (serviceId handler) msg)
       (filter (handles msg) before ++ [culprit]),
     Some e).
Proof.
  intros Hbefore Hm Hthrow.
  induction Hbefore as [|handler hs Hok _ IH].
  - cbn [app card_loop filter]. unfold handles in Hm. rewrite Hm, Hthrow. reflexivity.
  - cbn [app card_loop]. rewrite filter_cons. unfold handles in *.
    destruct (strict_eq_str (js_get msg "serviceId") (serviceId handler)) eqn:Hh.
    + rewrite (Hok eq_refl), IH.
      destruct (decide (Is_true true)) as [_|Hn]; [reflexivity|]. exfalso. exact (Hn I).
    + rewrite IH. destruct (decide (Is_true false)) as [Ht|_]; [destruct Ht | reflexivity].
Qed.

(** Property X17. A message that carries a service id and an account id,
    on a socket bound to a user, goes to the service handlers whose id is
    that service id, in their order, and to no other; when no handler has
    that id the message is dropped without warning or error. A handler
    that throws ends the round: the handlers after it are not called, a
    warning is printed and the context is finished with the error. *)
Theorem card_message_reaches_matching_handlers
    (sockets : Registry) (um um1 : UM) (parentContextData : gmap string JsValue)
    (ws : WebSocket) (request : Request) (text : string) (msg : JsValue) (u : User)
    (before after : list ServiceHandler) (culprit : ServiceHandler) (e : JsError) :
  onWebsocketEvent um (message_context parentContextData ws) ws request
  = (um1, Normal (Some u)) ->
  JSON_parse text = Normal msg -> truthy msg = true ->
  truthy_opt (js_get msg "type") = true ->
  strict_eq_str (js_get msg "type") "open" = false ->
  truthy_opt (js_get msg "serviceId") = true ->
  truthy_opt (js_get msg "accountId") = true ->
  Forall (fun handler =>
            handles msg handler = true ->
            handleClientCardMessage handler
              (set_user (message_context parentContextData ws) (Some u)) msg
            = Normal tt) before ->
  (serviceHandlers = before ->
   handleWebsocketMessage serviceHandlers sockets um parentContextData ws request text
   = (sockets, um1,
      map (fun handler => CardMessage (serviceId handler) msg)
        (filter (handles msg) serviceHandlers)
      ++ [Finish "ws-message" None],
      Returned tt))
  /\ (serviceHandlers = before ++ culprit :: after ->
      handles msg culprit = true ->
      handleClientCardMessage culprit
        (set_user (message_context parentContextData ws) (Some u)) msg = Throw e ->
      handleWebsocketMessage serviceHandlers sockets um parentContextData ws request text
      = (sockets, um1,
         map (fun handler => CardMessage (serviceId handler) msg)
           (filter (handles msg) before ++ [culprit])
         ++ [ConsoleWarn "Exception handling client message";
             Finish "ws-message" (Some e)],
         Returned tt)).
Proof.
  intros Hev Hparse Hmsg Htype Hopen Hsid Haid Hbefore.
  unfold handleWebsocketMessage. fold (message_context parentContextData ws).
  rewrite Hev. unfold route_message.
  rewrite Hparse, Hmsg, Htype, Hopen, Hsid, Haid. cbn [negb orb andb set_user user].
  split.
  - intros ->. rewrite (card_loop_all_succeed _ _ _ Hbefore). reflexivity.
  - intros -> Hm Hthrow.
    rewrite (card_loop_stops_at_throw before after culprit _ _ e Hbefore Hm Hthrow).
    reflexivity.
Qed.

Lemma closed_loop_all_succeed (hs : list ServiceHandler) (context : Context) :
  Forall (fun handler => handleClientSocketClosed handler context = Normal tt) hs ->
  closed_loop hs context = (map (fun handler => SocketClosed (serviceId handler)) hs, None).
Proof.
  induction 1 as [|handler hs Hok _ IH]; [reflexivity|].
  cbn [closed_loop]. rewrite Hok, IH. reflexivity.
Qed.

Lemma closed_loop_stops_at_throw (before after : list ServiceHandler)
    (culprit : ServiceHandler) (context : Context) (e : JsError) :
  Forall (fun handler => handleClientSocketClosed handler context = Normal tt) before ->
  handleClientSocketClosed culprit context = Throw e ->
  closed_loop (before ++ culprit :: after) context
  = (map (fun handler => SocketClosed (serviceId handler)) (before ++ [culprit]), Some e).
Proof.
  intros Hbefore Hthrow. induction Hbefore as [|handler hs Hok _ IH].
  - cbn [app closed_loop map]. rewrite Hthrow. reflexivity.
  - cbn [app closed_loop]. rewrite Hok, IH. reflexivity.
Qed.

(** Property X18. When a socket closes and the unregistration does not
    throw (the user the user manager binds the socket to, if any, has no
    id that finds an inherited value in the registry), the registry loses
    one listing of the socket under that user, every service handler is
    told in order, and the context is finished once, as the last call. A
    handler that throws ends the round: the handlers after it are not
    told, and the context is finished with the error; the registry is
    updated all the same. When the unregistration throws, the close
    handler rejects with that TypeError: the registry is left as it was,
    no service handler is told and the context is not finished. *)
Theorem socket_close_notifies_handlers
    (sockets : Registry) (um um1 : UM) (parentContextData : gmap string JsValue)
    (ws : WebSocket) (request : Request) (u0 : option User)
    (before after : list ServiceHandler) (culprit : ServiceHandler) (e : JsError) :
  onWebsocketEvent um (close_context parentContextData) ws request = (um1, Normal u0) ->
  Forall (fun handler =>
            handleClientSocketClosed handler (set_user (close_context parentContextData) u0)
            = Normal tt) before ->
  ((forall u, u0 = Some u -> find_sockets sockets (user_id u) <> Inherited) ->
   snd (unregisterClientSocket sockets (set_user (close_context parentContextData) u0) ws)
   = None
   /\ (serviceHandlers = before ->
       handleWebsocketClose serviceHandlers sockets um parentContextData ws request
       = (fst (unregisterClientSocket sockets
                 (set_user (close_context parentContextData) u0) ws),
          um1,
          LoggerLog "handleWebsocketClose" "Client socket closed"
          :: map (fun handler => SocketClosed (serviceId handler)) serviceHandlers
          ++ [Finish "ws-close" None],
          Returned tt))
   /\ (serviceHandlers = before ++ culprit :: after ->
       handleClientSocketClosed culprit (set_user (close_context parentContextData) u0)
       = Throw e ->
       handleWebsocketClose serviceHandlers sockets um parentContextData ws request
       = (fst (unregisterClientSocket sockets
                 (set_user (close_context parentContextData) u0) ws),
          um1,
          LoggerLog "handleWebsocketClose" "Client socket closed"
          :: map (fun handler => SocketClosed (serviceId handler)) (before ++ [culprit])
          ++ [Finish "ws-close" (Some e)],
          Returned tt)))
  /\ (forall u, u0 = Some u -> find_sockets sockets (user_id u) = Inherited ->
      handleWebsocketClose serviceHandlers sockets um parentContextData ws request
      = (sockets, um1, [LoggerLog "handleWebsocketClose" "Client socket closed"],
         Threw (TypeError "socketList.indexOf is not a function"))).
Proof.
  intros Hev Hbefore. unfold handleWebsocketClose.
  fold (close_context parentContextData). rewrite Hev. split.
  - intros Hplain.
    pose proof (unregister_returns sockets
                  (set_user (close_context parentContextData) u0) ws Hplain) as Hnone.
    split; [exact Hnone|].
    destruct (unregisterClientSocket sockets
                (set_user (close_context parentContextData) u0) ws)
      as [sockets' thrown]. cbn [fst snd] in *. subst thrown. split.
    + intros ->. rewrite (closed_loop_all_succeed _ _ Hbefore). reflexivity.
    + intros -> Hthrow.
      rewrite (closed_loop_stops_at_throw before after culprit _ e Hbefore Hthrow).
      reflexivity.
  - intros u -> Hfound.
    rewrite (unregister_inherited sockets
               (set_user (close_context parentContextData) (Some u)) ws u eq_refl Hfound).
    reflexivity.
Qed.

End MessageFacts.

Lemma websocket_message_finishes_once_witness :
  exists body error,
    snd (fst Sample.ghost_open) = body ++ [Finish "ws-message" error]
    /\ filter is_finish body = []
    /\ filter is_ws_close (body ++ [Finish "ws-message" error]) = []
    /\ snd Sample.ghost_open = Returned tt.
Proof.
  apply (@websocket_message_finishes_once Sample.runtime Sample.userManager []
           ∅ ∅ ∅ Sample.no_config 1%nat Sample.empty_request
           (Sample.wire (Sample.open_as "ghost")) (Normal None)).
  vm_compute. reflexivity.
Defined.

Lemma malformed_message_witness :
  @handleWebsocketMessage Sample.runtime Sample.userManager [] Sample.u1_alone
    Sample.u1_bound Sample.no_config 1%nat Sample.empty_request "null"
  = (Sample.u1_alone, Sample.u1_bound,
     [ConsoleWarn "Exception handling client message";
      Finish "ws-message"
        (Some (mkError "Error"
                 ("Unexpected or invalid message: " +:+ QuoteJSONString "null")))],
     Returned tt).
Proof.
  apply (@malformed_message_is_dropped Sample.runtime Sample.userManager []
           Sample.u1_alone Sample.u1_bound Sample.u1_bound Sample.no_config 1%nat
           Sample.empty_request "null" (Some Sample.u1) (Normal JNull)).
  - vm_compute. reflexivity.
  - vm_compute. reflexivity.
  - left. reflexivity.
Defined.

Lemma message_before_open_witness :
  exists warning,
    warning ∈ ["Unexpected card client message when no current user";
               "Unexpected app client message when no current user"]
    /\ @handleWebsocketMessage Sample.message_runtime Sample.userManager
         [Sample.mail_handler; Sample.drive_handler] Sample.u1_alone ∅ Sample.no_config
         2%nat Sample.empty_request (Sample.wire Sample.card_message)
       = (Sample.u1_alone, ∅,
          [LoggerWarn "handleWebsocketMessage" warning; Finish "ws-message" None],
          Returned tt).
Proof.
  apply (@message_before_open_is_dropped Sample.message_runtime Sample.userManager
           [Sample.mail_handler; Sample.drive_handler] Sample.u1_alone ∅ ∅
           Sample.no_config 2%nat Sample.empty_request
           (Sample.wire Sample.card_message) Sample.card_message).
  - vm_compute. reflexivity.
  - vm_compute. reflexivity.
  - reflexivity.
  - reflexivity.
  - reflexivity.
Defined.

Lemma card_message_witness :
  @handleWebsocketMessage Sample.message_runtime Sample.userManager
    [Sample.mail_handler; Sample.drive_handler] Sample.u1_alone Sample.u1_bound
    Sample.no_config 1%nat Sample.empty_request (Sample.wire Sample.card_message)
  = (Sample.u1_alone, Sample.u1_bound,
     [CardMessage "mail" Sample.card_message; Finish "ws-message" None],
     Returned tt).
Proof.
  apply (proj1 (@card_message_reaches_matching_handlers Sample.message_runtime
                  Sample.userManager [Sample.mail_handler; Sample.drive_handler]
                  Sample.u1_alone Sample.u1_bound Sample.u1_bound Sample.no_config
                  1%nat Sample.empty_request (Sample.wire Sample.card_message)
                  Sample.card_message Sample.u1
                  [Sample.mail_handler; Sample.drive_handler] [] Sample.mail_handler
                  Sample.refused
                  ltac:(vm_compute; reflexivity) ltac:(vm_compute; reflexivity)
                  eq_refl eq_refl eq_refl eq_refl eq_refl
                  ltac:(repeat constructor; discriminate))).
  reflexivity.
Defined.

Lemma socket_close_witness :
  @handleWebsocketClose Sample.userManager [Sample.mail_handler; Sample.drive_handler]
    Sample.u1_alone Sample.u1_bound Sample.no_config 1%nat Sample.empty_request
  = (∅, Sample.u1_bound,
     [LoggerLog "handleWebsocketClose" "Client socket closed";
      SocketClosed "mail"; SocketClosed "drive"; Finish "ws-close" None],
     Returned tt).
Proof.
  destruct (@socket_close_notifies_handlers Sample.userManager
              [Sample.mail_handler; Sample.drive_handler]
              Sample.u1_alone Sample.u1_bound Sample.u1_bound Sample.no_config
              1%nat Sample.empty_request (Some Sample.u1)
              [Sample.mail_handler; Sample.drive_handler] [] Sample.mail_handler
              Sample.refused)
    as [Hreturns _].
  - vm_compute. reflexivity.
  - repeat constructor.
  - destruct Hreturns as (_ & Hall & _).
    + intros u Hu. injection Hu as <-. vm_compute. discriminate.
    + rewrite (Hall eq_refl). vm_compute. reflexivity.
Defined.

(* ===================================================================== *)
(** ** The monitor: reserved frames and the cleared timer *)
(* ===================================================================== *)

Lemma monitor_run_app (pingPong : Q) (m : Monitor) (before after : list SocketEvent) :
  exists m',
    monitor_run pingPong m (before ++ after)
    = monitor_run pingPong m before ++ monitor_run pingPong m' after
    /\ (timerSet m = false -> timerSet m' = false)
    /\ (before = [] -> m' = m).
Proof.
  revert m. induction before as [|ev before IH]; intros m.
  - exists m. repeat split; auto.
  - destruct (IH (fst (monitor_step pingPong m ev))) as (m' & Hrun & Htimer & _).
    exists m'. cbn [app monitor_run]. rewrite Hrun. split; [reflexivity|].
    split; [|discriminate].
    intros Hoff. apply Htimer.
    destruct ev as [now|now data|]; [| |reflexivity].
    + rewrite monitor_step_keeps_deadline_on_timer. exact Hoff.
    + rewrite monitor_step_message. destruct data as [text|]; [|exact Hoff].
      destruct (String.eqb text "__pong__"); [exact Hoff|].
      destruct (is_empty_string text); exact Hoff.
Qed.

Lemma cleared_timer_is_silent (pingPong : Q) (evs : list SocketEvent) (m : Monitor) :
  timerSet m = false -> filter touches_socket (monitor_run pingPong m evs) = [].
Proof.
  revert m. induction evs as [|ev evs IH]; intros m Hoff; [reflexivity|].
  cbn [monitor_run]. rewrite filter_cons.
  destruct ev as [now|now data|].
  - rewrite monitor_step_keeps_deadline_on_timer. cbn [monitor_step]. rewrite Hoff.
    cbn [snd touches_socket]. destruct (decide (Is_true false)) as [Ht|_]; [destruct Ht|].
    apply IH. exact Hoff.
  - rewrite monitor_step_message. destruct data as [text|].
    + destruct (String.eqb text "__pong__");
        [|destruct (is_empty_string text)]; cbn [fst snd touches_socket];
        (destruct (decide (Is_true false)) as [Ht|_]; [destruct Ht|]);
        apply IH; exact Hoff.
    + cbn [fst snd touches_socket].
      destruct (decide (Is_true false)) as [Ht|_]; [destruct Ht|]. apply IH. exact Hoff.
  - cbn [monitor_step fst snd touches_socket].
    destruct (decide (Is_true false)) as [Ht|_]; [destruct Ht|]. apply IH. reflexivity.
Qed.

(** Property X19. Once the close of a socket has been received its timer
    is cleared: whatever events follow, the monitor neither pings nor
    closes that socket again. *)
Theorem closed_socket_timer_is_silent
    (pingPong : Q) (m : Monitor) (before after : list SocketEvent) :
  exists earlier later,
    monitor_run pingPong m (before ++ CloseReceived :: after)
    = earlier ++ DoHandleClose :: later
    /\ earlier = monitor_run pingPong m before
    /\ length later = length after
    /\ filter touches_socket later = [].
Proof.
  destruct (monitor_run_app pingPong m before (CloseReceived :: after))
    as (m' & Hrun & _ & _).
  exists (monitor_run pingPong m before),
         (monitor_run pingPong (mkMonitor (lastPong m') false) after).
  split; [exact Hrun|]. split; [reflexivity|]. split.
  - generalize (mkMonitor (lastPong m') false). clear.
    induction after as [|ev after IH]; intros m0; [reflexivity|].
    cbn [monitor_run length]. rewrite IH. reflexivity.
  - apply cleared_timer_is_silent. reflexivity.
Qed.

Section FrameFacts.
Context `{JsRuntime} `{UserManager}.
Variable serviceHandlers : list ServiceHandler.

(** Property X20. Of the text frames only [__pong__] is kept by the
    monitor: it moves the deadline to the time of its arrival and reaches
    no handler. Every other text that is not empty, the text [__ping__]
    included, is handled as a client message with the calls and the
    registry that [handleWebsocketMessage] gives for it, and leaves the
    deadline where it was; an empty text or a frame that is not text only
    prints a warning. *)
Theorem only_pong_is_reserved
    (pingPong : Q) (context : Context) (ws : WebSocket) (request : Request)
    (sockets : Registry) (um : UM) (m : Monitor) (now : Q) (text : string) :
  socket_event serviceHandlers pingPong context ws request sockets um m
    (MessageReceived now (TextData "__pong__"))
  = (sockets, um, mkMonitor now (timerSet m), [])
  /\ (text <> EmptyString -> text <> "__pong__" ->
      socket_event serviceHandlers pingPong context ws request sockets um m
        (MessageReceived now (TextData text))
      = (fst (fst (fst (handleWebsocketMessage serviceHandlers sockets um
                          (configData context) ws request text))),
         snd (fst (fst (handleWebsocketMessage serviceHandlers sockets um
                          (configData context) ws request text))),
         m,
         snd (fst (handleWebsocketMessage serviceHandlers sockets um
                     (configData context) ws request text))))
  /\ socket_event serviceHandlers pingPong context ws request sockets um m
       (MessageReceived now (TextData EmptyString))
     = (sockets, um, m, [ConsoleWarn "Invalid message received on socket"])
  /\ socket_event serviceHandlers pingPong context ws request sockets um m
       (MessageReceived now OtherData)
     = (sockets, um, m, [ConsoleWarn "Invalid message received on socket"]).
Proof.
  split; [reflexivity|]. split; [|split; reflexivity].
  intros Hne Hpong. unfold socket_event. rewrite monitor_step_message.
  destruct (String.eqb_spec text "__pong__") as [->|_]; [congruence|].
  destruct text as [|c s]; [congruence|]. cbn [is_empty_string].
  destruct (handleWebsocketMessage serviceHandlers sockets um (configData context) ws
              request (String c s)) as [[[sockets' um'] calls] outcome].
  reflexivity.
Qed.

End FrameFacts.

Lemma only_pong_is_reserved_witness :
  snd (@socket_event Sample.runtime Sample.userManager [] 10000 (Sample.server_context ∅)
         1%nat Sample.empty_request ∅ ∅ (accept_socket 10000 0)
         (MessageReceived 5 (TextData "__ping__")))
  = [ConsoleWarn "Exception handling client message";
     Finish "ws-message" (Some (mkError "SyntaxError" "Unexpected token in JSON"))].
Proof.
  rewrite (proj1 (proj2 (@only_pong_is_reserved Sample.runtime Sample.userManager []
                           10000%Q (Sample.server_context ∅) 1%nat Sample.empty_request ∅ ∅
                           (accept_socket 10000 0) 5%Q "__ping__"))).
  - vm_compute. reflexivity.
  - discriminate.
  - discriminate.
Defined.

(* ===================================================================== *)
(** ** The dispatcher: one answer for each request *)
(* ===================================================================== *)

Lemma write_result_answers_once (contentType : option string) (result : RestServiceResult) :
  length (filter is_terminal (write_result contentType result)) = 1%nat
  /\ filter is_finish (write_result contentType result) = [].
Proof.
  unfold write_result.
  destruct (redirectUrl result) as [[|c u]|];
    destruct (json result) as [j|]; cbn [truthy_opt];
    try destruct (truthy j);
    destruct contentType as [[|c' t]|];
    destruct (message result) as [[|c'' m]|];
    split; reflexivity.
Qed.

Section AnswerFacts.
Context `{UserManager}.

(** Property X21. For a request whose handler settles, the dispatcher
    adds to the calls of the handler exactly one call that ends the
    response, and finishes the context exactly once, as its last call:
    without error after a result, with the error after an exception. A
    result with a redirect is answered by that redirect alone; else a
    result with a truthy JSON payload by that payload alone; else by the
    content type, when one is registered, the status of the result (200
    when it gives none) and its message, or an empty body when it has
    none. An exception is logged and answered with status 500 and a
    plain text that quotes the error. *)
Theorem dispatcher_answers_once
    (um : UM) (parentContext : Context) (request : Request)
    (handler : RestServiceHandler) (cacheable : bool) (contentType : option string)
    (u : option User) (calls : list Effect) (outcome : Outcome RestServiceResult) :
  snd (initializeHttpContext um (http_context parentContext) request) = Normal u ->
  handler (set_user (http_context parentContext) u) request = (calls, outcome) ->
  outcome <> Pending ->
  exists answer error,
    snd (fst (handleHttpRequest um parentContext request handler cacheable contentType))
    = (if cacheable then []
       else [SetHeader "Cache-Control" "no-cache, no-store, max-age=0, must-revalidate"])
      ++ calls ++ answer ++ [Finish "http" error]
    /\ length (filter is_terminal answer) = 1%nat
    /\ filter is_finish answer = []
    /\ match outcome with
       | Returned result =>
           error = None
           /\ (forall url, redirectUrl result = Some url -> url <> EmptyString ->
               answer = [Redirect url])
           /\ (truthy_str (redirectUrl result) = false ->
               forall j, json result = Some j -> truthy j = true ->
               answer = [Json j])
           /\ (truthy_str (redirectUrl result) = false ->
               truthy_opt (json result) = false ->
               answer
               = (match contentType with
                  | Some t => if is_empty_string t then [] else [ContentType t]
                  | None => []
                  end)
                 ++ [Status (match statusCode result with
                             | Some code => if code =? 0 then 200 else code
                             | None => 200
                             end);
                     match message result with
                     | Some text => if is_empty_string text then EndResponse else Send text
                     | None => EndResponse
                     end])
       | Threw err =>
           error = Some err
           /\ answer
              = [LoggerError err;
                 SetHeader "Content-Type" "text/plain";
                 Status 500;
                 Send ("Internal server error: "
                       +:+ JSON_stringify (JStr (Error_toString err)) SpaceUndefined)]
       | Pending => False
       end.
Proof.
  intros Hhook Hhandler Hsettled. unfold handleHttpRequest.
  fold (http_context parentContext).
  destruct (initializeHttpContext um (http_context parentContext) request) as [um1 r].
  simpl in Hhook. subst r. rewrite Hhandler.
  destruct outcome as [result|err|]; [| |congruence]; cbn [fst snd].
  - exists (write_result contentType result), None.
    destruct (write_result_answers_once contentType result) as [Hone Hfin].
    split; [reflexivity|]. split; [exact Hone|]. split; [exact Hfin|].
    split; [reflexivity|]. split; [|split].
    + intros url Hurl Hne. unfold write_result. rewrite Hurl.
      destruct url; [congruence | reflexivity].
    + intros Hr j Hj Htruthy. unfold write_result.
      destruct (redirectUrl result) as [[|c url]|]; try discriminate;
        rewrite Hj; cbn [truthy_opt]; rewrite Htruthy; reflexivity.
    + intros Hr Hj. unfold write_result.
      destruct (redirectUrl result) as [[|c url]|]; try discriminate;
        rewrite Hj; destruct contentType as [[|c' t]|];
        destruct (message result) as [[|c'' text]|]; reflexivity.
  - exists (LoggerError err :: sendInternalError (Error_toString err)), (Some err).
    split; [reflexivity|]. repeat split; reflexivity.
Qed.

End AnswerFacts.

Lemma dispatcher_answers_once_witness :
  exists answer error,
    snd (fst (@handleHttpRequest Sample.userManager ∅ (Sample.server_context ∅)
                Sample.profile_request (@handleUserProfile Sample.googleUsers)
                true None))
    = [] ++ [] ++ answer ++ [Finish "http" error]
    /\ length (filter is_terminal answer) = 1%nat
    /\ error = None.
Proof.
  destruct (@dispatcher_answers_once Sample.userManager ∅ (Sample.server_context ∅)
              Sample.profile_request (@handleUserProfile Sample.googleUsers) true None
              None []
              (snd (@handleUserProfile Sample.googleUsers
                      (set_user (http_context (Sample.server_context ∅)) None)
                      Sample.profile_request)))
    as (answer & error & Hcalls & Hone & _ & Hout).
  - reflexivity.
  - vm_compute. reflexivity.
  - vm_compute. discriminate.
  - exists answer, error. split; [exact Hcalls|]. split; [exact Hone|].
    vm_compute in Hout. destruct Hout as [Herr _]. exact Herr.
Defined.

(* ===================================================================== *)
(** ** The callback: requests turned away *)
(* ===================================================================== *)

Section CallbackRejections.
Context `{JsRuntime} `{GoogleEnv} `{UserManager}.

(** Property X22. A callback without code is answered through the
    dispatcher with status 400 and the message [Auth code is missing],
    whatever its state; a callback with a code and a state that parses to
    a falsy value, or to a value without user id or without service list,
    is answered with status 400 and the message [State information is
    missing]. In both cases no code is exchanged with the provider and
    the context is finished without error. *)
Theorem callback_turned_away_with_400
    (um : UM) (parentContext : Context) (request : Request) (u : option User) :
  snd (initializeHttpContext um (http_context parentContext) request) = Normal u ->
  (truthy_str (query request !! "code") = false ->
   snd (fst (handleHttpRequest um parentContext request handleServiceAuthCallback
               false None))
   = [SetHeader "Cache-Control" "no-cache, no-store, max-age=0, must-revalidate";
      Status 400; Send "Auth code is missing"; Finish "http" None])
  /\ (forall st,
        truthy_str (query request !! "code") = true ->
        JSON_parse (ToString_opt (query request !! "state")) = Normal st ->
        truthy st = false \/ truthy_opt (js_get st "braidUserId") = false
        \/ truthy_opt (js_get st "services") = false ->
        snd (fst (handleHttpRequest um parentContext request handleServiceAuthCallback
                    false None))
        = [SetHeader "Cache-Control" "no-cache, no-store, max-age=0, must-revalidate";
           Status 400; Send "State information is missing"; Finish "http" None]).
Proof.
  intros Hhook.
  assert (Hanswer : forall text,
            (forall context,
               handleServiceAuthCallback context request
               = ([], Returned (bad_request text))) ->
            text <> EmptyString ->
            snd (fst (handleHttpRequest um parentContext request
                        handleServiceAuthCallback false None))
            = [SetHeader "Cache-Control" "no-cache, no-store, max-age=0, must-revalidate";
               Status 400; Send text; Finish "http" None]).
  { intros text Hres Hne. unfold handleHttpRequest. fold (http_context parentContext).
    destruct (initializeHttpContext um (http_context parentContext) request) as [um1 r].
    simpl in Hhook. subst r. rewrite Hres.
    destruct text as [|c text]; [congruence | reflexivity]. }
  split.
  - intros Hcode. apply Hanswer; [|discriminate].
    intros context. apply (callback_rejects_missing_code context request Hcode).
  - intros st Hcode Hparse Hst. apply Hanswer; [|discriminate].
    intros context.
    apply (callback_rejects_incomplete_state context request st Hcode Hparse Hst).
Qed.

End CallbackRejections.

(** A callback with a code and a state without service list. *)
Lemma callback_turned_away_witness :
  snd (fst (@handleHttpRequest Sample.userManager ∅ (Sample.server_context ∅)
              (mkRequest (<["state" := Sample.wire Sample.state_without_services]>
                            (query Sample.callback_without_state)))
              Sample.callback_handler false None))
  = [SetHeader "Cache-Control" "no-cache, no-store, max-age=0, must-revalidate";
     Status 400; Send "State information is missing"; Finish "http" None].
Proof.
  apply (proj2 (@callback_turned_away_with_400 Sample.runtime Sample.googleEnv
                  Sample.userManager ∅ (Sample.server_context ∅)
                  (mkRequest (<["state" := Sample.wire Sample.state_without_services]>
                                (query Sample.callback_without_state)))
                  None eq_refl)
           Sample.state_without_services).
  - vm_compute. reflexivity.
  - vm_compute. reflexivity.
  - right. right. reflexivity.
Defined.

(* ===================================================================== *)
(** ** Delivery: who receives a message *)
(* ===================================================================== *)

(** Property X23. A multicast sends each socket as many copies as the
    sessions of the context's user list it, all with the same text, and
    nothing when the context has no user or the user no sessions; a
    unicast sends one copy to the socket bound to the context and to no
    other, and nothing when no socket is bound. *)
Theorem delivery_reaches_own_sockets
    (sockets : Registry) (context : Context) (message : JsValue) (w : WebSocket) :
  sends_to w (deliverMessage sockets context message true)
  = match user context with
    | Some u => copies w (sessions sockets (user_id u))
    | None => O
    end
  /\ (forall ws text,
        WsSend ws text ∈ deliverMessage sockets context message true ->
        text = JSON_stringify message SpaceUndefined)
  /\ sends_to w (deliverMessage sockets context message false)
     = (if decide (websocket context = Some w) then 1 else 0)%nat.
Proof.
  unfold deliverMessage, sessions. split; [|split].
  - destruct (user context) as [u|]; [|reflexivity].
    destruct (sockets !! user_id u) as [l|]; [apply sends_to_multicast | reflexivity].
  - intros ws text Hin. destruct (user context) as [u|]; [|inversion Hin].
    destruct (sockets !! user_id u) as [l|]; [|inversion Hin].
    apply list_elem_of_fmap in Hin as (w' & Heq & _). congruence.
  - destruct (websocket context) as [ws|]; simpl.
    + destruct (decide (ws = w)) as [->|Hne].
      * destruct (decide (Some w = Some w)); [reflexivity | congruence].
      * destruct (decide (Some ws = Some w)); [congruence | reflexivity].
    + destruct (decide (None = Some w)); [discriminate | reflexivity].
Qed.

Lemma delivery_reaches_own_sockets_witness :
  sends_to 1%nat
    (deliverMessage Sample.u1_alone (Sample.u1_on_socket_1 Sample.no_config)
       msg_open_success true) = 1%nat
  /\ sends_to 2%nat
       (deliverMessage Sample.u1_alone (Sample.u1_on_socket_1 Sample.no_config)
          msg_open_success false) = 0%nat.
Proof.
  split.
  - rewrite (proj1 (delivery_reaches_own_sockets Sample.u1_alone
                      (Sample.u1_on_socket_1 Sample.no_config) msg_open_success 1%nat)).
    vm_compute. reflexivity.
  - rewrite (proj2 (proj2 (delivery_reaches_own_sockets Sample.u1_alone
                             (Sample.u1_on_socket_1 Sample.no_config) msg_open_success
                             2%nat))).
    vm_compute. reflexivity.
Defined.

Lemma websocket_message_only_appends_witness :
  sessions (fst (fst (fst Sample.second_open))) "u1"
  = sessions (fst (fst (fst Sample.first_open))) "u1"
  \/ sessions (fst (fst (fst Sample.second_open))) "u1"
     = sessions (fst (fst (fst Sample.first_open))) "u1" ++ [1%nat].
Proof.
  exact (@websocket_message_only_appends Sample.runtime Sample.userManager []
           (fst (fst (fst Sample.first_open))) (snd (fst (fst Sample.first_open)))
           Sample.no_config 1%nat Sample.empty_request
           (Sample.wire (Sample.open_as "u1")) "u1").
Defined.

Lemma closed_socket_timer_witness :
  exists earlier later,
    monitor_run 10000 (accept_socket 10000 0)
      ([TimerFired 10000] ++ CloseReceived :: [TimerFired 20000; TimerFired 30000])
    = earlier ++ DoHandleClose :: later
    /\ earlier = monitor_run 10000 (accept_socket 10000 0) [TimerFired 10000]
    /\ length later = 2%nat
    /\ filter touches_socket later = [].
Proof.
  exact (closed_socket_timer_is_silent 10000 (accept_socket 10000 0)
           [TimerFired 10000] [TimerFired 20000; TimerFired 30000]).
Defined.
